(* ===== verification/_CoqProject ===== *)
-Q . S2P
Prelude.v
Machine.v
Status.v
RawData.v
Regression.v
Window.v
SampleFilter.v
HX711Filter.v
HX711Device.v
NAU7802Filter.v
SharedWindow.v
NAU7802Device.v
PyTypes.v
Demo.v
