(* ===== verification/Prelude.v ===== *)
(** * RPi-pico-weight: a verification development

    The repository holds two MicroPython drivers for load-cell ADCs on a
    Raspberry Pi Pico: [src/HX711/HX711.py] (a bit-banged 24-bit
    converter read over a clock and a data pin) and
    [src/NAU7802/NAU7802.py] (a 24-bit converter read over I2C).  Each
    driver is one class with the same structure:
    - a status byte of OR'd flags (Inited, EnDRDY, EnTimer, PowerOn,
      PeriodicRead, Ready) that gates every method;
    - [__init__] (argument checks), [PowerOn] (configuration and a busy
      wait until the converter is ready), [PowerOff], [getRawData] (one
      signed 24-bit sample), [startReadADC(state, Freq)] (arms or
      disarms a [machine.Timer] whose callback is [updateADC]) and
      [__del__];
    - [updateADC], the timer callback: it reads a sample and runs a
      filter over a fixed window [__dataY] (11 samples for HX711, 21 for
      NAU7802) with abscissae [__dataX = -(N-1)/2 .. (N-1)/2]: the window
      is filled, then slid; [LinearReg] fits a line and [Average]
      averages; the driver publishes [MeanValue], [LinRegVal] and
      [ValStable].  HX711 also drops the saturation code 8388607 and has
      a two-step recheck of suspect samples.

    ** Files and what they model
    - [Prelude] (this file): Python semantics shared by all files.
      Exceptions are values of [result] ([IndexError],
      [ZeroDivisionError], [NoneAttribute], [TypeError], [NameError]), with the
      notations [x <- m ;; k] and [let! p := m in k]; the list
      operations the drivers use ([pop(0)], [pop()], [append], [l[i]],
      [l[i] = x], [l[-1] = x], [ord]); the bit operators [&.], [|.],
      [~.]; the hint database [weight].
    - [Machine]: the [machine.Timer] the drivers receive, idle or
      periodic at a frequency, and its [init] call.
    - [Status]: a status byte as a record of eight flags ([decode]); the
      bit operations commute with [decode], so every guard of the code
      becomes a boolean formula over flags (tactics [by_flags],
      [flags_eval]).
    - [RawData]: [HX711Wire] (the clock loop of [HX711.getRawData]),
      [NAU7802Wire] (the three-byte combination of
      [NAU7802.getRawData]) and the sign conversion [sign24].
    - [Regression]: [LinearReg] (both loops) and [Average], shared by
      the two drivers (their code is identical), over exact rationals.
    - [Window]: the window moves [slide] ([pop(0); append]) and
      [replace_last] ([pop(); append]) and the abstraction [lastn N h],
      the last [N] samples of a history.
    - [SampleFilter]: the interface between a device and its filter, a
      class with a step on one sample, a reset and a well-formedness
      predicate, and the laws the devices rely on (every sample and the
      reset keep it, without raising).  Both filters are instances; the
      device invariants are proved against the laws.
    - [HX711Filter] (Module [HX711Filter]): the filter attributes as
      [state] and [updateADC]'s filter body as [accept_out] = [fill] |
      [track] | [recheck_out], then [stability], returning with the new
      state the backups line 112 prints ([print("Corrected: remove
      %d")]); [accept] and [recheck] are their effect on the
      attributes, and [run] feeds a sequence.
    - [HX711Device] (Module [HX711Device]): the object as [device]
      (status, channel mode, timer, SCK level, armed DOUT interrupt,
      filter), one definition per method ([updateADC_out] the timer
      callback with what it prints, [updateADC] its effect on the
      object), the busy wait [wait_ready]
      with fuel, and the relation [step] of calls, interrupts and timer
      ticks.
    - [NAU7802Filter] (Module [NAU7802Filter]): the filter of
      [NAU7802.updateADC] ([fill] | [track], no recheck, no saturation
      test, threshold 200).
    - [NAU7802Device] (Module [NAU7802Device]): the object as [device]
      (status, [__CTRL1], [__CTRL2], bus, DRDY pin, timer, [__SPS],
      filter) plus the trace of I2C transactions it issued.  The
      converter is a [chip]: the value of each register and the DRDY
      level as functions of the bus history, so any converter behaviour
      is covered.  One definition per method, [PowerOn] split into
      [power_up] (register writes) and [wait_ready] (the poll loop, with
      fuel), and the relation [step].
    - [SharedWindow]: [__dataY] is a class attribute mutated in place,
      so all objects of a class share it.  [shared] is the store of the
      class list and two objects' instance attributes, [tickA]/[tickB]
      their timer callbacks ([tick_on] runs a filter on the class
      list); the class [Windowed] splits a filter state into its window
      and the rest.
    - [PyTypes]: the Python types of the published attributes
      ([is_num] for [isinstance(MeanValue, float)]), for every
      reachable object of both drivers.
    - [Demo]: the [__main__] scripts.  [hx711_main]/[nau_main] are the
      try block up to the print loop, [loop] the [while True:] loop on
      an explicit interleaving of [loop_event]s (a pass that prints, a
      timer tick, a DOUT edge, Ctrl-C), generic in the object and in
      the console line through a Section, and recording, in order,
      the loop's prints and those of the timer callback (HX711's
      [Corrected] lines, [line]); [on_KeyboardInterrupt] the handler, [main_end] and
      [loop_end] how the script ends (the bare [except: pass]
      included).  [wait_or_interrupt] (HX711) and
      [nau_wait_or_interrupt] (NAU7802) are [PowerOn]'s wait with
      Ctrl-C raised in its [j]-th sleep, and [hx711_main_ctrl_c],
      [nau_main_ctrl_c] the try block when that happens.

    ** What is proved
    - Regression: on collinear points [LinearReg] returns the line with
      residual 0; with abscissae summing to 0 its intercept is the mean
      of the window, which is why [LinRegVal] equals [MeanValue] in both
      drivers; with at most two points it returns [(0,0,0)].
    - HX711 filter: the behaviour of every branch of [accept]
      (tracking, recheck keep, recheck rollback), the invariant [wf]
      kept by every sample without exception, the saturation code never
      in the window, the recheck disarmed after one sample, and
      scenarios (fill, constant, ramp, spike, step); line 112 prints
      exactly when a recheck keeps the corrected window, and prints the
      suspect it removed ([accept_out_prints]).
    - NAU7802 filter: refinement of the last-21-samples window
      ([run_refines_lastn]): the window is [lastn 21] of the history and
      the published values are the fit and mean of that window; the
      saturation code is accepted.
    - Devices: an invariant of every reachable object (by induction on
      [reachable]); the success and refusal conditions of
      [startReadADC]; stopping is idempotent; [PowerOn] returns as soon
      as the converter is ready and never returns if it never is; the
      sample decoded is the one the converter holds (round trips of the
      wire formats, and bounds); and the defects found: [PowerOff]
      leaves the timer armed (both drivers), NAU7802's [PowerOff]
      clears EnTimer so periodic reading never restarts, and NAU7802's
      [__init__] accepts rate codes that leave [__SPS = 0].
    - Shared window: with two NAU7802 objects, the samples of one enter the other's window and its
      published mean ([nau_shared_interference], and a concrete
      counterexample), and likewise for two HX711 objects while the
      tracking one has no recheck pending ([hx711_shared_interference]).
    - Types: every reachable object publishes a numeric [MeanValue] and
      a [ValStable] of 0 or 1 ([published_outputs_typed]).
    - Demos: each reaches its print loop once the converter is ready
      ([hx711_demo_reads], [nau_demo_reads]); the HX711 demo writes
      exactly the console lines of the reference [filter_prints_out]
      run with [accept_out] on the decoded samples, the callback's
      [Corrected] lines included ([hx711_demo_prints]), and the
      NAU7802 demo those of [filter_prints] on the values the
      converter presents ([nau_demo_prints]); no interleaving of
      ticks, edges and passes raises, and Ctrl-C stops the reading and
      powers off but ends in [NameError] instead of [machine.reset()]
      ([hx711_demo_ctrl_c], [nau_demo_ctrl_c]); Ctrl-C during HX711's
      [PowerOn] wait powers off and raises [NameError] with nothing
      printed ([hx711_demo_ctrl_c_wait]); Ctrl-C during NAU7802's poll loop
      writes 0x01 to PU_CTRL after the configuration and the polls and
      raises [NameError] ([nau_demo_ctrl_c_wait]).

    ** Modelling choices, fuel and bounds
    - Integers are [Z]; the status is a byte and the sample a signed
      24-bit value, and both facts are proved ([is_byte], [in_range24]).
    - Python floats are exact rationals [Q].  [LinearReg_sums_exact]
      proves that the sums of [LinearReg], the products formed from them
      and its numerators and determinant are integers below 2^53 on the
      drivers' windows, so binary64 computes them exactly; the three
      divisions and the residual loop are rounded by Python and exact
      here, so the theorems about [a], [b] and [e] describe the
      real-number values the code approximates.
    - The busy waits have no bound in the code; the models take fuel.
      [wait_ready] with fuel [k+2] suffices when the converter is ready
      at the [k]-th check (the liveness theorems prove this bound), and
      with no ready event the result is [None] for every fuel.
    - The DOUT edges (HX711) and the converter's answers (NAU7802) are
      parameters ([falls], [dout], [chip]), universally quantified in
      the theorems.
    - The demos run on MicroPython, whose compiler does not mangle
      private names: [ADC.__Status] at module level reads the object's
      status (under CPython it would raise [AttributeError]).

    ** Not modelled
    - Timing ([sleep], [sleep_us]) and pin electrical behaviour; the
      characters [print] writes (the model records each console line
      as the values printed, or as the backup a [Corrected] line
      reports).
    - Ctrl-C arriving outside a sleep (inside [__init__],
      [startReadADC] or a bus transaction), and what the
      MicroPython runtime does after a timer callback raises (the loop
      model stops there, [CallbackRaised]; the theorems show it does
      not happen in the demos).
    - The sharing of [__dataX] (only read, so harmless), and HX711
      interference through a pending recheck (the steady case is
      proved).
    - The converter's internal register semantics (any behaviour is a
      [chip]) and the contents of the I2C scan (its result is a
      parameter of [init]). *)

From stdpp Require Import base list options decidable.
From Stdlib Require Import ZArith Lia.

(** ** Notations of the development *)

Declare Scope weight_scope.
Delimit Scope weight_scope with W.

(** Python exceptions that the modelled code can raise.  A fallible
    Python statement is modelled as a function into [result]; the
    exception is a value, never an assumption. *)
Inductive py_exn :=
| IndexError          (** [list.pop] on an empty list, [l[i]] out of range *)
| ZeroDivisionError   (** float division by [0.0] *)
| NoneAttribute       (** a method called on [None] (no timer object) *)
| TypeError           (** [ord()] of a bytes object whose length is not 1 *)
| NameError.          (** a global the module never bound ([machine]) *)

#[export] Instance py_exn_eq_dec : EqDecision py_exn.
Proof. solve_decision. Defined.

Inductive result (A : Type) :=
| Ok (a : A)
| Raise (e : py_exn).
Arguments Ok {A} a.
Arguments Raise {A} e.

Definition rbind {A B} (m : result A) (k : A -> result B) : result B :=
  match m with Ok a => k a | Raise e => Raise e end.

Notation "x <- m ;; k" := (rbind m (fun x => k))
  (at level 60, m at next level, right associativity) : weight_scope.
Notation "'let!' p := m 'in' k" := (rbind m (fun x => match x with p => k end))
  (at level 10, p pattern, m at level 100, k at level 200) : weight_scope.

(** Bitwise operators on the status byte, spelled as in Python. *)
Notation "a &. b" := (Z.land a b) (at level 40, left associativity) : weight_scope.
Notation "a |. b" := (Z.lor a b) (at level 50, left associativity) : weight_scope.
Notation "~. a" := (Z.lnot a) (at level 35, right associativity) : weight_scope.

Open Scope weight_scope.

(** Python truthiness of an integer ([if x:]). *)
Definition truthy (z : Z) : bool := negb (Z.eqb z 0).

(** ** Python list operations *)

Section PyList.
Context {A : Type}.

(** [l.pop(0)]. *)
Definition py_pop_first (l : list A) : result (A * list A) :=
  match l with
  | [] => Raise IndexError
  | x :: r => Ok (x, r)
  end.

(** [l.pop()]: removes and returns the last element. *)
Fixpoint py_pop_last (l : list A) : result (A * list A) :=
  match l with
  | [] => Raise IndexError
  | [x] => Ok (x, [])
  | x :: r => let! (y, r') := py_pop_last r in Ok (y, x :: r')
  end.

(** [l.append(x)]. *)
Definition py_append (l : list A) (x : A) : list A := l ++ [x].

(** [l[i] = x] for a non-negative index [i]. *)
Definition py_setitem (l : list A) (i : nat) (x : A) : result (list A) :=
  if decide (i < length l) then Ok (<[i:=x]> l) else Raise IndexError.

(** [l[i]] for a non-negative index [i]. *)
Definition py_getitem (l : list A) (i : nat) : result A :=
  match l !! i with Some x => Ok x | None => Raise IndexError end.

(** [l[-1] = x]. *)
Definition py_setlast (l : list A) (x : A) : result (list A) :=
  match l with
  | [] => Raise IndexError
  | _ => Ok (removelast l ++ [x])
  end.
End PyList.

(** [ord(b)] on a [bytes] object, a list of byte values. *)
Definition py_ord (b : list Z) : result Z :=
  match b with [x] => Ok x | _ => Raise TypeError end.

(** ** Automation *)

Create HintDb weight discriminated.
Create Rewrite HintDb weight.

Ltac rsimpl :=
  repeat match goal with
         | H : Ok _ = Ok _ |- _ => injection H as H
         | H : Raise _ = Ok _ |- _ => discriminate H
         | H : Ok _ = Raise _ |- _ => discriminate H
         | |- context [rbind (Ok _) _] => cbn [rbind]
         end.

(** ** Shared lemmas *)

Lemma rbind_Ok {A B} (a : A) (k : A -> result B) : rbind (Ok a) k = k a.
Proof. reflexivity. Qed.

Lemma py_pop_first_cons {A} (x : A) r : py_pop_first (x :: r) = Ok (x, r).
Proof. reflexivity. Qed.

Lemma py_pop_last_snoc {A} (l : list A) (x : A) :
  py_pop_last (l ++ [x]) = Ok (x, l).
Proof.
  induction l as [|y l IH]; [reflexivity|].
  cbn [app]. destruct l as [|z l]; [reflexivity|].
  change (py_pop_last (y :: (z :: l) ++ [x]))
    with (let! (w, r') := py_pop_last ((z :: l) ++ [x]) in Ok (w, y :: r')).
  by rewrite IH.
Qed.

Lemma removelast_snoc {A} (l : list A) (x : A) : removelast (l ++ [x]) = l.
Proof. induction l as [|y [|z l] IH]; cbn; [done|done|]. cbn in IH. by rewrite IH. Qed.

Lemma py_setlast_snoc {A} (l : list A) (x y : A) :
  py_setlast (l ++ [x]) y = Ok (l ++ [y]).
Proof. unfold py_setlast. rewrite removelast_snoc. by destruct l. Qed.

Lemma py_setitem_ok {A} (l : list A) i x :
  i < length l -> py_setitem l i x = Ok (<[i:=x]> l).
Proof. intros Hi. unfold py_setitem. by rewrite decide_True. Qed.

Lemma py_setitem_length {A} (l l' : list A) i x :
  py_setitem l i x = Ok l' -> length l' = length l.
Proof.
  unfold py_setitem. case_decide; intros Hr; rsimpl. subst. apply length_insert.
Qed.

Lemma length_py_append {A} (l : list A) x : length (py_append l x) = S (length l).
Proof. unfold py_append. rewrite length_app. cbn. lia. Qed.

(** A list of positive length is a [snoc]. *)
Lemma list_snoc_exists {A} (l : list A) :
  l <> [] -> exists r x, l = r ++ [x].
Proof.
  intros Hl. destruct (exists_last Hl) as [r [x ->]]. eauto.
Qed.

(** ** Shared lemmas on integers *)

(** A non-negative integer with no bit set from [w] on is below [2^w]. *)
Lemma bits_bound (w x : Z) :
  (0 <= w)%Z -> (0 <= x)%Z -> (forall n, (w <= n)%Z -> Z.testbit x n = false) ->
  (x < 2 ^ w)%Z.
Proof.
  intros Hw Hx Hb. destruct (Z.eq_dec x 0) as [->|Hne]; [apply Z.pow_pos_nonneg; lia|].
  apply Z.log2_lt_pow2; [lia|].
  destruct (Z.lt_ge_cases (Z.log2 x) w) as [|Hge]; [done|].
  pose proof (Z.bit_log2 x ltac:(lia)) as Hbit. by rewrite Hb in Hbit.
Qed.

(** Shifting in one bit on the right: [(d<<1)|b]. *)
Lemma lor_shiftl1_b2z (d : Z) (b : bool) :
  Z.lor (Z.shiftl d 1) (Z.b2z b) = (2 * d + Z.b2z b)%Z.
Proof.
  rewrite Z.shiftl_mul_pow2, Z.pow_1_r, Z.mul_comm by lia.
  apply Z.bits_inj'. intros n Hn. rewrite Z.lor_spec.
  replace (2 * d)%Z with (2 * d + Z.b2z false)%Z at 1 by (cbn; lia).
  replace (Z.b2z b) with (2 * 0 + Z.b2z b)%Z at 1 by lia.
  destruct (Z.eq_dec n 0) as [->|Hn'].
  - by rewrite !Z.testbit_0_r.
  - replace n with (Z.succ (n - 1)) by lia.
    rewrite !Z.testbit_succ_r, Z.bits_0, orb_false_r by lia. done.
Qed.

#[export] Hint Rewrite @py_pop_first_cons @py_pop_last_snoc @py_setlast_snoc
  @removelast_snoc @rbind_Ok : weight.
#[export] Hint Resolve py_setitem_ok : weight.
