(* ===== verification/Machine.v ===== *)
(** * The MicroPython [machine.Timer] object as the drivers use it

    Both drivers receive a [machine.Timer] (or [None]) as [TimerPort] and
    only ever call its [init] method: [init(freq=F, mode=Timer.PERIODIC,
    callback=self.updateADC)] to start periodic reading and
    [init(callback=None)] to stop it.  The timer is library code; its
    state here is what the drivers rely on: idle, or calling
    [updateADC] periodically at [F] Hz. *)

From stdpp Require Import base decidable.
From Stdlib Require Import ZArith.
From S2P Require Import Prelude.

(** The state of a [machine.Timer]. *)
Inductive timer :=
| TimIdle
| TimPeriodic (freq : Z).

#[export] Instance timer_eq_dec : EqDecision timer.
Proof. solve_decision. Defined.

(** [self.__Tim.init(...)]: an [AttributeError] when [__Tim] is [None]. *)
Definition tim_init (t : option timer) (cfg : timer) : result (option timer) :=
  match t with
  | None => Raise NoneAttribute
  | Some _ => Ok (Some cfg)
  end.
