(* ===== verification/Status.v ===== *)
(** * The status byte of the two drivers

    Both [HX711] and [NAU7802] keep their lifecycle in one integer
    [__Status] whose bits are OR'd flags (HX711.py lines 13-18,
    NAU7802.py lines 13-18), updated with [|=], [&=~flag] and masks such
    as [&=0xE0].  This file gives the abstraction of such a byte into a
    record of eight booleans ([decode]) and proves that [Z.lor],
    [Z.land] and [Z.lnot] on the byte are the bitwise operations on the
    record, so the drivers' guards and updates can be reasoned about as
    boolean formulas.  The flag positions are shared by both drivers:
    bit 7 Inited, bit 6 EnDRDY (NAU7802 only), bit 5 EnTimer, bit 4
    PowerOn, bit 3 PeriodicRead, bit 2 OutReady / ADCReady. *)

From stdpp Require Import base tactics decidable.
From Stdlib Require Import ZArith Lia.
From S2P Require Import Prelude.

Local Open Scope Z_scope.

Record flags := mkFlags {
  fl_inited : bool;        (** bit 7, 0x80 *)
  fl_en_drdy : bool;       (** bit 6, 0x40 *)
  fl_en_timer : bool;      (** bit 5, 0x20 *)
  fl_power_on : bool;      (** bit 4, 0x10 *)
  fl_periodic : bool;      (** bit 3, 0x08 *)
  fl_ready : bool;         (** bit 2, 0x04 *)
  fl_bit1 : bool;          (** bit 1, unused *)
  fl_bit0 : bool           (** bit 0, unused *)
}.

#[export] Instance flags_eq_dec : EqDecision flags.
Proof. solve_decision. Defined.

Definition decode (s : Z) : flags :=
  mkFlags (Z.testbit s 7) (Z.testbit s 6) (Z.testbit s 5) (Z.testbit s 4)
          (Z.testbit s 3) (Z.testbit s 2) (Z.testbit s 1) (Z.testbit s 0).

Definition flags_map2 (op : bool -> bool -> bool) (a b : flags) : flags :=
  mkFlags (op (fl_inited a) (fl_inited b)) (op (fl_en_drdy a) (fl_en_drdy b))
          (op (fl_en_timer a) (fl_en_timer b)) (op (fl_power_on a) (fl_power_on b))
          (op (fl_periodic a) (fl_periodic b)) (op (fl_ready a) (fl_ready b))
          (op (fl_bit1 a) (fl_bit1 b)) (op (fl_bit0 a) (fl_bit0 b)).

Definition flags_not (a : flags) : flags :=
  mkFlags (negb (fl_inited a)) (negb (fl_en_drdy a)) (negb (fl_en_timer a))
          (negb (fl_power_on a)) (negb (fl_periodic a)) (negb (fl_ready a))
          (negb (fl_bit1 a)) (negb (fl_bit0 a)).

Definition flags_zero : flags := decode 0.

(** A byte: the range every status value stays in. *)
Definition is_byte (s : Z) : Prop := 0 <= s < 256.

(** ** The abstraction commutes with the bit operations *)

Lemma decode_lor a b : decode (a |. b) = flags_map2 orb (decode a) (decode b).
Proof. unfold decode, flags_map2. by rewrite !Z.lor_spec. Qed.

Lemma decode_land a b : decode (a &. b) = flags_map2 andb (decode a) (decode b).
Proof. unfold decode, flags_map2. by rewrite !Z.land_spec. Qed.

Lemma decode_lnot a : decode (~. a) = flags_not (decode a).
Proof. unfold decode, flags_not. rewrite !Z.lnot_spec; done || lia. Qed.

Lemma byte_testbit_high s n : is_byte s -> 8 <= n -> Z.testbit s n = false.
Proof.
  intros [H0 H1] Hn. destruct (Z.eq_dec s 0) as [->|Hs]; [by destruct n|].
  apply Z.bits_above_log2; [lia|].
  enough (Z.log2 s < 8) by lia. apply Z.log2_lt_pow2; lia.
Qed.

(** Two bytes with the same flags are equal: [decode] is injective on
    the range the status stays in. *)
Lemma decode_inj a b : is_byte a -> is_byte b -> decode a = decode b -> a = b.
Proof.
  intros Ha Hb Hd. apply Z.bits_inj'. intros n Hn.
  destruct (Z.lt_ge_cases n 8) as [Hlt|Hge].
  - injection Hd as H7 H6 H5 H4 H3 H2 H1 H0.
    assert (n = 0 \/ n = 1 \/ n = 2 \/ n = 3 \/ n = 4 \/ n = 5 \/ n = 6 \/ n = 7)
      as Hn' by lia.
    destruct_or!; by subst.
  - by rewrite !byte_testbit_high.
Qed.

(** A non-negative integer with no bit set from 8 on is a byte. *)
Lemma byte_of_bits x :
  0 <= x -> (forall n, 8 <= n -> Z.testbit x n = false) -> is_byte x.
Proof.
  intros Hx Hb. split; [done|]. change 256 with (2 ^ 8). by apply bits_bound.
Qed.

Lemma is_byte_land_r s m : 0 <= s -> is_byte m -> is_byte (s &. m).
Proof.
  intros Hs Hm. apply byte_of_bits; [apply Z.land_nonneg; lia|].
  intros n Hn. by rewrite Z.land_spec, (byte_testbit_high m), andb_false_r.
Qed.

Lemma is_byte_land_l s m : is_byte s -> is_byte (s &. m).
Proof.
  intros Hs. apply byte_of_bits; [apply Z.land_nonneg; unfold is_byte in *; lia|].
  intros n Hn. by rewrite Z.land_spec, (byte_testbit_high s).
Qed.

Lemma is_byte_lor a b : is_byte a -> is_byte b -> is_byte (a |. b).
Proof.
  intros Ha Hb. apply byte_of_bits; [apply Z.lor_nonneg; unfold is_byte in *; lia|].
  intros n Hn. by rewrite Z.lor_spec, (byte_testbit_high a), (byte_testbit_high b).
Qed.

#[export] Hint Resolve is_byte_land_l is_byte_lor : weight.

(** ** Guards of the drivers as flag formulas *)

(** [if s & f:] for a mask [f] of the byte range. *)
Lemma truthy_land_byte s m :
  is_byte (s &. m) ->
  truthy (s &. m) = negb (bool_decide (flags_map2 andb (decode s) (decode m) = flags_zero)).
Proof.
  intros Hb. unfold truthy. rewrite <- decode_land.
  destruct (Z.eqb_spec (s &. m) 0) as [He|Hne].
  - rewrite He. by rewrite bool_decide_eq_true_2.
  - rewrite bool_decide_eq_false_2; [done|].
    intros Hd. apply Hne, decode_inj; [done|split; lia|done].
Qed.

(** [(s & m) == m] for a mask [m] of the byte range. *)
Lemma land_eqb_byte s m :
  0 <= s -> is_byte m ->
  Z.eqb (s &. m) m = bool_decide (flags_map2 andb (decode s) (decode m) = decode m).
Proof.
  intros Hs Hm. rewrite <- decode_land.
  destruct (Z.eqb_spec (s &. m) m) as [He|Hne].
  - rewrite He. by rewrite bool_decide_eq_true_2.
  - rewrite bool_decide_eq_false_2; [done|].
    intros Hd. apply Hne, decode_inj; auto using is_byte_land_r.
Qed.

(** [a == b] on bytes compares their flags. *)
Lemma eqb_byte a b :
  is_byte a -> is_byte b -> Z.eqb a b = bool_decide (decode a = decode b).
Proof.
  intros Ha Hb. destruct (Z.eqb_spec a b) as [->|Hne].
  - by rewrite bool_decide_eq_true_2.
  - rewrite bool_decide_eq_false_2; [done|]. intros Hd. by apply Hne, decode_inj.
Qed.

(** A guard over the flags of a byte holds for all 256 flag values:
    case analysis on the eight flags, each case by computation. *)
Ltac by_flags s :=
  generalize (decode s); intros [[] [] [] [] [] [] [] []]; vm_compute; reflexivity.

(** Rewriting a status expression into flags: [decode] pushed through
    the bit operations, the flags of the numeric constants computed, and
    the resulting boolean formulas simplified. *)
Ltac flags_eval :=
  rewrite ?decode_lor, ?decode_land, ?decode_lnot in *;
  repeat match goal with
         | |- context [decode (Zpos ?p)] =>
             let v := eval vm_compute in (decode (Zpos p)) in change (decode (Zpos p)) with v
         | H : context [decode (Zpos ?p)] |- _ =>
             let v := eval vm_compute in (decode (Zpos p)) in change (decode (Zpos p)) with v in H
         end;
  cbn [flags_map2 flags_not fl_inited fl_en_drdy fl_en_timer fl_power_on
       fl_periodic fl_ready fl_bit1 fl_bit0 negb] in *;
  rewrite ?orb_false_r, ?orb_true_r, ?andb_true_r, ?andb_false_r in *.
