(* ===== verification/RawData.v ===== *)
(** * Raw 24-bit samples: the converters' wire formats

    The two [getRawData] methods turn what the converter sends into a
    signed 24-bit integer:
    - HX711.py lines 84-93: [ChMode] (25, 26 or 27) clock pulses; on each
      of the first 24 the level of DOUT is shifted in,
      [data=(data<<1)|DOUT.value()], most significant bit first;
    - NAU7802.py lines 122-124: three register bytes combined as
      [(tmp[0]<<16)|(tmp[1]<<8)|tmp[2]];
    - both then sign-convert with
      [if data&0x800000: data=(data&0x7FFFFF)-0x800000] ([sign24]).

    The theorems show that the decoded value is a signed 24-bit integer,
    that both wire formats round-trip every such integer (encoding it the
    way the converter sends it and decoding it gives it back), and that
    the extra clock pulses that select the next channel and gain do not
    change the sample. *)

From stdpp Require Import base tactics list.
From Stdlib Require Import ZArith Lia.
From S2P Require Import Prelude.

Local Open Scope Z_scope.

(** The saturation code of the converters, [0x7FFFFF]. *)
Definition sentinel : Z := 8388607.

(** The sign conversion of both drivers. *)
Definition sign24 (data : Z) : Z :=
  if truthy (data &. 0x800000) then (data &. 0x7FFFFF) - 0x800000 else data.

(** A signed 24-bit value, the range of a raw sample. *)
Definition in_range24 (z : Z) : Prop := - 2 ^ 23 <= z < 2 ^ 23.

#[export] Instance in_range24_dec z : Decision (in_range24 z).
Proof. unfold in_range24. apply _. Defined.

Module HX711Wire.

(** One clock pulse [i] of the loop of lines 87-92; [dout i] is the
    level of DOUT (0 or 1) read while SCK is high. *)
Definition shift_step (dout : nat -> Z) (data : Z) (i : nat) : Z :=
  if (i <? 24)%nat then Z.shiftl data 1 |. dout i else data.

(** The loop [for i in range(ChMode)] from [data=0]. *)
Definition clock_in (chmode : nat) (dout : nat -> Z) : Z :=
  fold_left (shift_step dout) (seq 0 chmode) 0.

(** The decoded sample: lines 84-93 up to [return data]. *)
Definition getRawData_value (chmode : nat) (dout : nat -> Z) : Z :=
  sign24 (clock_in chmode dout).

(** What the converter drives on DOUT at pulse [i] to send [z]: the
    bits of its 24-bit two's complement, most significant first. *)
Definition dout_of (z : Z) (i : nat) : Z :=
  Z.b2z (Z.testbit (z mod 2 ^ 24) (23 - Z.of_nat i)).

End HX711Wire.

Module NAU7802Wire.

(** Line 123, on the three bytes read from registers 0x12-0x14. *)
Definition combine (b0 b1 b2 : Z) : Z :=
  Z.shiftl b0 16 |. Z.shiftl b1 8 |. b2.

(** The decoded sample: lines 123-124. *)
Definition getRawData_value (b0 b1 b2 : Z) : Z := sign24 (combine b0 b1 b2).

(** The bytes the converter holds for [z] (ADCO_B2, B1, B0). *)
Definition byte_of (z : Z) (k : Z) : Z := Z.shiftr (z mod 2 ^ 24) (8 * k) mod 2 ^ 8.

End NAU7802Wire.

(** ** The sign conversion *)

(** [if d & 2**k:] tests bit [k]. *)
Lemma truthy_land_pow2 d k : 0 <= k -> truthy (d &. 2 ^ k) = Z.testbit d k.
Proof.
  intros Hk. unfold truthy. destruct (Z.testbit d k) eqn:Hb.
  - apply negb_true_iff, Z.eqb_neq. intros He.
    apply (f_equal (fun x => Z.testbit x k)) in He.
    by rewrite Z.land_spec, Z.pow2_bits_true, Hb, Z.bits_0 in He.
  - apply negb_false_iff, Z.eqb_eq. apply Z.bits_inj'. intros n Hn.
    rewrite Z.land_spec, Z.bits_0, Z.pow2_bits_eqb by lia.
    destruct (Z.eqb_spec k n) as [<-|]; [by rewrite Hb|apply andb_false_r].
Qed.

(** Bit 23 of an unsigned 24-bit word is its sign. *)
Lemma testbit23_sign u : 0 <= u < 2 ^ 24 -> Z.testbit u 23 = negb (u <? 2 ^ 23).
Proof.
  intros Hu. pose proof (Z.testbit_spec' u 23 ltac:(lia)) as Hs.
  destruct (Z.ltb_spec u (2 ^ 23)).
  - rewrite Z.div_small in Hs by lia.
    destruct (Z.testbit u 23); [compute in Hs; discriminate|done].
  - assert (u / 2 ^ 23 = 1) as Hq by (symmetry; apply Z.div_unique_pos with (u - 2 ^ 23); lia).
    rewrite Hq in Hs.
    destruct (Z.testbit u 23); [done|compute in Hs; discriminate].
Qed.

(** On an unsigned 24-bit word, [sign24] is the two's complement reading. *)
Lemma sign24_spec d :
  0 <= d < 2 ^ 24 -> sign24 d = if d <? 2 ^ 23 then d else d - 2 ^ 24.
Proof.
  intros Hd. unfold sign24. change 0x800000 with (2 ^ 23).
  rewrite truthy_land_pow2, testbit23_sign by lia.
  destruct (Z.ltb_spec d (2 ^ 23)); cbn; [done|].
  change 0x7FFFFF with (Z.ones 23). rewrite Z.land_ones by lia.
  rewrite Z.mod_eq by lia.
  assert (d / 2 ^ 23 = 1) as -> by (symmetry; apply Z.div_unique_pos with (d - 2 ^ 23); lia).
  lia.
Qed.

Lemma sign24_range d : 0 <= d < 2 ^ 24 -> in_range24 (sign24 d).
Proof.
  intros Hd. rewrite sign24_spec by done. unfold in_range24.
  destruct (Z.ltb_spec d (2 ^ 23)); lia.
Qed.

(** Decoding the unsigned word of a signed 24-bit value gives it back. *)
Lemma sign24_mod z : in_range24 z -> sign24 (z mod 2 ^ 24) = z.
Proof.
  unfold in_range24. intros Hz.
  pose proof (Z.mod_pos_bound z (2 ^ 24) ltac:(lia)).
  rewrite sign24_spec by lia.
  destruct (Z.leb_spec 0 z).
  - rewrite Z.mod_small by lia. destruct (Z.ltb_spec z (2 ^ 23)); lia.
  - assert (z mod 2 ^ 24 = z + 2 ^ 24) as ->.
    { rewrite Z.mod_eq by lia.
      assert (z / 2 ^ 24 = -1) as -> by (symmetry; apply Z.div_unique_pos with (z + 2 ^ 24); lia).
      lia. }
    destruct (Z.ltb_spec (z + 2 ^ 24) (2 ^ 23)); lia.
Qed.

(** ** The HX711 bit-serial format *)

Module HX711WireFacts.
Import HX711Wire.

Lemma clock_in_S k dout :
  clock_in (S k) dout = shift_step dout (clock_in k dout) k.
Proof. unfold clock_in. by rewrite seq_S, fold_left_app. Qed.

(** After [k] of the first 24 pulses the accumulator holds the [k]
    most significant bits of the word sent. *)
Lemma clock_in_prefix z k :
  (k <= 24)%nat -> clock_in k (dout_of z) = (z mod 2 ^ 24) / 2 ^ (24 - Z.of_nat k).
Proof.
  set (u := z mod 2 ^ 24).
  assert (Hu : 0 <= u < 2 ^ 24) by (apply Z.mod_pos_bound; lia).
  induction k as [|k IH]; intros Hk.
  - cbn. symmetry. apply Z.div_small. lia.
  - rewrite clock_in_S, IH by lia. unfold shift_step.
    rewrite (proj2 (Nat.ltb_lt k 24)) by lia. unfold dout_of.
    rewrite lor_shiftl1_b2z, Z.testbit_spec' by lia. fold u.
    replace (24 - Z.of_nat k) with (Z.succ (23 - Z.of_nat k)) by lia.
    replace (24 - Z.of_nat (S k)) with (23 - Z.of_nat k) by lia.
    rewrite Z.pow_succ_r by lia.
    rewrite (Z.mul_comm 2 (2 ^ (23 - Z.of_nat k))), <- Z.div_div by lia.
    pose proof (Z.div_mod (u / 2 ^ (23 - Z.of_nat k)) 2 ltac:(lia)). lia.
Qed.

(** Pulses 25 to 27 only select the next channel and gain. *)
Lemma clock_in_extra chmode dout :
  (24 <= chmode)%nat -> clock_in chmode dout = clock_in 24 dout.
Proof.
  intros Hc. induction chmode as [|c IH]; [lia|].
  destruct (decide (c = 23%nat)) as [->|Hne]; [done|].
  rewrite clock_in_S, IH by lia. unfold shift_step.
  by rewrite (proj2 (Nat.ltb_ge c 24)) by lia.
Qed.

(** Every bit stream of 0/1 levels decodes to a 24-bit word. *)
Lemma clock_in_bound k dout :
  (forall i, dout i = 0 \/ dout i = 1) ->
  (k <= 24)%nat -> 0 <= clock_in k dout < 2 ^ Z.of_nat k.
Proof.
  intros Hd. induction k as [|k IH]; intros Hk; [cbn; lia|].
  rewrite clock_in_S. unfold shift_step.
  rewrite (proj2 (Nat.ltb_lt k 24)) by lia.
  destruct (Hd k) as [-> | ->];
    [change 0 with (Z.b2z false)|change 1 with (Z.b2z true)];
    rewrite lor_shiftl1_b2z; cbn [Z.b2z];
    rewrite Nat2Z.inj_succ, Z.pow_succ_r by lia; specialize (IH ltac:(lia)); lia.
Qed.

End HX711WireFacts.

(** ** The NAU7802 register format *)

Module NAU7802WireFacts.
Import NAU7802Wire.

Lemma testbit_byte_of z k m :
  0 <= k -> 0 <= m ->
  Z.testbit (byte_of z k) m = (m <? 8) && Z.testbit (z mod 2 ^ 24) (m + 8 * k).
Proof.
  intros Hk Hm. unfold byte_of. destruct (Z.ltb_spec m 8).
  - by rewrite Z.mod_pow2_bits_low, Z.shiftr_spec by lia.
  - by rewrite Z.mod_pow2_bits_high by lia.
Qed.

Lemma testbit_shiftl_byte z k s n :
  0 <= k -> 0 <= s -> 0 <= n ->
  Z.testbit (Z.shiftl (byte_of z k) s) n =
  (s <=? n) && (n <? s + 8) && Z.testbit (z mod 2 ^ 24) (n - s + 8 * k).
Proof.
  intros Hk Hs Hn. rewrite Z.shiftl_spec by lia.
  destruct (Z.leb_spec s n).
  - rewrite testbit_byte_of by lia. cbn. f_equal.
    destruct (Z.ltb_spec (n - s) 8), (Z.ltb_spec n (s + 8)); done || lia.
  - by rewrite Z.testbit_neg_r by lia.
Qed.

(** The three register bytes of a word reassemble it. *)
Lemma combine_bytes z :
  combine (byte_of z 2) (byte_of z 1) (byte_of z 0) = z mod 2 ^ 24.
Proof.
  apply Z.bits_inj'. intros n Hn. unfold combine.
  rewrite !Z.lor_spec, !testbit_shiftl_byte, testbit_byte_of by lia.
  destruct (Z.lt_ge_cases n 24) as [Hlt|Hge].
  - assert (n < 8 \/ 8 <= n < 16 \/ 16 <= n < 24) as Hc by lia.
    destruct_or! Hc;
      repeat match goal with
             | |- context [?a <=? ?b] => destruct (Z.leb_spec a b); try lia
             | |- context [?a <? ?b] => destruct (Z.ltb_spec a b); try lia
             end; cbn; rewrite ?orb_false_r;
      f_equal; lia.
  - rewrite (Z.mod_pow2_bits_high z 24 n) by lia.
    repeat match goal with
           | |- context [Z.testbit (z mod 2 ^ 24) ?m] =>
               rewrite (Z.mod_pow2_bits_high z 24 m) by lia
           end.
    rewrite !andb_false_r. done.
Qed.

Lemma combine_bound b0 b1 b2 :
  0 <= b0 < 2 ^ 8 -> 0 <= b1 < 2 ^ 8 -> 0 <= b2 < 2 ^ 8 ->
  0 <= combine b0 b1 b2 < 2 ^ 24.
Proof.
  intros H0 H1 H2. unfold combine.
  assert (Hnn : 0 <= Z.shiftl b0 16 |. Z.shiftl b1 8 |. b2).
  { apply Z.lor_nonneg; split; [apply Z.lor_nonneg; split|lia];
      apply Z.shiftl_nonneg; lia. }
  split; [done|]. apply bits_bound; [lia|done|]. intros n Hn.
  assert (Hhi : forall b m, 0 <= b < 2 ^ 8 -> 8 <= m -> Z.testbit b m = false).
  { intros b m Hb Hm. rewrite <- (Z.mod_small b (2 ^ 8)) by lia.
    apply Z.mod_pow2_bits_high; lia. }
  rewrite !Z.lor_spec, !Z.shiftl_spec, !Hhi by lia. done.
Qed.

End NAU7802WireFacts.

(** ** Round trips and ranges of [getRawData] *)

Module RawDataFacts.
Import HX711Wire NAU7802Wire HX711WireFacts NAU7802WireFacts.

(** C39: HX711 round trip: when the converter shifts out the 24-bit
    two's complement of a signed 24-bit value [z], most significant bit
    first, the clock loop of [getRawData] with any [ChMode] of at least
    24 pulses (25, 26 and 27 in the driver) returns [z]. *)
Theorem hx711_getRawData_roundtrip z chmode :
  in_range24 z -> (24 <= chmode)%nat -> HX711Wire.getRawData_value chmode (dout_of z) = z.
Proof.
  intros Hz Hc. unfold HX711Wire.getRawData_value.
  rewrite clock_in_extra, clock_in_prefix by lia.
  rewrite Z.sub_diag, Z.pow_0_r, Z.div_1_r. by apply sign24_mod.
Qed.

(** HX711 range: whatever levels (0 or 1) DOUT shows during the
    pulses, the value [getRawData] decodes is a signed 24-bit integer. *)
Theorem hx711_getRawData_range chmode dout :
  (forall i, dout i = 0 \/ dout i = 1) -> in_range24 (HX711Wire.getRawData_value chmode dout).
Proof.
  intros Hd. unfold HX711Wire.getRawData_value. apply sign24_range.
  destruct (Nat.le_gt_cases 24 chmode) as [Hge|Hlt].
  - rewrite clock_in_extra by done. apply (clock_in_bound 24 dout Hd). lia.
  - pose proof (clock_in_bound chmode dout Hd ltac:(lia)) as Hb.
    assert (2 ^ Z.of_nat chmode <= 2 ^ 24) by (apply Z.pow_le_mono_r; lia). lia.
Qed.

(** C40: NAU7802 round trip: the three conversion registers holding the
    24-bit two's complement of a signed 24-bit value [z] (most
    significant byte first) are decoded by [getRawData] to [z]. *)
Theorem nau7802_getRawData_roundtrip z :
  in_range24 z -> NAU7802Wire.getRawData_value (byte_of z 2) (byte_of z 1) (byte_of z 0) = z.
Proof.
  intros Hz. unfold NAU7802Wire.getRawData_value. rewrite combine_bytes. by apply sign24_mod.
Qed.

(** NAU7802 range: any three register bytes decode to a signed
    24-bit integer. *)
Theorem nau7802_getRawData_range b0 b1 b2 :
  0 <= b0 < 256 -> 0 <= b1 < 256 -> 0 <= b2 < 256 ->
  in_range24 (NAU7802Wire.getRawData_value b0 b1 b2).
Proof.
  intros H0 H1 H2. unfold NAU7802Wire.getRawData_value. apply sign24_range.
  apply combine_bound; change (2 ^ 8) with 256; lia.
Qed.

Lemma hx711_getRawData_roundtrip_witness :
  HX711Wire.getRawData_value 25 (dout_of (-5)) = -5.
Proof. apply hx711_getRawData_roundtrip; [unfold in_range24; lia|lia]. Defined.

Lemma hx711_getRawData_range_witness :
  in_range24 (HX711Wire.getRawData_value 27 (fun i => Z.b2z (Nat.even i))).
Proof. apply hx711_getRawData_range. intros i. destruct (Nat.even i); cbn; lia. Defined.

Lemma nau7802_getRawData_roundtrip_witness :
  NAU7802Wire.getRawData_value (byte_of (-8388608) 2) (byte_of (-8388608) 1)
    (byte_of (-8388608) 0) = -8388608.
Proof. apply nau7802_getRawData_roundtrip. unfold in_range24. lia. Defined.

Lemma nau7802_getRawData_range_witness :
  in_range24 (NAU7802Wire.getRawData_value 255 255 255).
Proof. apply nau7802_getRawData_range; lia. Defined.

(** The saturation code is what a converter sends for [2^23 - 1]. *)
Example sentinel_is_max_code :
  HX711Wire.getRawData_value 25 (fun i => if (i =? 0)%nat then 0 else 1) = sentinel /\
  NAU7802Wire.getRawData_value 127 255 255 = sentinel.
Proof. split; reflexivity. Qed.

End RawDataFacts.
