(* ===== verification/Regression.v ===== *)
(** * The regression engine: [LinearReg] and [Average]

    Both drivers carry the same two helpers (HX711.py lines 152-180,
    NAU7802.py lines 162-190):
    - [Average(Y)]: [sum(Y)/len(Y)] when [len(Y)>1]; the list [Y] itself
      when [len(Y)==1]; the integer [0] otherwise;
    - [LinearReg(X, Y)]: when [len(X)>2] and [len(X)==len(Y)], one loop
      accumulating [Sx, Sy, Sxx, Syy, Sxy] over [zip(X, Y)], the
      least-squares slope [a] and intercept [b] with denominator
      [det = Sxx*n - Sx*Sx], and a second loop accumulating
      [|y-(a*x+b)|] whose mean is [e]; otherwise [(0,0,0)].

    Floats are modelled by exact rationals [Q].  The samples are integers
    of at most 24 bits and [|x| <= 10], so every partial sum of the first
    loop is an integer below [2^53] ([sums_exact_bound] below): binary64
    computes those sums exactly, and only the two divisions and the
    residual loop round.  Python raises [ZeroDivisionError] when
    [det = 0.0]; the model returns [Raise ZeroDivisionError] there. *)

From stdpp Require Import base tactics list.
From Stdlib Require Import ZArith QArith Qabs Lia Lqa.
From S2P Require Import Prelude RawData.

(** Python's [x < y] on floats. *)
Definition Qltb (x y : Q) : bool := negb (Qle_bool y x).

Lemma Qltb_lt x y : Qltb x y = true <-> (x < y)%Q.
Proof.
  unfold Qltb. rewrite negb_true_iff. split.
  - intros H. apply Qnot_le_lt. intros Hle. apply Qle_bool_iff in Hle. congruence.
  - intros H. apply not_true_iff_false. intros Hle. apply Qle_bool_iff in Hle. lra.
Qed.

Lemma Qltb_ge x y : Qltb x y = false <-> (y <= x)%Q.
Proof.
  unfold Qltb. rewrite negb_false_iff. apply Qle_bool_iff.
Qed.

(** A Python number or, for [Average] of a one-element list, the list. *)
Inductive pyval :=
| PyNum (q : Q)
| PyList (l : list Z).

(** [sum(Y)] on a list of integers. *)
Definition zsum (Y : list Z) : Z := fold_right Z.add 0%Z Y.

Section Engine.
Local Open Scope Q_scope.

Record sums := mkSums { Sx : Q; Sy : Q; Sxx : Q; Syy : Q; Sxy : Q }.

Definition sums0 : sums := mkSums 0 0 0 0 0.

(** One iteration of the loop of lines 164-169. *)
Definition acc_sums (s : sums) (xy : Z * Z) : sums :=
  let x := inject_Z (fst xy) in
  let y := inject_Z (snd xy) in
  mkSums (Sx s + x) (Sy s + y) (Sxx s + x * x) (Syy s + y * y) (Sxy s + x * y).

(** One iteration of the loop of lines 174-176. *)
Definition acc_residual (a b : Q) (tmp : Q) (xy : Z * Z) : Q :=
  tmp + Qabs (inject_Z (snd xy) - (a * inject_Z (fst xy) + b)).

(** [LinearReg], lines 160-180 of HX711.py.  The type test on [Y[0]]
    always holds: the windows hold Python integers. *)
Definition LinearReg (X Y : list Z) : result (Q * Q * Q) :=
  if ((2 <? length X) && (length X =? length Y))%nat then
    let n := inject_Z (Z.of_nat (length X)) in
    let s := fold_left acc_sums (combine X Y) sums0 in
    let det := Sxx s * n - Sx s * Sx s in
    if Qeq_bool det 0 then Raise ZeroDivisionError else
    let a := (Sxy s * n - Sy s * Sx s) / det in
    let b := (Sxx s * Sy s - Sx s * Sxy s) / det in
    let tmp := fold_left (acc_residual a b) (combine X Y) 0 in
    Ok (a, b, tmp / n)
  else Ok (0, 0, 0).

(** [Average], lines 152-158 of HX711.py. *)
Definition Average (Y : list Z) : pyval :=
  if (1 <? length Y)%nat then
    PyNum (inject_Z (zsum Y) / inject_Z (Z.of_nat (length Y)))
  else if (length Y =? 1)%nat then PyList Y
  else PyNum 0.

End Engine.

Local Open Scope Z_scope.

(** The mean of a list, the value [Average] computes on a window. *)
Definition mean (Y : list Z) : Q :=
  (inject_Z (zsum Y) / inject_Z (Z.of_nat (length Y)))%Q.

(** ** Closed forms of the sums, over the integers *)

(** [sum(f(x) for x in X)]. *)
Definition zsum_map (f : Z -> Z) (X : list Z) : Z := zsum (map f X).

(** [n*Sum(x^2) - Sum(x)^2] for the abscissae [X]: the denominator. *)
Definition det_Z (X : list Z) : Z :=
  Z.of_nat (length X) * zsum_map (fun x => x * x) X - zsum X * zsum X.

Lemma zsum_map_cons f x X : zsum_map f (x :: X) = (f x + zsum_map f X)%Z.
Proof. reflexivity. Qed.

Lemma zsum_map_id X : zsum_map (fun x => x) X = zsum X.
Proof. unfold zsum_map. by rewrite map_id. Qed.

Lemma zsum_map_linear f g m k X :
  zsum_map (fun x => m * f x + k * g x)%Z X = (m * zsum_map f X + k * zsum_map g X)%Z.
Proof. induction X as [|x X IH]; [cbn; lia|]. rewrite !zsum_map_cons, IH. ring. Qed.

Lemma zsum_map_const k X : zsum_map (fun _ => k) X = (k * Z.of_nat (length X))%Z.
Proof. induction X as [|x X IH]; [cbn; lia|]. rewrite zsum_map_cons, IH. cbn [length]. lia. Qed.

Lemma zsum_map_nonneg f X : (forall x, 0 <= f x)%Z -> (0 <= zsum_map f X)%Z.
Proof. intros Hf. induction X as [|x X IH]; [cbn; lia|]. rewrite zsum_map_cons. specialize (Hf x). lia. Qed.

#[export] Hint Rewrite zsum_map_cons zsum_map_id zsum_map_linear zsum_map_const : weight.

(** The sum of squared distances from [h] to the points of [X]. *)
Lemma zsum_sq_dist h X :
  zsum_map (fun y => (h - y) * (h - y))%Z X =
  (Z.of_nat (length X) * (h * h) - 2 * h * zsum X + zsum_map (fun y => y * y) X)%Z.
Proof.
  induction X as [|y X IH]; [cbn; lia|].
  rewrite !zsum_map_cons, IH. cbn [zsum fold_right length]. rewrite Nat2Z.inj_succ.
  fold (zsum X). ring.
Qed.

(** Adding a point [h] adds its squared distances to the others. *)
Lemma det_Z_cons h X :
  det_Z (h :: X) = (det_Z X + zsum_map (fun y => (h - y) * (h - y)) X)%Z.
Proof.
  unfold det_Z. rewrite zsum_sq_dist, zsum_map_cons.
  cbn [zsum fold_right length]. rewrite Nat2Z.inj_succ. fold (zsum X). ring.
Qed.

Lemma det_Z_nonneg X : (0 <= det_Z X)%Z.
Proof.
  induction X as [|h X IH]; [unfold det_Z, zsum_map, zsum; cbn; lia|]. rewrite det_Z_cons.
  pose proof (zsum_map_nonneg (fun y => (h - y) * (h - y))%Z X ltac:(intros; apply Z.square_nonneg)). lia.
Qed.

Lemma zsum_sq_dist_pos h z X :
  In z X -> z <> h -> (0 < zsum_map (fun y => (h - y) * (h - y)) X)%Z.
Proof.
  induction X as [|y X IH]; [done|]. intros [->|Hin] Hne; rewrite zsum_map_cons.
  - pose proof (zsum_map_nonneg (fun y => (h - y) * (h - y))%Z X ltac:(intros; apply Z.square_nonneg)).
    assert (0 < (h - z) * (h - z))%Z by nia. lia.
  - specialize (IH Hin Hne). pose proof (Z.square_nonneg (h - y)). cbn beta. lia.
Qed.

(** The denominator vanishes only when all abscissae are equal. *)
Lemma det_Z_pos X x y : In x X -> In y X -> x <> y -> (0 < det_Z X)%Z.
Proof.
  destruct X as [|h X]; [done|]. intros Hx Hy Hne. rewrite det_Z_cons.
  pose proof (det_Z_nonneg X).
  destruct (decide (x = h)) as [->|Hxh].
  - destruct Hy as [->|Hy]; [done|].
    pose proof (zsum_sq_dist_pos h y X Hy (not_eq_sym Hne)). lia.
  - destruct Hx as [->|Hx]; [done|].
    pose proof (zsum_sq_dist_pos h x X Hx Hxh). lia.
Qed.

(** ** The accumulation loop computes the integer sums *)

Lemma zsum_cons x Y : zsum (x :: Y) = x + zsum Y.
Proof. reflexivity. Qed.

Lemma combine_map_r (f : Z -> Z) X : combine X (map f X) = map (fun x => (x, f x)) X.
Proof. induction X as [|x X IH]; cbn; [done|]. by rewrite IH. Qed.

Lemma map_fst_combine (X Y : list Z) :
  length X = length Y -> map fst (combine X Y) = X.
Proof.
  revert Y. induction X as [|x X IH]; intros [|y Y] Hl; cbn in *; try done.
  f_equal. apply IH. lia.
Qed.

Lemma map_snd_combine (X Y : list Z) :
  length X = length Y -> map snd (combine X Y) = Y.
Proof.
  revert Y. induction X as [|x X IH]; intros [|y Y] Hl; cbn in *; try done.
  f_equal. apply IH. lia.
Qed.

Lemma inject_Z_sub (a b : Z) : (inject_Z (a - b) == inject_Z a - inject_Z b)%Q.
Proof. unfold Qminus. rewrite <- inject_Z_opp, <- inject_Z_plus. reflexivity. Qed.

(** Pushing [inject_Z] through a ring expression. *)
Ltac push_inject_Z :=
  repeat first [rewrite inject_Z_plus | rewrite inject_Z_sub | rewrite inject_Z_mult].

Section Closed.
Local Open Scope Q_scope.


Lemma fold_acc_proj (p : sums -> Q) (t : Z * Z -> Z) :
  (forall s xy, p (acc_sums s xy) == p s + inject_Z (t xy)) ->
  forall l s, p (fold_left acc_sums l s) == p s + inject_Z (zsum (map t l)).
Proof.
  intros Hp l. induction l as [|xy l IH]; intros s; cbn [fold_left map].
  - unfold zsum. cbn. ring.
  - rewrite IH, Hp, zsum_cons, inject_Z_plus. ring.
Qed.

Definition pair_sum (t : Z * Z -> Z) (l : list (Z * Z)) : Z := zsum (map t l).

(** What the first loop leaves in [Sx], [Sy], [Sxx] and [Sxy]. *)
Lemma sums_closed l :
  let s := fold_left acc_sums l sums0 in
  Sx s == inject_Z (pair_sum fst l) /\ Sy s == inject_Z (pair_sum snd l) /\
  Sxx s == inject_Z (pair_sum (fun xy => fst xy * fst xy)%Z l) /\
  Sxy s == inject_Z (pair_sum (fun xy => fst xy * snd xy)%Z l).
Proof.
  unfold pair_sum. cbv zeta.
  repeat split;
    [ rewrite (fold_acc_proj Sx fst) | rewrite (fold_acc_proj Sy snd)
    | rewrite (fold_acc_proj Sxx (fun xy => fst xy * fst xy)%Z)
    | rewrite (fold_acc_proj Sxy (fun xy => fst xy * snd xy)%Z) ];
    try (cbn [Sx Sy Sxx Sxy sums0]; ring);
    intros s xy; cbn [acc_sums Sx Sy Sxx Sxy]; rewrite ?inject_Z_mult; reflexivity.
Qed.

(** The numerators of the slope and the intercept, as the code writes
    them, over the integer sums. *)
Definition num_a (X Y : list Z) : Z :=
  (zsum (map (fun xy => fst xy * snd xy) (combine X Y)) * Z.of_nat (length X)
   - zsum Y * zsum X)%Z.

Definition num_b (X Y : list Z) : Z :=
  (zsum_map (fun x => x * x) X * zsum Y
   - zsum X * zsum (map (fun xy => fst xy * snd xy) (combine X Y)))%Z.

Lemma pair_sum_sq X Y :
  length X = length Y ->
  pair_sum (fun xy => fst xy * fst xy)%Z (combine X Y) = zsum_map (fun x => x * x)%Z X.
Proof.
  intros Hl. unfold pair_sum, zsum_map.
  rewrite <- (map_fst_combine X Y Hl) at 2. by rewrite map_map.
Qed.

(** The central computation: on a window of the right length whose
    abscissae are not all equal, [LinearReg] returns the least-squares
    line and the mean absolute residual. *)
Lemma LinearReg_eq X Y :
  (2 < length X)%nat -> length X = length Y -> det_Z X <> 0%Z ->
  exists a b e, LinearReg X Y = Ok (a, b, e) /\
    a == inject_Z (num_a X Y) / inject_Z (det_Z X) /\
    b == inject_Z (num_b X Y) / inject_Z (det_Z X) /\
    e == fold_left (acc_residual a b) (combine X Y) 0 / inject_Z (Z.of_nat (length X)).
Proof.
  intros Hn Hl Hd. unfold LinearReg.
  rewrite (proj2 (Nat.ltb_lt 2 _) Hn), (proj2 (Nat.eqb_eq _ _) Hl). cbn [andb].
  destruct (sums_closed (combine X Y)) as (HSx & HSy & HSxx & HSxy).
  set (s := fold_left acc_sums (combine X Y) sums0) in *.
  unfold pair_sum in *. rewrite map_fst_combine in HSx by done.
  rewrite map_snd_combine in HSy by done.
  change (zsum (map (fun xy => fst xy * fst xy)%Z (combine X Y)))
    with (pair_sum (fun xy => fst xy * fst xy)%Z (combine X Y)) in HSxx.
  rewrite pair_sum_sq in HSxx by done.
  assert (Hdet : Sxx s * inject_Z (Z.of_nat (length X)) - Sx s * Sx s == inject_Z (det_Z X)).
  { rewrite HSxx, HSx. unfold det_Z. push_inject_Z. ring. }
  assert (Hdb : Qeq_bool (Sxx s * inject_Z (Z.of_nat (length X)) - Sx s * Sx s) 0 = false).
  { apply not_true_iff_false. intros Hq%Qeq_bool_eq. rewrite Hdet in Hq.
    apply Hd, inject_Z_injective. exact Hq. }
  rewrite Hdb. do 3 eexists. split; [reflexivity|].
  split; [|split; [|reflexivity]].
  - rewrite Hdet, HSxy, HSy, HSx. unfold num_a. push_inject_Z. reflexivity.
  - rewrite Hdet, HSxy, HSy, HSx, HSxx. unfold num_b. push_inject_Z. reflexivity.
Qed.

End Closed.

(** ** Sums of affine images *)

Lemma zsum_map_affine (m k : Z) X :
  zsum_map (fun x => m * x + k)%Z X = (m * zsum X + k * Z.of_nat (length X))%Z.
Proof.
  induction X as [|x X IH]; [cbn; lia|]. rewrite zsum_map_cons, IH, zsum_cons.
  cbn [length]. lia.
Qed.

Lemma zsum_map_x_affine (m k : Z) X :
  zsum_map (fun x => x * (m * x + k))%Z X =
  (m * zsum_map (fun x => x * x)%Z X + k * zsum X)%Z.
Proof.
  induction X as [|x X IH]; [cbn; lia|]. rewrite !zsum_map_cons, IH, zsum_cons. ring.
Qed.

Lemma num_a_collinear (m k : Z) X :
  num_a X (map (fun x => m * x + k)%Z X) = (m * det_Z X)%Z.
Proof.
  unfold num_a, det_Z. rewrite combine_map_r, map_map. cbn [fst snd].
  fold (zsum_map (fun x => x * (m * x + k))%Z X).
  fold (zsum_map (fun x => m * x + k)%Z X).
  rewrite zsum_map_x_affine, zsum_map_affine. ring.
Qed.

Lemma num_b_collinear (m k : Z) X :
  num_b X (map (fun x => m * x + k)%Z X) = (k * det_Z X)%Z.
Proof.
  unfold num_b, det_Z. rewrite combine_map_r, map_map. cbn [fst snd].
  fold (zsum_map (fun x => x * (m * x + k))%Z X).
  fold (zsum_map (fun x => m * x + k)%Z X).
  rewrite zsum_map_x_affine, zsum_map_affine. ring.
Qed.

Section Properties.
Local Open Scope Q_scope.

Lemma Qdiv_inject_Z_mult (c d : Z) :
  d <> 0%Z -> inject_Z (c * d) / inject_Z d == inject_Z c.
Proof.
  intros Hd. rewrite inject_Z_mult. field.
  intros H. apply Hd, inject_Z_injective. exact H.
Qed.

(** The residual loop adds nothing on points that lie on the line. *)
Lemma fold_residual_exact (a b : Q) l :
  (forall xy, In xy l -> inject_Z (snd xy) == a * inject_Z (fst xy) + b) ->
  forall t, fold_left (acc_residual a b) l t == t.
Proof.
  induction l as [|xy l IH]; intros Hl t; cbn [fold_left]; [reflexivity|].
  rewrite IH by (intros; apply Hl; by right).
  unfold acc_residual. rewrite (Hl xy (or_introl eq_refl)).
  setoid_replace (a * inject_Z (fst xy) + b - (a * inject_Z (fst xy) + b)) with 0
    using relation Qeq by ring.
  change (Qabs 0) with 0. ring.
Qed.

Lemma fold_residual_nonneg (a b : Q) l t :
  0 <= t -> 0 <= fold_left (acc_residual a b) l t.
Proof.
  revert t. induction l as [|xy l IH]; intros t Ht; cbn [fold_left]; [done|].
  apply IH. unfold acc_residual.
  pose proof (Qabs_nonneg (inject_Z (snd xy) - (a * inject_Z (fst xy) + b))). lra.
Qed.

(** [Average] of a window of two or more samples is its mean. *)
Lemma Average_window Y : (1 < length Y)%nat -> Average Y = PyNum (mean Y).
Proof. intros Hl. unfold Average. by rewrite (proj2 (Nat.ltb_lt 1 _) Hl). Qed.

(** On a window of at most two points, or when the two lists
    differ in length, [LinearReg] returns the zero result [(0,0,0)]
    instead of failing. *)
Theorem LinearReg_short X Y :
  (length X <= 2 \/ length X <> length Y)%nat -> LinearReg X Y = Ok (0, 0, 0).
Proof.
  intros Hs. unfold LinearReg.
  destruct (Nat.ltb_spec 2 (length X)), (Nat.eqb_spec (length X) (length Y));
    cbn [andb]; [lia|done..].
Qed.

(** C23: For points that lie exactly on a line [y = m*x + k], with at
    least three abscissae not all equal, [LinearReg] succeeds and
    returns slope [m], intercept [k] and mean residual [0]. *)
Theorem LinearReg_collinear X (m k x1 x2 : Z) :
  (2 < length X)%nat -> In x1 X -> In x2 X -> x1 <> x2 ->
  exists a b e, LinearReg X (map (fun x => m * x + k)%Z X) = Ok (a, b, e) /\
    a == inject_Z m /\ b == inject_Z k /\ e == 0.
Proof.
  intros Hn H1 H2 Hne.
  pose proof (det_Z_pos X x1 x2 H1 H2 Hne) as Hd.
  destruct (LinearReg_eq X (map (fun x => m * x + k)%Z X)) as (a & b & e & Hr & Ha & Hb & He);
    [done|by rewrite length_map|lia|].
  rewrite num_a_collinear, Qdiv_inject_Z_mult in Ha by lia.
  rewrite num_b_collinear, Qdiv_inject_Z_mult in Hb by lia.
  exists a, b, e. do 3 (split; [done|]).
  rewrite He, fold_residual_exact; [unfold Qdiv; ring|].
  intros xy Hin. rewrite combine_map_r in Hin.
  apply in_map_iff in Hin as (x & <- & _). cbn [fst snd].
  rewrite Ha, Hb. push_inject_Z. ring.
Qed.

(** On abscissae summing to zero the intercept is the window's mean. *)
Lemma LinearReg_centered X Y (x1 x2 : Z) :
  (2 < length X)%nat -> length X = length Y -> zsum X = 0%Z ->
  In x1 X -> In x2 X -> x1 <> x2 ->
  exists a b e, LinearReg X Y = Ok (a, b, e) /\ b == mean Y.
Proof.
  intros Hn Hl H0 H1 H2 Hne.
  pose proof (det_Z_pos X x1 x2 H1 H2 Hne) as Hd.
  destruct (LinearReg_eq X Y) as (a & b & e & Hr & _ & Hb & _); [done|done|lia|].
  exists a, b, e. split; [done|].
  rewrite Hb. unfold num_b, det_Z, mean in *. rewrite H0 in *. rewrite <- Hl.
  assert (Hsq : zsum_map (fun x => x * x)%Z X <> 0%Z) by nia.
  assert (Hlen : Z.of_nat (length X) <> 0%Z) by lia.
  set (sq := zsum_map (fun x => x * x)%Z X) in *.
  set (sxy := zsum (map (fun xy => fst xy * snd xy)%Z (combine X Y))).
  replace (sq * zsum Y - 0 * sxy)%Z with (zsum Y * sq)%Z by ring.
  replace (Z.of_nat (length X) * sq - 0 * 0)%Z with (Z.of_nat (length X) * sq)%Z by ring.
  rewrite !inject_Z_mult. field.
  split; intros Hq; change 0 with (inject_Z 0) in Hq;
    apply (proj1 (inject_Z_injective _ _)) in Hq; lia.
Qed.

(** C24: When the abscissae sum to zero (the drivers' symmetric
    offsets [-5..5] and [-10..10]), the intercept [b] that [LinearReg]
    returns is the mean of the window, the value [Average] computes. *)
Theorem LinearReg_intercept_mean X Y (x1 x2 : Z) :
  (2 < length X)%nat -> length X = length Y -> zsum X = 0%Z ->
  In x1 X -> In x2 X -> x1 <> x2 ->
  exists a b e, LinearReg X Y = Ok (a, b, e) /\ Average Y = PyNum (mean Y) /\ b == mean Y.
Proof.
  intros Hn Hl H0 H1 H2 Hne.
  destruct (LinearReg_centered X Y x1 x2) as (a & b & e & Hr & Hb); [done..|].
  exists a, b, e. split; [done|]. split; [apply Average_window; lia|done].
Qed.

(** On abscissae that are not all equal and a window of the same
    length, [LinearReg] never raises. *)
Lemma LinearReg_ok X Y (x1 x2 : Z) :
  (2 < length X)%nat -> length X = length Y -> In x1 X -> In x2 X -> x1 <> x2 ->
  exists r, LinearReg X Y = Ok r.
Proof.
  intros Hn Hl H1 H2 Hne. pose proof (det_Z_pos X x1 x2 H1 H2 Hne).
  destruct (LinearReg_eq X Y) as (a & b & e & Hr & _); [done|done|lia|]. eauto.
Qed.

(** What the first loop leaves in [Syy]. *)
Lemma syy_closed l :
  Syy (fold_left acc_sums l sums0) == inject_Z (pair_sum (fun xy => snd xy * snd xy)%Z l).
Proof.
  unfold pair_sum. rewrite (fold_acc_proj Syy (fun xy => snd xy * snd xy)%Z).
  - cbn [Syy sums0]. ring.
  - intros t xy. cbn [acc_sums Syy]. by rewrite inject_Z_mult.
Qed.

Lemma zsum_abs_le (B : Z) (l : list Z) :
  (forall z, In z l -> Z.abs z <= B)%Z -> (Z.abs (zsum l) <= B * Z.of_nat (length l))%Z.
Proof.
  induction l as [|z l IH]; intros Hl; [cbn; lia|].
  rewrite zsum_cons. cbn [length]. rewrite Nat2Z.inj_succ.
  pose proof (Hl z (or_introl eq_refl)). pose proof (IH (fun w Hw => Hl w (or_intror Hw))).
  lia.
Qed.

(** A bound on each term of a sum over the pairs of two lists bounds
    the sum. *)
Lemma pair_sum_abs_le (t : Z * Z -> Z) (B : Z) X Y :
  (forall x y, In x X -> In y Y -> Z.abs (t (x, y)) <= B)%Z ->
  (Z.abs (pair_sum t (combine X Y)) <= B * Z.of_nat (length (combine X Y)))%Z.
Proof.
  intros Ht. unfold pair_sum. rewrite <- (length_map t). apply zsum_abs_le.
  intros z Hz. apply in_map_iff in Hz as ([x y] & <- & Hin).
  apply Ht; [by apply (in_combine_l X Y x y)|by apply (in_combine_r X Y x y)].
Qed.

Lemma abs_mul_le (a b A B : Z) :
  (Z.abs a <= A -> Z.abs b <= B -> Z.abs (a * b) <= A * B)%Z.
Proof. intros Ha Hb. rewrite Z.abs_mul. apply Z.mul_le_mono_nonneg; lia. Qed.

Lemma abs_sub_le (a b A B : Z) :
  (Z.abs a <= A -> Z.abs b <= B -> Z.abs (a - b) <= A + B)%Z.
Proof. lia. Qed.

(** Closing [|e| < M] from a bound [|e| <= K] in the context, or from
    bounds on the two sides of a difference, with [K < M] computed. *)
Ltac abs_bound :=
  match goal with
  | Ha : (Z.abs ?a <= ?A)%Z, Hb : (Z.abs ?b <= ?B)%Z |- (Z.abs (?a - ?b) < ?M)%Z =>
      apply (Z.le_lt_trans _ (A + B)); [exact (abs_sub_le a b A B Ha Hb)|vm_compute; reflexivity]
  | Ha : (Z.abs ?a <= ?A)%Z |- (Z.abs ?a < ?M)%Z =>
      apply (Z.le_lt_trans _ A); [exact Ha|vm_compute; reflexivity]
  end.

(** C25: The floating-point arithmetic of the first loop and of the
    numerators is exact.  On a window of at most 21 signed 24-bit
    samples with abscissae of magnitude at most 10 (both drivers), the
    five sums are integers, and they, the products the code forms from
    them with [n], and the numerators and determinant are all below
    2^53 in magnitude, so binary64 computes each of them exactly: the
    only rounding in [LinearReg] is in its three divisions and the
    residual loop. *)
Theorem LinearReg_sums_exact X Y :
  length X = length Y -> (length X <= 21)%nat ->
  Forall (fun x => Z.abs x <= 10)%Z X -> Forall in_range24 Y ->
  let s := fold_left acc_sums (combine X Y) sums0 in
  let n := Z.of_nat (length X) in
  exists sx sy sxx syy sxy : Z,
    Sx s == inject_Z sx /\ Sy s == inject_Z sy /\ Sxx s == inject_Z sxx /\
    Syy s == inject_Z syy /\ Sxy s == inject_Z sxy /\
    Forall (fun z => Z.abs z < 2 ^ 53)%Z
      [sx; sy; sxx; syy; sxy; sxx * n; sx * sx; sxy * n; sy * sx; sxx * sy; sx * sxy;
       sxx * n - sx * sx; sxy * n - sy * sx; sxx * sy - sx * sxy]%Z.
Proof.
  intros Hl Hn HX HY s n.
  destruct (sums_closed (combine X Y)) as (HSx & HSy & HSxx & HSxy).
  eexists _, _, _, _, _. split; [exact HSx|]. split; [exact HSy|]. split; [exact HSxx|].
  split; [apply syy_closed|]. split; [exact HSxy|].
  rewrite List.Forall_forall in HX, HY. unfold in_range24 in HY.
  assert (Hlc : Z.of_nat (length (combine X Y)) = n) by (rewrite length_combine, Hl; lia).
  assert (Hn21 : (0 <= n <= 21)%Z) by lia.
  change (2 ^ 53)%Z with 9007199254740992%Z. change (2 ^ 23)%Z with 8388608%Z in HY.
  pose proof (pair_sum_abs_le fst 10 X Y ltac:(intros x y Hx _; cbn; by apply HX)) as Bx.
  pose proof (pair_sum_abs_le snd 8388608 X Y
                ltac:(intros x y _ Hy; cbn; specialize (HY y Hy); lia)) as By.
  pose proof (pair_sum_abs_le (fun xy => fst xy * fst xy)%Z (10 * 10) X Y
                ltac:(intros x y Hx _; by apply abs_mul_le; apply HX)) as Bxx.
  pose proof (pair_sum_abs_le (fun xy => snd xy * snd xy)%Z (8388608 * 8388608) X Y
                ltac:(intros x y _ Hy; specialize (HY y Hy); apply abs_mul_le; cbn; lia))
    as Byy.
  pose proof (pair_sum_abs_le (fun xy => fst xy * snd xy)%Z (10 * 8388608) X Y
                ltac:(intros x y Hx Hy; specialize (HY y Hy); apply abs_mul_le;
                      [by apply HX|cbn; lia])) as Bxy.
  rewrite Hlc in Bx, By, Bxx, Byy, Bxy.
  set (sx := pair_sum fst (combine X Y)) in *.
  set (sy := pair_sum snd (combine X Y)) in *.
  set (sxx := pair_sum (fun xy => fst xy * fst xy)%Z (combine X Y)) in *.
  set (syy := pair_sum (fun xy => snd xy * snd xy)%Z (combine X Y)) in *.
  set (sxy := pair_sum (fun xy => fst xy * snd xy)%Z (combine X Y)) in *.
  clearbody sx sy sxx syy sxy n.
  assert (B1 : (Z.abs sx <= 210)%Z) by lia.
  assert (B2 : (Z.abs sy <= 21 * 8388608)%Z) by lia.
  assert (B3 : (Z.abs sxx <= 2100)%Z) by lia.
  assert (B4 : (Z.abs syy <= 21 * (8388608 * 8388608))%Z) by lia.
  assert (B5 : (Z.abs sxy <= 210 * 8388608)%Z) by lia.
  assert (Bn : (Z.abs n <= 21)%Z) by lia.
  pose proof (abs_mul_le _ _ _ _ B3 Bn). pose proof (abs_mul_le _ _ _ _ B1 B1).
  pose proof (abs_mul_le _ _ _ _ B5 Bn). pose proof (abs_mul_le _ _ _ _ B2 B1).
  pose proof (abs_mul_le _ _ _ _ B3 B2). pose proof (abs_mul_le _ _ _ _ B1 B5).
  repeat (apply List.Forall_cons; [abs_bound|]). apply List.Forall_nil.
Qed.

End Properties.

(** ** Witnesses *)

Lemma LinearReg_short_witness : LinearReg [1; 2]%Z [3; 4]%Z = Ok (0, 0, 0)%Q.
Proof. apply LinearReg_short. left. cbn. lia. Defined.

Lemma LinearReg_collinear_witness :
  exists a b e, LinearReg [1; 2; 3]%Z (map (fun x => 2 * x + 1)%Z [1; 2; 3]%Z) = Ok (a, b, e) /\
    (a == inject_Z 2)%Q /\ (b == inject_Z 1)%Q /\ (e == 0)%Q.
Proof. apply (LinearReg_collinear [1; 2; 3]%Z 2 1 1 3); cbn; [lia|tauto|tauto|lia]. Defined.

Lemma LinearReg_intercept_mean_witness :
  exists a b e, LinearReg [-1; 0; 1]%Z [5; 7; 9]%Z = Ok (a, b, e) /\
    Average [5; 7; 9]%Z = PyNum (mean [5; 7; 9]%Z) /\ (b == mean [5; 7; 9]%Z)%Q.
Proof. apply (LinearReg_intercept_mean _ _ (-1) 1); cbn; [lia|done|done|tauto|tauto|lia]. Defined.

Lemma LinearReg_sums_exact_witness :
  let s := fold_left acc_sums (combine [-1; 0; 1]%Z [5; 7; 9]%Z) sums0 in
  let n := Z.of_nat (length [-1; 0; 1]%Z) in
  exists sx sy sxx syy sxy : Z,
    (Sx s == inject_Z sx)%Q /\ (Sy s == inject_Z sy)%Q /\ (Sxx s == inject_Z sxx)%Q /\
    (Syy s == inject_Z syy)%Q /\ (Sxy s == inject_Z sxy)%Q /\
    Forall (fun z => Z.abs z < 2 ^ 53)%Z
      [sx; sy; sxx; syy; sxy; sxx * n; sx * sx; sxy * n; sy * sx; sxx * sy; sx * sxy;
       sxx * n - sx * sx; sxy * n - sy * sx; sxx * sy - sx * sxy]%Z.
Proof.
  apply LinearReg_sums_exact; [reflexivity|cbn; lia|repeat constructor; cbn; lia
                              |repeat constructor; unfold in_range24; lia].
Defined.
