(* ===== verification/Window.v ===== *)
(** * The sliding window [__dataY]

    Both drivers keep the last N samples in a Python list [__dataY] of
    fixed length N (11 for HX711, 21 for NAU7802) with a fill index
    [__dataI]:
    - growth: [__dataY[__dataI]=tmp; __dataI+=1] while [__dataI<N]
      (HX711.py lines 102-104, NAU7802.py lines 129-131);
    - steady state: [__dataY.pop(0); __dataY.append(tmp)]
      (HX711.py lines 122-123, NAU7802.py lines 133-134);
    - HX711's recheck replaces the last element,
      [backup=__dataY.pop(); __dataY.append(tmp)] (lines 107-108).

    This file defines the two window moves on Python lists and relates
    them to the abstract window, the last N samples of a history
    ([lastn]): filling writes the history's prefix, sliding appends to
    the history.  The client files use these lemmas instead of reasoning
    about [pop] and [append] again. *)

From stdpp Require Import base tactics list.
From Stdlib Require Import ZArith Lia.
From S2P Require Import Prelude.

(** [lst.pop(0); lst.append(x)]. *)
Definition slide (W : list Z) (x : Z) : result (list Z) :=
  let! (_, r) := py_pop_first W in Ok (py_append r x).

(** [backup=lst.pop(); lst.append(x)]: returns [backup] and the list. *)
Definition replace_last (W : list Z) (x : Z) : result (Z * list Z) :=
  let! (backup, r) := py_pop_last W in Ok (backup, py_append r x).

(** The abstract window: the last [N] elements of a history. *)
Definition lastn {A} (N : nat) (h : list A) : list A := drop (length h - N) h.

Section Window.
Context {A : Type}.

Lemma length_lastn (N : nat) (h : list A) : length (lastn N h) = min N (length h).
Proof. unfold lastn. rewrite length_drop. lia. Qed.

Lemma tail_drop (k : nat) (l : list A) : tail (drop k l) = drop (S k) l.
Proof. revert l. induction k as [|k IH]; intros [|y l]; cbn; auto. Qed.

Lemma lastn_all (N : nat) (h : list A) : length h <= N -> lastn N h = h.
Proof. intros Hl. unfold lastn. by replace (length h - N) with 0 by lia. Qed.

(** Appending to a history of at least [N] elements drops the oldest
    element of its window. *)
Lemma lastn_snoc (N : nat) (h : list A) (x : A) :
  0 < N -> N <= length h -> lastn N (h ++ [x]) = tail (lastn N h) ++ [x].
Proof.
  intros HN Hl. unfold lastn. rewrite length_app. cbn [length].
  replace (length h + 1 - N) with (S (length h - N)) by lia.
  rewrite drop_app_le by lia. f_equal. rewrite tail_drop. done.
Qed.
End Window.

Lemma slide_cons w r x : slide (w :: r) x = Ok (r ++ [x]).
Proof. reflexivity. Qed.

Lemma slide_nil x : slide [] x = Raise IndexError.
Proof. reflexivity. Qed.

Lemma replace_last_snoc W s x : replace_last (W ++ [s]) x = Ok (s, W ++ [x]).
Proof. unfold replace_last. by rewrite py_pop_last_snoc. Qed.

Lemma slide_length W x W' : slide W x = Ok W' -> length W' = length W.
Proof.
  destruct W as [|w r]; [done|]. rewrite slide_cons. intros [= <-].
  rewrite length_app. cbn. lia.
Qed.

(** Sliding the abstract window of a history appends to the history. *)
Lemma slide_lastn (N : nat) (h : list Z) x :
  0 < N -> N <= length h -> slide (lastn N h) x = Ok (lastn N (h ++ [x])).
Proof.
  intros HN Hl. rewrite lastn_snoc by done.
  destruct (lastn N h) as [|w r] eqn:Hw; [|done].
  apply (f_equal length) in Hw. rewrite length_lastn in Hw. cbn in Hw. lia.
Qed.

(** Filling slot [i] after slots [0..i-1] were filled with [h]. *)
Lemma fill_prefix (W : list Z) (h : list Z) (x : Z) :
  length h < length W -> take (length h) W = h ->
  exists W', py_setitem W (length h) x = Ok W' /\ take (S (length h)) W' = h ++ [x]
             /\ length W' = length W.
Proof.
  intros Hl Ht. exists (<[length h := x]> W).
  split; [by apply py_setitem_ok|]. split; [|apply length_insert].
  rewrite (take_S_r _ _ x) by (by apply list_lookup_insert_eq).
  rewrite take_insert_ge by lia. by rewrite Ht.
Qed.

#[export] Hint Rewrite slide_cons replace_last_snoc : weight.
