(* ===== verification/SampleFilter.v ===== *)
(** * The interface between a driver and its filter

    Both drivers' [updateADC] hand each raw sample to a filter over
    their window ([HX711Filter.accept], [NAU7802Filter.accept]) and
    [startReadADC(1)] resets it.  What the device needs of its filter
    is stated here once, as a class: a step on one sample, a reset, and
    a well-formedness predicate that every sample and the reset keep,
    without raising.  The device files prove their invariants against
    these laws; each filter file discharges them with an instance. *)

From stdpp Require Import base tactics list.
From Stdlib Require Import ZArith.
From S2P Require Import Prelude.

Class SampleFilter (St : Type) := {
  sf_accept : Z -> St -> result St;
  sf_reset : St -> St;
  sf_wf : St -> Prop
}.

Class SampleFilterLaws (St : Type) `{SampleFilter St} := {
  sf_accept_wf x f : sf_wf f -> exists f', sf_accept x f = Ok f' /\ sf_wf f';
  sf_reset_wf f : sf_wf f -> sf_wf (sf_reset f)
}.

(** A sequence of samples, oldest first. *)
Fixpoint sf_run `{SampleFilter St} (ss : list Z) (f : St) : result St :=
  match ss with
  | [] => Ok f
  | s :: ss' => f' <- sf_accept s f ;; sf_run ss' f'
  end.

Section Laws.
Context `{SampleFilterLaws St}.

(** A well-formed filter takes any sequence of samples without raising
    and stays well formed. *)
Lemma sf_run_wf ss f : sf_wf f -> exists f', sf_run ss f = Ok f' /\ sf_wf f'.
Proof.
  revert f. induction ss as [|x ss IH]; intros f Hf; [by exists f|].
  destruct (sf_accept_wf x f Hf) as (f1 & Hacc & Hf1). cbn [sf_run].
  rewrite Hacc. cbn [rbind]. by apply IH.
Qed.

Lemma sf_run_app ss1 ss2 f :
  sf_run (ss1 ++ ss2) f = (f' <- sf_run ss1 f ;; sf_run ss2 f').
Proof.
  revert f. induction ss1 as [|x ss1 IH]; intros f; [done|].
  cbn. destruct (sf_accept x f); cbn; [apply IH|done].
Qed.
End Laws.
