(* ===== verification/HX711Filter.v ===== *)
(** * HX711: the drift filter of [updateADC]

    HX711.py lines 98-129: on every timer tick with a conversion ready,
    [updateADC] reads a raw sample [tmp] and, unless it is the saturation
    code 8388607, feeds it to a three-mode filter over the 11-sample
    window [__dataY] with the abscissae [__dataX = -5..5]:
    - filling ([__dataI<11]): [__dataY[__dataI]=tmp], nothing else;
    - tracking ([__Check==0]): slide the window, fit the line, publish
      [MeanValue=Average(__dataY)] and [LinRegVal=__LinRegB], and arm the
      recheck when the mean residual exceeds 10000;
    - recheck ([__Check==1]): replace the last (suspect) sample by [tmp];
      keep that window if its residual is below 500, otherwise restore
      the suspect and slide [tmp] in normally; disarm the recheck;
    - in both steady-state modes: [ValStable = (__LinRegE < 250)].

    [state] holds the attributes the filter reads and writes; [accept]
    is lines 101-129 on one sample; [run] feeds a sequence of samples.
    The invariant [wf] (an 11-element window, a fill index at most 11, a
    recheck flag that is 0, or 1 only once the window is full) holds
    initially, is restored by [reset] and is preserved by [accept], which
    never raises. *)

From stdpp Require Import base tactics list.
From Stdlib Require Import ZArith QArith Qabs Lia Lqa.
From S2P Require Import Prelude RawData Regression Window SampleFilter.

Module HX711Filter.

(** [__dataX], line 33. *)
Definition dataX : list Z := [-5; -4; -3; -2; -1; 0; 1; 2; 3; 4; 5]%Z.

(** [__dataY], line 34: the class attribute's initial value. *)
Definition dataY0 : list Z := repeat 0%Z 11.

Record state := mkState {
  dataI : nat;            (** [__dataI] *)
  dataY : list Z;         (** [__dataY] *)
  LinRegA : Q;            (** [__LinRegA], the slope *)
  LinRegB : Q;            (** [__LinRegB], the intercept *)
  LinRegE : Q;            (** [__LinRegE], the mean residual *)
  Check : Z;              (** [__Check], the recheck flag *)
  MeanValue : pyval;      (** [MeanValue] *)
  LinRegVal : Q;          (** [LinRegVal] *)
  ValStable : Z           (** [ValStable] *)
}.

(** The class attributes' values, lines 32-42. *)
Definition init : state := mkState 0 dataY0 0 0 0 0 (PyNum 0) 0 0.

(** The reset of [startReadADC(1)], lines 134-141: [__dataY] is kept. *)
Definition reset (f : state) : state :=
  mkState 0 (dataY f) 0 0 0 0 (PyNum 0) 0 0.

(** Lines 103-104. *)
Definition fill (tmp : Z) (f : state) : result state :=
  Y <- py_setitem (dataY f) (dataI f) tmp ;;
  Ok (mkState (S (dataI f)) Y (LinRegA f) (LinRegB f) (LinRegE f) (Check f)
              (MeanValue f) (LinRegVal f) (ValStable f)).

(** Lines 122-127. *)
Definition track (tmp : Z) (f : state) : result state :=
  Y <- slide (dataY f) tmp ;;
  let! (a, b, e) := LinearReg dataX Y in
  Ok (mkState (dataI f) Y a b e (if Qltb 10000 e then 1%Z else Check f)
              (Average Y) b (ValStable f)).

(** Lines 107-120, with what they print: line 112's
    [print("Corrected: remove %d"%(backup))] is [Some backup], issued
    when the corrected window is kept. *)
Definition recheck_out (tmp : Z) (f : state) : result (state * option Z) :=
  let! (backup, Y1) := replace_last (dataY f) tmp in
  let! (a1, b1, e1) := LinearReg dataX Y1 in
  let! (Y, a, b, e, pr) :=
    (if Qltb e1 500 then Ok (Y1, a1, b1, e1, Some backup)
     else
       let! (_, Y2) := py_pop_first Y1 in
       Y3 <- py_setlast Y2 backup ;;
       let Y4 := py_append Y3 tmp in
       let! (a2, b2, e2) := LinearReg dataX Y4 in
       Ok (Y4, a2, b2, e2, None)) in
  Ok (mkState (dataI f) Y a b e 0 (Average Y) b (ValStable f), pr).

(** The effect of lines 107-120 on the attributes. *)
Definition recheck (tmp : Z) (f : state) : result state :=
  p <- recheck_out tmp f ;; Ok (fst p).

(** Lines 128-129. *)
Definition stability (f : state) : state :=
  mkState (dataI f) (dataY f) (LinRegA f) (LinRegB f) (LinRegE f) (Check f)
          (MeanValue f) (LinRegVal f) (if Qltb (LinRegE f) 250 then 1%Z else 0%Z).

(** Lines 101-129: one raw sample [tmp] through the filter, with the
    backups line 112 prints. *)
Definition accept_out (tmp : Z) (f : state) : result (state * list Z) :=
  if Z.eqb tmp sentinel then Ok (f, [])
  else if (dataI f <? 11)%nat then f' <- fill tmp f ;; Ok (f', [])
  else
    let! (f', pr) := (if Z.eqb (Check f) 1 then recheck_out tmp f
                      else f' <- track tmp f ;; Ok (f', None)) in
    Ok (stability f', match pr with Some backup => [backup] | None => [] end).

(** The effect of lines 101-129 on the attributes. *)
Definition accept (tmp : Z) (f : state) : result state :=
  p <- accept_out tmp f ;; Ok (fst p).

(** A sequence of samples, oldest first. *)
Fixpoint run (ss : list Z) (f : state) : result state :=
  match ss with
  | [] => Ok f
  | s :: ss' => f' <- accept s f ;; run ss' f'
  end.

(** The invariant. *)
Definition wf (f : state) : Prop :=
  length (dataY f) = 11%nat /\ (dataI f <= 11)%nat /\
  (Check f = 0%Z \/ (Check f = 1%Z /\ dataI f = 11%nat)).

End HX711Filter.

(** ** Properties of the filter *)

Module HX711FilterFacts.
Import HX711Filter.
Local Open Scope Q_scope.

Lemma length_dataX : length dataX = 11%nat.
Proof. reflexivity. Qed.

(** The regression never fails on an 11-sample window, and its
    intercept is the window's mean: [__dataX] is symmetric. *)
Lemma LinearReg_dataX Y :
  length Y = 11%nat -> exists a b e, LinearReg dataX Y = Ok (a, b, e) /\ b == mean Y.
Proof.
  intros Hl.
  destruct (LinearReg_centered dataX Y (-5) 5) as (a & b & e & Hr & Hb);
    [cbn; lia|done|reflexivity|cbn; tauto|cbn; tauto|lia|].
  eauto.
Qed.

Lemma window_cons (Y : list Z) :
  length Y = 11%nat -> exists w r, Y = w :: r /\ length r = 10%nat.
Proof. destruct Y as [|w r]; [done|]. cbn. intros [= Hl]. eauto. Qed.

Lemma window_snoc (Y : list Z) :
  length Y = 11%nat -> exists W s, Y = W ++ [s] /\ length W = 10%nat.
Proof.
  intros Hl. destruct (list_snoc_exists Y) as (W & s & ->); [by intros ->|].
  exists W, s. rewrite length_app in Hl. cbn in Hl. split; [done|lia].
Qed.

Lemma length_snoc10 (W : list Z) x : length W = 10%nat -> length (W ++ [x]) = 11%nat.
Proof. intros Hl. rewrite length_app, Hl. reflexivity. Qed.

#[local] Hint Resolve length_snoc10 : weight.

(** [accept] is lines 101-129 with the attributes only: the control
    flow of the code, with [recheck] and [track] in its two branches. *)
Lemma accept_unfold tmp f :
  accept tmp f =
  if Z.eqb tmp sentinel then Ok f
  else if (dataI f <? 11)%nat then fill tmp f
  else f' <- (if Z.eqb (Check f) 1 then recheck tmp f else track tmp f) ;; Ok (stability f').
Proof.
  unfold accept, accept_out, recheck. destruct (Z.eqb tmp sentinel); [done|].
  destruct (dataI f <? 11)%nat; [by destruct (fill tmp f)|].
  destruct (Z.eqb (Check f) 1); [by destruct (recheck_out tmp f) as [[]|]|by destruct (track tmp f)].
Qed.

(** A step of [accept] is a step of [accept_out], which also says
    what was printed. *)
Lemma accept_out_of tmp f f' : accept tmp f = Ok f' -> exists pr, accept_out tmp f = Ok (f', pr).
Proof. unfold accept. destruct (accept_out tmp f) as [[f1 pr]|e]; [intros [= ->]; eauto|done]. Qed.

(** Tracking, lines 122-127, on a full window [w :: r]. *)
Lemma track_eq tmp f w r :
  dataY f = w :: r -> length r = 10%nat ->
  exists a b e, LinearReg dataX (r ++ [tmp]) = Ok (a, b, e) /\ b == mean (r ++ [tmp]) /\
    track tmp f = Ok (mkState (dataI f) (r ++ [tmp]) a b e
                        (if Qltb 10000 e then 1%Z else Check f)
                        (PyNum (mean (r ++ [tmp]))) b (ValStable f)).
Proof.
  intros Hd Hl. destruct (LinearReg_dataX (r ++ [tmp])) as (a & b & e & Hr & Hb);
    [auto with weight|].
  exists a, b, e. do 2 (split; [done|]).
  unfold track. rewrite Hd, slide_cons. cbn [rbind]. rewrite Hr. cbn [rbind].
  rewrite Average_window; [done|]. rewrite length_snoc10 by done. lia.
Qed.

(** Recheck, the branch that keeps the corrected window (line 110)
    and prints the suspect it removed (line 112). *)
Lemma recheck_out_keep_eq tmp f W s a b e :
  dataY f = W ++ [s] -> LinearReg dataX (W ++ [tmp]) = Ok (a, b, e) ->
  Qltb e 500 = true -> length W = 10%nat ->
  recheck_out tmp f = Ok (mkState (dataI f) (W ++ [tmp]) a b e 0
                                  (PyNum (mean (W ++ [tmp]))) b (ValStable f), Some s).
Proof.
  intros Hd Hr He Hl. unfold recheck_out. rewrite Hd, replace_last_snoc. cbn [rbind].
  rewrite Hr. cbn [rbind]. rewrite He. cbn [rbind].
  rewrite Average_window; [done|]. rewrite length_snoc10 by done. lia.
Qed.

Lemma recheck_keep_eq tmp f W s a b e :
  dataY f = W ++ [s] -> LinearReg dataX (W ++ [tmp]) = Ok (a, b, e) ->
  Qltb e 500 = true -> length W = 10%nat ->
  recheck tmp f = Ok (mkState (dataI f) (W ++ [tmp]) a b e 0
                              (PyNum (mean (W ++ [tmp]))) b (ValStable f)).
Proof. intros Hd Hr He Hl. unfold recheck. by rewrite (recheck_out_keep_eq tmp f W s a b e). Qed.

(** Recheck, the branch that restores the suspect sample and slides
    [tmp] in (lines 113-117), printing nothing. *)
Lemma recheck_out_restore_eq tmp f w W s a1 b1 e1 :
  dataY f = (w :: W) ++ [s] -> LinearReg dataX ((w :: W) ++ [tmp]) = Ok (a1, b1, e1) ->
  Qltb e1 500 = false -> length W = 9%nat ->
  exists a b e, LinearReg dataX (W ++ [s; tmp]) = Ok (a, b, e) /\
    b == mean (W ++ [s; tmp]) /\
    recheck_out tmp f = Ok (mkState (dataI f) (W ++ [s; tmp]) a b e 0
                                    (PyNum (mean (W ++ [s; tmp]))) b (ValStable f), None).
Proof.
  intros Hd Hr He Hl.
  assert (HL : length (W ++ [s; tmp]) = 11%nat) by (rewrite length_app, Hl; done).
  destruct (LinearReg_dataX (W ++ [s; tmp]) HL) as (a & b & e & Hr2 & Hb).
  exists a, b, e. do 2 (split; [done|]).
  unfold recheck_out. rewrite Hd, replace_last_snoc. cbn [rbind].
  rewrite Hr. cbn [rbind]. rewrite He. cbn [app py_pop_first rbind].
  rewrite py_setlast_snoc. cbn [rbind]. unfold py_append.
  rewrite <- app_assoc. cbn [app]. rewrite Hr2. cbn [rbind].
  rewrite Average_window; [done|]. rewrite HL. lia.
Qed.

Lemma recheck_restore_eq tmp f w W s a1 b1 e1 :
  dataY f = (w :: W) ++ [s] -> LinearReg dataX ((w :: W) ++ [tmp]) = Ok (a1, b1, e1) ->
  Qltb e1 500 = false -> length W = 9%nat ->
  exists a b e, LinearReg dataX (W ++ [s; tmp]) = Ok (a, b, e) /\
    b == mean (W ++ [s; tmp]) /\
    recheck tmp f = Ok (mkState (dataI f) (W ++ [s; tmp]) a b e 0
                                (PyNum (mean (W ++ [s; tmp]))) b (ValStable f)).
Proof.
  intros Hd Hr He Hl.
  destruct (recheck_out_restore_eq tmp f w W s a1 b1 e1 Hd Hr He Hl) as (a & b & e & H1 & H2 & H3).
  exists a, b, e. split; [done|]. split; [done|]. unfold recheck. by rewrite H3.
Qed.

Lemma accept_steady tmp f :
  tmp <> sentinel -> dataI f = 11%nat ->
  accept tmp f =
    (f' <- (if Z.eqb (Check f) 1 then recheck tmp f else track tmp f) ;; Ok (stability f')).
Proof.
  intros Hs Hi. rewrite accept_unfold.
  rewrite (proj2 (Z.eqb_neq _ _) Hs), Hi. reflexivity.
Qed.

(** C1: Tracking.  On a full window [w :: r] with no recheck pending,
    a valid sample [tmp] slides the window to [r ++ [tmp]], stores the
    fit [(a, b, e)] of the new window, publishes its mean as
    [MeanValue] and the intercept [b] as [LinRegVal], arms the recheck
    exactly when [e > 10000] and sets [ValStable] exactly when
    [e < 250]. *)
Theorem accept_track tmp f w r :
  tmp <> sentinel -> dataI f = 11%nat -> Check f = 0%Z ->
  dataY f = w :: r -> length r = 10%nat ->
  exists a b e, LinearReg dataX (r ++ [tmp]) = Ok (a, b, e) /\
    accept tmp f = Ok (mkState 11 (r ++ [tmp]) a b e
                         (if Qltb 10000 e then 1%Z else 0%Z)
                         (PyNum (mean (r ++ [tmp]))) b
                         (if Qltb e 250 then 1%Z else 0%Z)).
Proof.
  intros Hs Hi Hc Hd Hl. rewrite accept_steady by done. rewrite Hc. cbn [Z.eqb].
  destruct (track_eq tmp f w r Hd Hl) as (a & b & e & Hr & _ & Ht).
  exists a, b, e. split; [done|]. rewrite Ht. cbn [rbind stability].
  by rewrite Hi, Hc.
Qed.

(** C2: Recheck, correction kept.  With a recheck pending on the
    window [W ++ [s]], a valid sample [tmp] replaces the suspect [s];
    when the fit [(a, b, e)] of [W ++ [tmp]] has [e < 500] that window
    is kept (the suspect is dropped and the oldest sample stays), its
    fit is stored and the recheck is disarmed. *)
Theorem accept_recheck_keep tmp f W s a b e :
  tmp <> sentinel -> dataI f = 11%nat -> Check f = 1%Z ->
  dataY f = W ++ [s] -> length W = 10%nat ->
  LinearReg dataX (W ++ [tmp]) = Ok (a, b, e) -> e < 500 ->
  accept tmp f = Ok (mkState 11 (W ++ [tmp]) a b e 0
                       (PyNum (mean (W ++ [tmp]))) b (if Qltb e 250 then 1%Z else 0%Z)).
Proof.
  intros Hs Hi Hc Hd Hl Hr He. rewrite accept_steady by done. rewrite Hc. cbn [Z.eqb].
  rewrite (recheck_keep_eq tmp f W s a b e Hd Hr) by (done || by apply Qltb_lt).
  cbn [rbind stability]. by rewrite Hi.
Qed.

(** C3: Recheck, suspect restored.  With a recheck pending on the
    window [(w :: W) ++ [s]], when the window with [s] replaced by
    [tmp] fits with [e >= 500], the filter treats [tmp] as the outlier
    of the pair: the window becomes the plain slide [W ++ [s; tmp]],
    its fit is stored whatever its residual, and the recheck is
    disarmed. *)
Theorem accept_recheck_restore tmp f w W s a1 b1 e1 :
  tmp <> sentinel -> dataI f = 11%nat -> Check f = 1%Z ->
  dataY f = (w :: W) ++ [s] -> length W = 9%nat ->
  LinearReg dataX ((w :: W) ++ [tmp]) = Ok (a1, b1, e1) -> 500 <= e1 ->
  exists a b e, LinearReg dataX (W ++ [s; tmp]) = Ok (a, b, e) /\
    accept tmp f = Ok (mkState 11 (W ++ [s; tmp]) a b e 0
                         (PyNum (mean (W ++ [s; tmp]))) b
                         (if Qltb e 250 then 1%Z else 0%Z)).
Proof.
  intros Hs Hi Hc Hd Hl Hr He. rewrite accept_steady by done. rewrite Hc. cbn [Z.eqb].
  destruct (recheck_restore_eq tmp f w W s a1 b1 e1 Hd Hr) as (a & b & e & Hr2 & _ & Ht);
    [by apply Qltb_ge|done|].
  exists a, b, e. split; [done|]. rewrite Ht. cbn [rbind stability]. by rewrite Hi.
Qed.

Lemma accept_of_out tmp f f' pr : accept_out tmp f = Ok (f', pr) -> accept tmp f = Ok f'.
Proof. unfold accept. by intros ->. Qed.

(** C8: What the filter prints.  On a well-formed state whose window
    ends with the sample [s], one valid or saturated sample is
    processed without error, and line 112 prints exactly when a
    pending recheck keeps the corrected window (the sample is valid,
    the window full, the recheck armed and the fit of [W ++ [tmp]] has
    a residual below 500); what it prints is the suspect [s] it
    removed.  Every other sample prints nothing. *)
Theorem accept_out_prints tmp f W s :
  wf f -> dataY f = W ++ [s] ->
  exists f' pr, accept_out tmp f = Ok (f', pr) /\ accept tmp f = Ok f' /\
    ((tmp <> sentinel /\ dataI f = 11%nat /\ Check f = 1%Z /\
      (exists a b e, LinearReg dataX (W ++ [tmp]) = Ok (a, b, e) /\ e < 500) /\ pr = [s]) \/
     (~ (tmp <> sentinel /\ dataI f = 11%nat /\ Check f = 1%Z /\
         (exists a b e, LinearReg dataX (W ++ [tmp]) = Ok (a, b, e) /\ e < 500)) /\ pr = [])).
Proof.
  intros Hwf Hd. pose proof Hwf as (Hl & Hi & Hc).
  assert (HW : length W = 10%nat) by (rewrite Hd, length_app in Hl; cbn in Hl; lia).
  unfold accept. unfold accept_out at 1 2.
  destruct (Z.eqb_spec tmp sentinel) as [->|Hs].
  { eexists _, []. split; [reflexivity|]. split; [reflexivity|]. right. split; [|done].
    by intros (H & _). }
  destruct (Nat.ltb_spec (dataI f) 11) as [Hlt|Hge].
  { unfold fill. rewrite py_setitem_ok by lia. eexists _, []. split; [reflexivity|].
    split; [reflexivity|]. right. split; [|done]. intros (_ & H & _). lia. }
  destruct Hc as [Hc0|[Hc1 _]].
  - destruct (window_cons _ Hl) as (w & r & Hd' & Hr).
    destruct (track_eq tmp f w r Hd' Hr) as (a & b & e & _ & _ & Ht).
    rewrite Hc0. cbn [Z.eqb]. rewrite Ht. cbn [rbind].
    eexists _, []. split; [reflexivity|]. split; [reflexivity|]. right. split; [|done].
    intros (_ & _ & H & _). lia.
  - rewrite Hc1. cbn [Z.eqb].
    destruct (LinearReg_dataX (W ++ [tmp])) as (a & b & e & Hr & _); [by apply length_snoc10|].
    destruct (Qltb e 500) eqn:He.
    + rewrite (recheck_out_keep_eq tmp f W s a b e Hd Hr He HW). cbn [rbind].
      eexists _, _. split; [reflexivity|]. split; [reflexivity|]. left.
      split; [done|]. split; [lia|]. split; [done|]. split; [|done].
      exists a, b, e. split; [done|]. by apply Qltb_lt.
    + destruct W as [|w W']; [done|]. cbn in HW.
      destruct (recheck_out_restore_eq tmp f w W' s a b e Hd Hr He) as (a2 & b2 & e2 & _ & _ & Ho);
        [lia|].
      rewrite Ho. cbn [rbind]. eexists _, []. split; [reflexivity|]. split; [reflexivity|].
      right. split; [|done]. intros (_ & _ & _ & (a' & b' & e' & Hr' & He')).
      rewrite Hr in Hr'. injection Hr' as <- <- <-. apply Qltb_ge in He. lra.
Qed.

(** Membership in a window after a Python list update. *)
Lemma In_insert (Y : list Z) i x y : In y (<[i:=x]> Y) -> In y Y \/ y = x.
Proof.
  revert i. induction Y as [|z Y IH]; intros [|i]; cbn; [tauto|tauto| |].
  - intros [<-|Hy]; tauto.
  - intros [<-|Hy]; [tauto|]. destruct (IH i Hy); tauto.
Qed.

#[local] Ltac window_in Hd :=
  let y := fresh "y" in let Hy := fresh "Hy" in
  intros y Hy; rewrite Hd; cbn [dataY] in Hy;
  repeat (rewrite in_app_iff in * || cbn [In] in *); naive_solver.

(** One steady-state step (lines 105-129): it succeeds, keeps the
    window full, disarms a pending recheck, publishes the window's
    mean both as [MeanValue] and as [LinRegVal], and only brings
    [tmp] into the window. *)
Lemma steady_step tmp f :
  wf f -> dataI f = 11%nat ->
  exists f', (if Z.eqb (Check f) 1 then recheck tmp f else track tmp f) = Ok f' /\
    length (dataY f') = 11%nat /\ dataI f' = 11%nat /\
    (Check f = 1%Z -> Check f' = 0%Z) /\ (Check f' = 0%Z \/ Check f' = 1%Z) /\
    (exists q, MeanValue f' = PyNum q /\ LinRegVal f' == q) /\
    (forall y, In y (dataY f') -> In y (dataY f) \/ y = tmp).
Proof.
  intros (Hl & _ & Hc) Hi. destruct (Z.eqb_spec (Check f) 1) as [H1|H1].
  - destruct (window_snoc _ Hl) as (W0 & s & Hd & HW).
    destruct W0 as [|w W]; [done|]. cbn in HW.
    destruct (LinearReg_dataX ((w :: W) ++ [tmp])) as (a1 & b1 & e1 & Hr1 & Hb1);
      [by apply length_snoc10|].
    destruct (Qltb e1 500) eqn:He.
    + rewrite (recheck_keep_eq tmp f (w :: W) s a1 b1 e1 Hd Hr1 He) by done.
      eexists. split; [reflexivity|]. cbn [dataY dataI Check MeanValue LinRegVal].
      split; [by apply length_snoc10|]. split; [done|]. split; [by intros|]. split; [by left|].
      split; [eauto|]. window_in Hd.
    + destruct (recheck_restore_eq tmp f w W s a1 b1 e1 Hd Hr1 He) as (a & b & e & _ & Hb & Ht);
        [lia|].
      rewrite Ht. eexists. split; [reflexivity|]. cbn [dataY dataI Check MeanValue LinRegVal].
      split; [rewrite length_app; cbn; lia|]. split; [done|]. split; [by intros|]. split; [by left|].
      split; [eauto|]. window_in Hd.
  - destruct (window_cons _ Hl) as (w & r & Hd & Hr).
    destruct (track_eq tmp f w r Hd Hr) as (a & b & e & _ & Hb & Ht). rewrite Ht.
    eexists. split; [reflexivity|]. cbn [dataY dataI Check MeanValue LinRegVal].
    split; [by apply length_snoc10|]. split; [done|]. split; [done|].
    split; [destruct (Qltb 10000 e); [by right|lia]|].
    split; [eauto|]. window_in Hd.
Qed.

(** One sample through [accept] (lines 101-129). *)
Lemma accept_step tmp f :
  wf f ->
  exists f', accept tmp f = Ok f' /\ wf f' /\
    (forall y, In y (dataY f') -> In y (dataY f) \/ (y = tmp /\ tmp <> sentinel)).
Proof.
  intros Hwf. pose proof Hwf as (Hl & Hi & Hc). rewrite accept_unfold.
  destruct (Z.eqb_spec tmp sentinel) as [->|Hs]; [exists f; split; [done|]; split; [done|tauto]|].
  destruct (Nat.ltb_spec (dataI f) 11) as [Hlt|Hge].
  - unfold fill. rewrite py_setitem_ok by lia. eexists. split; [reflexivity|].
    split; [|intros y Hy%In_insert; tauto].
    unfold wf. cbn [dataY dataI Check]. rewrite length_insert.
    split; [done|]. split; [lia|]. destruct Hc as [|[_ ?]]; [by left|lia].
  - assert (Hi11 : dataI f = 11%nat) by lia.
    destruct (steady_step tmp f Hwf Hi11) as (f' & Hf' & Hl' & Hi' & _ & Hc' & _ & Hin).
    rewrite Hf'. eexists. split; [reflexivity|]. unfold wf, stability.
    cbn [dataY dataI Check]. split; [|intros y Hy; destruct (Hin y Hy); tauto].
    split; [done|]. split; [lia|]. destruct Hc'; [by left|by right].
Qed.

(** C4: The filter's invariant (an 11-sample window, a fill index of
    at most 11, a recheck flag that is 0, or 1 only on a full window)
    is preserved by every raw sample, and [updateADC]'s filter never
    raises ([IndexError], [ZeroDivisionError]) on a state satisfying
    it. *)
Theorem accept_wf tmp f : wf f -> exists f', accept tmp f = Ok f' /\ wf f'.
Proof. intros Hwf. destruct (accept_step tmp f Hwf) as (f' & ? & ? & _). eauto. Qed.

(** C5: The saturation code 8388607 never enters the window: from a
    state satisfying the invariant whose window holds no such value,
    any sequence of raw samples is processed without error and leaves
    a window without it. *)
Theorem run_no_sentinel ss f :
  wf f -> ~ In sentinel (dataY f) ->
  exists f', run ss f = Ok f' /\ wf f' /\ ~ In sentinel (dataY f').
Proof.
  revert f. induction ss as [|x ss IH]; intros f Hwf Hn; [by exists f|].
  destruct (accept_step x f Hwf) as (f1 & Hacc & Hwf1 & Hin). cbn [run].
  rewrite Hacc. cbn [rbind]. apply IH; [done|].
  intros Hs. destruct (Hin _ Hs) as [|[]]; [tauto|congruence].
Qed.

(** C6: A recheck lasts exactly one valid sample: from a state
    satisfying the invariant with the recheck armed, the next valid
    sample always disarms it, whichever branch is taken. *)
Theorem accept_recheck_once tmp f :
  wf f -> Check f = 1%Z -> tmp <> sentinel ->
  exists f', accept tmp f = Ok f' /\ Check f' = 0%Z.
Proof.
  intros Hwf Hc Hs. pose proof Hwf as (_ & _ & [|[_ Hi]]); [lia|].
  destruct (steady_step tmp f Hwf Hi) as (f' & Hf' & _ & _ & Hc' & _).
  rewrite accept_steady, Hf' by done. eexists. split; [reflexivity|]. by apply Hc'.
Qed.

(** C7: What [updateADC] publishes as [LinRegVal] is the intercept of
    the fit over the symmetric abscissae, which is the window's mean:
    after every steady-state sample [LinRegVal] equals [MeanValue],
    and the slope [LinRegA] is never published. *)
Theorem accept_publishes_mean tmp f :
  wf f -> dataI f = 11%nat -> tmp <> sentinel ->
  exists f' q, accept tmp f = Ok f' /\ MeanValue f' = PyNum q /\ LinRegVal f' == q.
Proof.
  intros Hwf Hi Hs.
  destruct (steady_step tmp f Hwf Hi) as (f' & Hf' & _ & _ & _ & _ & (q & Hm & Hq) & _).
  rewrite accept_steady, Hf' by done. exists (stability f'), q. by split.
Qed.

End HX711FilterFacts.

(** ** Scenarios and witnesses *)

Module HX711FilterScenarios.
Import HX711Filter HX711FilterFacts.
Local Open Scope Q_scope.

Lemma wf_init : wf init.
Proof. split; [reflexivity|]. split; [cbn; lia|by left]. Qed.

Lemma wf_reset f : length (dataY f) = 11%nat -> wf (reset f).
Proof. intros Hl. split; [done|]. split; [cbn; lia|by left]. Qed.

(** Eleven identical samples after a (re)start only fill the
    window: nothing is published yet, [ValStable] stays 0 and
    [MeanValue] stays 0.  The first output comes with the twelfth
    sample. *)
Example scenario_fill_only :
  match run (repeat 1000%Z 11) init with
  | Ok f => dataI f = 11%nat /\ ValStable f = 0%Z /\ MeanValue f = PyNum 0 /\ Check f = 0%Z
  | Raise _ => False
  end.
Proof. vm_compute. repeat split. Qed.

(** Twelve identical samples 1000: the window is full of 1000s,
    [ValStable] is 1, [MeanValue] and [LinRegVal] are 1000, the slope
    [LinRegA] is 0. *)
Example scenario_constant :
  match run (repeat 1000%Z 12) init with
  | Ok f => ValStable f = 1%Z /\ LinRegVal f == 1000 /\ LinRegA f == 0 /\
            match MeanValue f with PyNum q => q == 1000 | PyList _ => False end
  | Raise _ => False
  end.
Proof. vm_compute. repeat split. Qed.

(** On the ramp 0, 100, ..., 1100 the fit of the last eleven
    samples has slope [LinRegA = 100] and zero residual, so
    [ValStable] is 1; but what is published as [LinRegVal] is 600,
    the window's mean, not the trend 100. *)
Example scenario_ramp :
  match run (map (fun k => 100 * Z.of_nat k)%Z (seq 0 12)) init with
  | Ok f => LinRegA f == 100 /\ LinRegE f == 0 /\ LinRegVal f == 600 /\ ValStable f = 1%Z
  | Raise _ => False
  end.
Proof. vm_compute. repeat split. Qed.

(** A single spike of 1000000 on a stable 1000 signal arms the
    recheck and clears [ValStable]; the next sample 1000 fits, so the
    spike is dropped: the window is all 1000s again and [ValStable]
    is 1. *)
Example scenario_spike_dropped :
  match run (repeat 1000%Z 12 ++ [1000000%Z]) init,
        run (repeat 1000%Z 12 ++ [1000000%Z; 1000%Z]) init with
  | Ok f1, Ok f2 => Check f1 = 1%Z /\ ValStable f1 = 0%Z /\
                    dataY f2 = repeat 1000%Z 11 /\ Check f2 = 0%Z /\ ValStable f2 = 1%Z
  | _, _ => False
  end.
Proof. vm_compute. repeat split. Qed.

(** A step from 1000 to 1000000 that persists is not dropped:
    the second high sample does not fit the corrected window, so the
    suspect is restored, both high samples stay in the window and the
    recheck is disarmed. *)
Example scenario_step_kept :
  match run (repeat 1000%Z 12 ++ [1000000%Z; 1000000%Z]) init with
  | Ok f => dataY f = repeat 1000%Z 9 ++ [1000000%Z; 1000000%Z] /\ Check f = 0%Z
  | Raise _ => False
  end.
Proof. vm_compute. repeat split. Qed.

Lemma sentinel_1000 : (1000 <> sentinel)%Z.
Proof. unfold sentinel. lia. Qed.

Lemma accept_track_witness :
  exists a b e, LinearReg dataX (repeat 1000%Z 10 ++ [1000%Z]) = Ok (a, b, e) /\
    accept 1000 (mkState 11 (repeat 1000%Z 11) 0 0 0 0 (PyNum 0) 0 0) =
    Ok (mkState 11 (repeat 1000%Z 10 ++ [1000%Z]) a b e
                (if Qltb 10000 e then 1%Z else 0%Z)
                (PyNum (mean (repeat 1000%Z 10 ++ [1000%Z]))) b
                (if Qltb e 250 then 1%Z else 0%Z)).
Proof.
  apply (accept_track 1000 (mkState 11 (repeat 1000%Z 11) 0 0 0 0 (PyNum 0) 0 0)
           1000 (repeat 1000%Z 10)); [exact sentinel_1000|reflexivity..].
Defined.

Lemma accept_recheck_keep_witness :
  exists a b e, LinearReg dataX (repeat 1000%Z 10 ++ [1000%Z]) = Ok (a, b, e) /\ e < 500 /\
    accept 1000 (mkState 11 (repeat 1000%Z 10 ++ [1000000%Z]) 0 0 0 1 (PyNum 0) 0 0) =
    Ok (mkState 11 (repeat 1000%Z 10 ++ [1000%Z]) a b e 0
                (PyNum (mean (repeat 1000%Z 10 ++ [1000%Z]))) b
                (if Qltb e 250 then 1%Z else 0%Z)).
Proof.
  destruct (LinearReg dataX (repeat 1000%Z 10 ++ [1000%Z])) as [[[a b] e]|] eqn:Hr;
    [|vm_compute in Hr; discriminate].
  assert (He : e < 500) by (vm_compute in Hr; injection Hr as _ _ <-; reflexivity).
  exists a, b, e. split; [reflexivity|]. split; [exact He|].
  apply (accept_recheck_keep 1000 (mkState 11 (repeat 1000%Z 10 ++ [1000000%Z]) 0 0 0 1 (PyNum 0) 0 0)
           (repeat 1000%Z 10) 1000000); [exact sentinel_1000|reflexivity..|exact Hr|exact He].
Defined.

Lemma accept_out_prints_witness :
  exists f' pr, accept_out 1000 (mkState 11 (repeat 1000%Z 10 ++ [1000000%Z]) 0 0 0 1 (PyNum 0) 0 0)
                  = Ok (f', pr) /\
    accept 1000 (mkState 11 (repeat 1000%Z 10 ++ [1000000%Z]) 0 0 0 1 (PyNum 0) 0 0) = Ok f' /\
    pr = [1000000%Z].
Proof.
  destruct (accept_out_prints 1000 (mkState 11 (repeat 1000%Z 10 ++ [1000000%Z]) 0 0 0 1 (PyNum 0) 0 0)
              (repeat 1000%Z 10) 1000000) as (f' & pr & Ho & Ha & _);
    [split; [reflexivity|split; [cbn; lia|cbn; right; split; reflexivity]]|reflexivity|].
  exists f', pr. split; [exact Ho|]. split; [exact Ha|].
  vm_compute in Ho. by injection Ho as _ <-.
Defined.

Lemma accept_recheck_restore_witness :
  exists a b e, LinearReg dataX (repeat 1000%Z 9 ++ [1000000%Z; 1000000%Z]) = Ok (a, b, e) /\
    accept 1000000 (mkState 11 (repeat 1000%Z 10 ++ [1000000%Z]) 0 0 0 1 (PyNum 0) 0 0) =
    Ok (mkState 11 (repeat 1000%Z 9 ++ [1000000%Z; 1000000%Z]) a b e 0
                (PyNum (mean (repeat 1000%Z 9 ++ [1000000%Z; 1000000%Z]))) b
                (if Qltb e 250 then 1%Z else 0%Z)).
Proof.
  destruct (LinearReg dataX ((1000%Z :: repeat 1000%Z 9) ++ [1000000%Z]))
    as [[[a1 b1] e1]|] eqn:Hr; [|vm_compute in Hr; discriminate].
  assert (He : 500 <= e1) by (vm_compute in Hr; injection Hr as _ _ <-; discriminate).
  apply (accept_recheck_restore 1000000
           (mkState 11 (repeat 1000%Z 10 ++ [1000000%Z]) 0 0 0 1 (PyNum 0) 0 0)
           1000 (repeat 1000%Z 9) 1000000 a1 b1 e1);
    [unfold sentinel; lia|reflexivity..|exact Hr|exact He].
Defined.

Lemma accept_wf_witness : exists f', accept 5 init = Ok f' /\ wf f'.
Proof. apply accept_wf, wf_init. Defined.

Lemma run_no_sentinel_witness :
  exists f', run [1; sentinel; 2]%Z init = Ok f' /\ wf f' /\ ~ In sentinel (dataY f').
Proof.
  apply run_no_sentinel; [apply wf_init|].
  unfold sentinel. cbn. intuition lia.
Defined.

Lemma accept_recheck_once_witness :
  exists f', accept 1000 (mkState 11 (repeat 1000%Z 10 ++ [1000000%Z]) 0 0 0 1 (PyNum 0) 0 0)
             = Ok f' /\ Check f' = 0%Z.
Proof.
  apply accept_recheck_once; [split; [reflexivity|split; [cbn; lia|cbn; right; split; reflexivity]]
                             |reflexivity|exact sentinel_1000].
Defined.

Lemma accept_publishes_mean_witness :
  exists f' q, accept 7 (mkState 11 (repeat 1000%Z 11) 0 0 0 0 (PyNum 0) 0 0) = Ok f' /\
               MeanValue f' = PyNum q /\ LinRegVal f' == q.
Proof.
  apply accept_publishes_mean; [split; [reflexivity|split; [cbn; lia|by left]]
                               |reflexivity|unfold sentinel; lia].
Defined.

End HX711FilterScenarios.

(** ** The filter as the device sees it *)

#[export] Instance hx711_filter : SampleFilter HX711Filter.state := {
  sf_accept := HX711Filter.accept;
  sf_reset := HX711Filter.reset;
  sf_wf := HX711Filter.wf
}.

#[export] Instance hx711_filter_laws : SampleFilterLaws HX711Filter.state.
Proof.
  split.
  - intros x f Hf. destruct (HX711FilterFacts.accept_step x f Hf) as (f' & ? & ? & _). eauto.
  - intros f [Hl _]. by apply HX711FilterScenarios.wf_reset.
Qed.
