(* ===== verification/HX711Device.v ===== *)
(** * HX711: the device object and its lifecycle

    HX711.py lines 12-150: the [HX711] object's status byte, its pins,
    its optional periodic timer and the DOUT falling-edge interrupt.
    [device] holds the attributes (the filter's in [HX711Filter.state]);
    one definition per method: [init] ([__init__]), [PowerOn] (with its
    busy-wait, given fuel and the instants at which DOUT falls),
    [PowerOff], [PinDOUT_IRQHandler], [getRawData] (its effect on the
    state; the decoded value is [HX711Wire.getRawData_value]),
    [setChGain], [updateADC] (the timer callback), [startReadADC] and
    [del] ([__del__]).  [step] is the relation of everything that can
    happen to an object: a method call from the program, the interrupt,
    or a tick of the armed timer. *)

From stdpp Require Import base tactics list.
From Stdlib Require Import ZArith QArith Lia.
From S2P Require Import Prelude Machine Status RawData Regression Window SampleFilter HX711Filter.

Local Open Scope Z_scope.

Module HX711Device.

(** Status bits and masks, lines 13-18. *)
Definition MaskCanPeriodicRead : Z := 0xB0.
Definition Status_Inited : Z := 0x80.
Definition Status_EnTimer : Z := 0x20.
Definition Status_PowerOn : Z := 0x10.
Definition Status_PeriodicRead : Z := 0x08.
Definition Status_OutReady : Z := 0x04.

(** Channel and gain, lines 20-22: the number of clock pulses per read. *)
Definition ChAx128 : Z := 25.
Definition ChBx32 : Z := 26.
Definition ChAx64 : Z := 27.

Record device := mkDev {
  Status : Z;                   (** [__Status] *)
  ChMode : Z;                   (** [__ChMode] *)
  Tim : option timer;           (** [__Tim]; [None] is Python's [None] *)
  sck : Z;                      (** level driven on the SCK pin *)
  irq : bool;                   (** DOUT's falling-edge handler is armed *)
  filt : HX711Filter.state      (** the filter's attributes *)
}.

Definition set_Status (s : Z) (d : device) : device :=
  mkDev s (ChMode d) (Tim d) (sck d) (irq d) (filt d).
Definition set_ChMode (m : Z) (d : device) : device :=
  mkDev (Status d) m (Tim d) (sck d) (irq d) (filt d).
Definition set_Tim (t : option timer) (d : device) : device :=
  mkDev (Status d) (ChMode d) t (sck d) (irq d) (filt d).
Definition set_sck (v : Z) (d : device) : device :=
  mkDev (Status d) (ChMode d) (Tim d) v (irq d) (filt d).
Definition set_irq (b : bool) (d : device) : device :=
  mkDev (Status d) (ChMode d) (Tim d) (sck d) b (filt d).
Definition set_filt (f : HX711Filter.state) (d : device) : device :=
  mkDev (Status d) (ChMode d) (Tim d) (sck d) (irq d) f.

(** The class attributes, lines 25-42, before [__init__] runs. *)
Definition class_default : device := mkDev 0 0 None 1 false HX711Filter.init.

(** [__init__], lines 43-54.  [timer_port] says whether a timer object
    was passed; [SCK] is driven high.  On invalid arguments [__init__]
    returns early and the object keeps the class defaults. *)
Definition init (SCK DOUT chmode : Z) (timer_port : bool) : device :=
  if (0 <=? SCK) && (SCK <=? 22) && (0 <=? DOUT) && (DOUT <=? 22) && negb (SCK =? DOUT)
     && (25 <=? chmode) && (chmode <=? 27)
  then mkDev (if timer_port then Status_Inited |. Status_EnTimer else Status_Inited)
             chmode (if timer_port then Some TimIdle else None) 1 false HX711Filter.init
  else class_default.

(** [PinDOUT_IRQHandler], lines 74-76. *)
Definition PinDOUT_IRQHandler (d : device) : device :=
  let d := set_irq false d in
  if truthy (Status d &. Status_PowerOn) then set_Status (Status d |. Status_OutReady) d
  else d.

(** The busy-wait of line 66: [while (Status & OutReady) == 0: sleep_us(100)].
    [falls k] says that DOUT falls during the [k]-th sleep, which runs
    the handler when it is armed.  [None]: still waiting when the fuel
    runs out. *)
Fixpoint wait_ready (fuel k : nat) (falls : nat -> bool) (d : device) : option device :=
  match fuel with
  | O => None
  | S fuel' =>
      if truthy (Status d &. Status_OutReady) then Some d
      else wait_ready fuel' (S k) falls (if falls k && irq d then PinDOUT_IRQHandler d else d)
  end.

(** [PowerOn], lines 61-66. *)
Definition PowerOn (fuel : nat) (falls : nat -> bool) (d : device) : option device :=
  if Z.eqb (Status d &. (Status_Inited |. Status_PowerOn)) Status_Inited then
    wait_ready fuel 0 falls (set_sck 0 (set_irq true (set_Status (Status d |. Status_PowerOn) d)))
  else Some d.

(** [PowerOff], lines 68-72. *)
Definition PowerOff (d : device) : device :=
  if truthy (Status d &. Status_PowerOn) then set_Status (Status d &. 0xE0) (set_sck 1 d)
  else d.

(** The effect of [getRawData], lines 83-96, on the object: the ready
    flag is consumed, SCK ends low once a pulse was sent, and the
    interrupt is re-armed.  The value returned is
    [HX711Wire.getRawData_value]. *)
Definition getRawData (dout : nat -> Z) (d : device) : Z * device :=
  if truthy (Status d &. Status_OutReady) then
    (HX711Wire.getRawData_value (Z.to_nat (ChMode d)) dout,
     set_irq true (set_sck (if 0 <? ChMode d then 0 else sck d)
                     (set_Status (Status d &. ~. Status_OutReady) d)))
  else (0, d).

(** [setChGain], lines 78-81: the read that follows selects the gain. *)
Definition setChGain (m : Z) (dout : nat -> Z) (d : device) : device :=
  if (25 <=? m) && (m <=? 27) && truthy (Status d &. Status_OutReady) then
    snd (getRawData dout (set_ChMode m d))
  else d.

(** [updateADC], lines 98-129: the timer callback, with the backups it
    prints (line 112). *)
Definition updateADC_out (dout : nat -> Z) (d : device) : result (device * list Z) :=
  if truthy (Status d &. Status_OutReady) then
    let (tmp, d1) := getRawData dout d in
    let! (f, pr) := HX711Filter.accept_out tmp (filt d1) in Ok (set_filt f d1, pr)
  else Ok (d, []).

(** The effect of the callback on the object. *)
Definition updateADC (dout : nat -> Z) (d : device) : result device :=
  p <- updateADC_out dout d ;; Ok (fst p).

(** [startReadADC(state, Freq)], lines 131-150.  The first component is
    the value returned: [None] (the guard of line 132 fails), [Some 0]
    or [Some 1]. *)
Definition startReadADC (state freq : Z) (d : device) : result (option Z * device) :=
  if Z.eqb (Status d &. MaskCanPeriodicRead) MaskCanPeriodicRead then
    if (state =? 1) && (Status d &. Status_PeriodicRead =? 0) && (0 <? freq) && (freq <=? 2)
    then
      t <- tim_init (Tim d) (TimPeriodic freq) ;;
      Ok (Some 1, set_Status (Status d |. Status_PeriodicRead)
                    (set_Tim t (set_filt (HX711Filter.reset (filt d)) d)))
    else if (state =? 0) && truthy (Status d &. Status_PeriodicRead) then
      t <- tim_init (Tim d) TimIdle ;;
      Ok (Some 1, set_Status (Status d &. ~. Status_PeriodicRead) (set_Tim t d))
    else Ok (Some 0, d)
  else Ok (None, d).

(** [__del__], lines 56-59. *)
Definition del (d : device) : result device :=
  d1 <- (if truthy (Status d &. Status_PeriodicRead)
         then r <- startReadADC 0 2 d ;; Ok (snd r) else Ok d) ;;
  let d2 := if truthy (Status d1 &. Status_PowerOn) then PowerOff d1 else d1 in
  Ok (set_Status 0 d2).

(** Everything that can happen to an object.  [PowerOn]'s busy-wait is
    split into its first half ([step_power_on]) and the interrupts that
    end it; this also allows the program's other calls during the wait,
    an over-approximation, so invariants proved over [step] hold of the
    real object. *)
Inductive step : device -> device -> Prop :=
| step_power_on d :
    Z.eqb (Status d &. (Status_Inited |. Status_PowerOn)) Status_Inited = true ->
    step d (set_sck 0 (set_irq true (set_Status (Status d |. Status_PowerOn) d)))
| step_power_off d : step d (PowerOff d)
| step_irq d : irq d = true -> step d (PinDOUT_IRQHandler d)
| step_tick d f dout d' :
    Tim d = Some (TimPeriodic f) -> updateADC dout d = Ok d' -> step d d'
| step_start d s freq r d' : startReadADC s freq d = Ok (r, d') -> step d d'
| step_set_gain d m dout : step d (setChGain m dout d)
| step_read d dout : step d (snd (getRawData dout d)).

(** The objects a program can create. *)
Inductive initial : device -> Prop :=
| initial_init SCK DOUT m t : initial (init SCK DOUT m t).

End HX711Device.

(** ** Invariant of the object *)

Module HX711DeviceFacts.
Import HX711Device.

(** The guards of the methods, as flag formulas. *)
Lemma guard_can_periodic s :
  is_byte s ->
  Z.eqb (s &. MaskCanPeriodicRead) MaskCanPeriodicRead =
  fl_inited (decode s) && fl_en_timer (decode s) && fl_power_on (decode s).
Proof.
  intros Hs. unfold MaskCanPeriodicRead. rewrite land_eqb_byte by (unfold is_byte in *; lia).
  by_flags s.
Qed.

Lemma guard_power_on s :
  is_byte s ->
  Z.eqb (s &. (Status_Inited |. Status_PowerOn)) Status_Inited =
  fl_inited (decode s) && negb (fl_power_on (decode s)).
Proof.
  intros Hs. unfold Status_Inited, Status_PowerOn.
  rewrite eqb_byte by (try apply is_byte_land_l; unfold is_byte in *; lia).
  rewrite decode_land, decode_lor. by_flags s.
Qed.

Lemma guard_not_periodic s :
  is_byte s -> Z.eqb (s &. Status_PeriodicRead) 0 = negb (fl_periodic (decode s)).
Proof.
  intros Hs. unfold Status_PeriodicRead.
  rewrite eqb_byte by (try apply is_byte_land_l; unfold is_byte in *; lia).
  rewrite decode_land. by_flags s.
Qed.

Lemma truthy_flag s (k : Z) :
  0 <= k -> truthy (s &. 2 ^ k) = Z.testbit s k.
Proof. apply truthy_land_pow2. Qed.

Lemma truthy_PowerOn s : truthy (s &. Status_PowerOn) = fl_power_on (decode s).
Proof. exact (truthy_flag s 4 ltac:(lia)). Qed.
Lemma truthy_PeriodicRead s : truthy (s &. Status_PeriodicRead) = fl_periodic (decode s).
Proof. exact (truthy_flag s 3 ltac:(lia)). Qed.
Lemma truthy_OutReady s : truthy (s &. Status_OutReady) = fl_ready (decode s).
Proof. exact (truthy_flag s 2 ltac:(lia)). Qed.

#[export] Hint Rewrite truthy_PowerOn truthy_PeriodicRead truthy_OutReady : weight.

(** The invariant of every object the program can reach. *)
Definition inv (d : device) : Prop :=
  let F := decode (Status d) in
  is_byte (Status d) /\
  (fl_periodic F = true -> fl_inited F = true /\ fl_en_timer F = true /\ fl_power_on F = true) /\
  (fl_periodic F = true -> exists f, Tim d = Some (TimPeriodic f) /\ 0 < f <= 2) /\
  (fl_en_timer F = true -> Tim d <> None) /\
  (fl_ready F = true -> fl_power_on F = true) /\
  HX711Filter.wf (filt d).

Inductive reachable : device -> Prop :=
| reach_init d : initial d -> reachable d
| reach_step d d' : reachable d -> step d d' -> reachable d'.

(** Flags of a status expression: the abstraction [decode] pushed
    through the bit operations, the constants' flags computed. *)
Ltac dev_flags :=
  unfold Status_Inited, Status_EnTimer, Status_PowerOn, Status_PeriodicRead,
    Status_OutReady, MaskCanPeriodicRead in *;
  flags_eval.

Lemma inv_intro d :
  is_byte (Status d) ->
  (fl_periodic (decode (Status d)) = true ->
   fl_inited (decode (Status d)) = true /\ fl_en_timer (decode (Status d)) = true /\
   fl_power_on (decode (Status d)) = true) ->
  (fl_periodic (decode (Status d)) = true -> exists f, Tim d = Some (TimPeriodic f) /\ 0 < f <= 2) ->
  (fl_en_timer (decode (Status d)) = true -> Tim d <> None) ->
  (fl_ready (decode (Status d)) = true -> fl_power_on (decode (Status d)) = true) ->
  HX711Filter.wf (filt d) -> inv d.
Proof. unfold inv. tauto. Qed.

(** Closing the flag obligations of [inv_intro]. *)
Ltac inv_close :=
  cbn [Status Tim filt set_sck set_irq set_Status set_Tim set_filt snd] in *;
  dev_flags; intros;
  repeat match goal with
         | H : ?P -> _, H' : ?P |- _ => specialize (H H')
         end;
  try discriminate; first [solve [auto] | solve [intuition congruence] | idtac].

Lemma inv_power_on d :
  inv d -> Z.eqb (Status d &. (Status_Inited |. Status_PowerOn)) Status_Inited = true ->
  inv (set_sck 0 (set_irq true (set_Status (Status d |. Status_PowerOn) d))).
Proof.
  intros (Hb & Hp & Ht & He & Hr & Hw) Hg. rewrite guard_power_on in Hg by done.
  apply andb_true_iff in Hg as [Hi Hpo]. apply negb_true_iff in Hpo.
  apply inv_intro; [apply is_byte_lor; [done|unfold is_byte, Status_PowerOn; lia]|idtac..];
    inv_close.
Qed.

Lemma inv_power_off d : inv d -> inv (PowerOff d).
Proof.
  intros Hinv. unfold PowerOff. rewrite truthy_PowerOn.
  destruct (fl_power_on (decode (Status d))) eqn:Hpo; [|done].
  destruct Hinv as (Hb & Hp & Ht & He & Hr & Hw).
  apply inv_intro; [by apply is_byte_land_l|idtac..]; inv_close.
Qed.

Lemma inv_irq d : inv d -> inv (PinDOUT_IRQHandler d).
Proof.
  intros Hinv. unfold PinDOUT_IRQHandler. cbn [Status set_irq]. rewrite truthy_PowerOn.
  destruct Hinv as (Hb & Hp & Ht & He & Hr & Hw).
  destruct (fl_power_on (decode (Status d))) eqn:Hpo.
  - apply inv_intro; [apply is_byte_lor; [done|unfold is_byte, Status_OutReady; lia]|idtac..];
      inv_close.
  - apply inv_intro; inv_close.
Qed.

Lemma inv_getRawData d dout : inv d -> inv (snd (getRawData dout d)).
Proof.
  intros Hinv. unfold getRawData. rewrite truthy_OutReady.
  destruct (fl_ready (decode (Status d))); [|done].
  destruct Hinv as (Hb & Hp & Ht & He & Hr & Hw).
  apply inv_intro; [by apply is_byte_land_l|idtac..]; inv_close.
Qed.

Lemma inv_setChGain d m dout : inv d -> inv (setChGain m dout d).
Proof.
  intros Hinv. unfold setChGain.
  destruct (_ && _ && _); [|done]. by apply inv_getRawData.
Qed.

(** [updateADC] on the attributes: the callback's control flow with
    the filter's [accept]. *)
Lemma updateADC_unfold dout d :
  updateADC dout d =
  if truthy (Status d &. Status_OutReady) then
    let (tmp, d1) := getRawData dout d in
    f <- HX711Filter.accept tmp (filt d1) ;; Ok (set_filt f d1)
  else Ok d.
Proof.
  unfold updateADC, updateADC_out, HX711Filter.accept. destruct (truthy _); [|done].
  destruct (getRawData dout d) as [tmp d1]. by destruct (HX711Filter.accept_out tmp (filt d1)) as [[]|].
Qed.

Lemma inv_updateADC d dout d' : inv d -> updateADC dout d = Ok d' -> inv d'.
Proof.
  intros Hinv Hu. rewrite updateADC_unfold in Hu.
  destruct (truthy _) eqn:Hr; [|by injection Hu as <-].
  destruct (getRawData dout d) as [tmp d1] eqn:Hg.
  pose proof (inv_getRawData d dout Hinv) as Hinv1. rewrite Hg in Hinv1. cbn [snd] in Hinv1.
  destruct Hinv1 as (Hb & Hp & Ht & He & Hrd & Hw).
  destruct (@sf_accept_wf _ hx711_filter hx711_filter_laws tmp (filt d1) Hw) as (f & Hf & Hwf).
  cbn [sf_accept hx711_filter] in Hf.
  rewrite Hf in Hu. cbn [rbind] in Hu. injection Hu as <-.
  apply inv_intro; cbn [Status Tim filt set_filt]; auto.
Qed.

Lemma inv_start d s freq r d' : inv d -> startReadADC s freq d = Ok (r, d') -> inv d'.
Proof.
  intros Hinv Hs. pose proof Hinv as (Hb & Hp & Ht & He & Hr & Hw).
  unfold startReadADC in Hs. rewrite guard_can_periodic in Hs by done.
  destruct (fl_inited _ && _ && _) eqn:Hg; [|by injection Hs as _ <-].
  apply andb_true_iff in Hg as [Hg Hpo]. apply andb_true_iff in Hg as [Hi Hen].
  destruct ((s =? 1) && _ && _ && _) eqn:Hc.
  - apply andb_true_iff in Hc as [Hc Hf2]. apply andb_true_iff in Hc as [Hc Hf1].
    apply andb_true_iff in Hc as [_ Hnp]. rewrite guard_not_periodic in Hnp by done.
    apply Z.ltb_lt in Hf1. apply Z.leb_le in Hf2.
    destruct (Tim d) as [t|] eqn:Htim; [|discriminate]. cbn [tim_init rbind] in Hs.
    injection Hs as _ <-.
    apply inv_intro; [apply is_byte_lor; [done|unfold is_byte, Status_PeriodicRead; lia]|idtac..];
      inv_close.
    + exists freq. split; [done|lia].
    + by apply (@sf_reset_wf _ hx711_filter hx711_filter_laws).
  - destruct ((s =? 0) && _) eqn:Hst; [|by injection Hs as _ <-].
    destruct (Tim d) as [t|] eqn:Htim; [|discriminate]. cbn [tim_init rbind] in Hs.
    injection Hs as _ <-.
    apply inv_intro; [by apply is_byte_land_l|idtac..]; inv_close.
Qed.

Lemma inv_initial d : initial d -> inv d.
Proof.
  intros [SCK DOUT m t]. unfold init.
  destruct (_ && _ && _ && _ && _ && _ && _); [destruct t|];
    (apply inv_intro; [unfold is_byte; vm_compute; split; congruence
                      |idtac..|apply HX711FilterScenarios.wf_init]);
    cbn; intros; discriminate.
Qed.

Lemma PinDOUT_IRQHandler_on d :
  fl_power_on (decode (Status d)) = true ->
  PinDOUT_IRQHandler d = set_Status (Status d |. Status_OutReady) (set_irq false d).
Proof.
  intros H. unfold PinDOUT_IRQHandler. cbv zeta.
  change (Status (set_irq false d)) with (Status d). by rewrite truthy_PowerOn, H.
Qed.

Definition set_fl_ready (F : flags) : flags :=
  mkFlags (fl_inited F) (fl_en_drdy F) (fl_en_timer F) (fl_power_on F) (fl_periodic F)
          true (fl_bit1 F) (fl_bit0 F).

Lemma decode_set_ready s : decode (s |. Status_OutReady) = set_fl_ready (decode s).
Proof.
  unfold Status_OutReady. rewrite decode_lor. unfold set_fl_ready.
  destruct (decode s) as [[] [] [] [] [] [] [] []]; reflexivity.
Qed.

Lemma decode_clear_periodic s :
  decode (s &. ~. Status_PeriodicRead) =
  mkFlags (fl_inited (decode s)) (fl_en_drdy (decode s)) (fl_en_timer (decode s))
          (fl_power_on (decode s)) false (fl_ready (decode s)) (fl_bit1 (decode s))
          (fl_bit0 (decode s)).
Proof.
  unfold Status_PeriodicRead. rewrite decode_land, decode_lnot.
  destruct (decode s) as [[] [] [] [] [] [] [] []]; reflexivity.
Qed.

Lemma decode_set_power_on s :
  decode (s |. Status_PowerOn) =
  mkFlags (fl_inited (decode s)) (fl_en_drdy (decode s)) (fl_en_timer (decode s)) true
          (fl_periodic (decode s)) (fl_ready (decode s)) (fl_bit1 (decode s)) (fl_bit0 (decode s)).
Proof.
  unfold Status_PowerOn. rewrite decode_lor.
  destruct (decode s) as [[] [] [] [] [] [] [] []]; reflexivity.
Qed.

Lemma decode_power_off_mask s :
  decode (s &. 0xE0) =
  mkFlags (fl_inited (decode s)) (fl_en_drdy (decode s)) (fl_en_timer (decode s))
          false false false false false.
Proof. rewrite decode_land. destruct (decode s) as [[] [] [] [] [] [] [] []]; reflexivity. Qed.

(** [PowerOn]'s busy-wait: with PowerOn set, the ready flag clear and
    the interrupt armed, it returns one sleep after the first falling
    edge of DOUT, with the ready flag set. *)
Lemma wait_ready_falls fuel j falls d k :
  fl_power_on (decode (Status d)) = true -> fl_ready (decode (Status d)) = false ->
  irq d = true -> (j <= k)%nat -> falls k = true -> (k - j + 2 <= fuel)%nat ->
  exists d', wait_ready fuel j falls d = Some d' /\
    fl_ready (decode (Status d')) = true /\ fl_power_on (decode (Status d')) = true /\
    Tim d' = Tim d /\ filt d' = filt d /\ Status d' = Status d |. Status_OutReady /\
    ChMode d' = ChMode d.
Proof.
  revert j. induction fuel as [|fuel IH]; intros j Hpo Hr Hirq Hjk Hk Hf; [lia|].
  cbn [wait_ready]. rewrite truthy_OutReady, Hr, Hirq, andb_true_r.
  destruct (falls j) eqn:Hj.
  - rewrite PinDOUT_IRQHandler_on by done.
    destruct fuel as [|fuel']; [lia|]. cbn [wait_ready Status set_Status set_irq].
    rewrite truthy_OutReady, decode_set_ready.
    eexists. split; [reflexivity|]. cbn [Status Tim filt set_Status set_irq].
    rewrite decode_set_ready. cbn [fl_ready fl_power_on set_fl_ready]. done.
  - assert (Hjk' : (S j <= k)%nat) by (destruct (decide (j = k)); [congruence|lia]).
    apply IH; [done..|lia].
Qed.

Lemma wait_ready_blocked fuel j falls d :
  fl_ready (decode (Status d)) = false -> (forall k, falls k = false) ->
  wait_ready fuel j falls d = None.
Proof.
  revert j. induction fuel as [|fuel IH]; intros j Hr Hf; [done|].
  cbn [wait_ready]. rewrite truthy_OutReady, Hr, Hf. cbn [andb]. by apply IH.
Qed.

(** C26: Every object the program can reach satisfies the invariant:
    the status stays a byte; PeriodicRead is only set together with
    Inited, EnTimer and PowerOn and with the timer running periodically
    at a frequency in (0, 2]; EnTimer implies a timer object; OutReady
    implies PowerOn; and the filter's invariant holds. *)
Theorem reachable_inv d : reachable d -> inv d.
Proof.
  induction 1 as [d Hi|d d' _ IH Hs]; [by apply inv_initial|].
  destruct Hs; eauto using inv_power_on, inv_power_off, inv_irq, inv_updateADC,
    inv_start, inv_setChGain, inv_getRawData.
Qed.

(** [startReadADC(1, Freq)] on an object that can start reading. *)
Lemma start_ok d freq :
  inv d -> fl_inited (decode (Status d)) = true -> fl_en_timer (decode (Status d)) = true ->
  fl_power_on (decode (Status d)) = true -> fl_periodic (decode (Status d)) = false ->
  0 < freq <= 2 ->
  exists d', startReadADC 1 freq d = Ok (Some 1, d') /\
    fl_periodic (decode (Status d')) = true /\ Tim d' = Some (TimPeriodic freq) /\
    filt d' = HX711Filter.reset (filt d) /\ inv d'.
Proof.
  intros Hinv Hi He Hp Hnp Hf. pose proof Hinv as (Hb & _ & _ & Ht & _).
  unfold startReadADC. rewrite guard_can_periodic, Hi, He, Hp, guard_not_periodic, Hnp by done.
  rewrite (proj2 (Z.ltb_lt 0 freq)), (proj2 (Z.leb_le freq 2)) by lia. cbn [andb Z.eqb negb].
  destruct (Tim d) as [t|] eqn:Htim; [|by destruct (Ht He)]. cbn [tim_init rbind].
  eexists. split; [reflexivity|].
  cbn [Status Tim filt set_Status set_Tim set_filt].
  split; [unfold Status_PeriodicRead; rewrite decode_lor; cbn; by rewrite orb_true_r|].
  split; [done|]. split; [done|].
  apply (inv_start d 1 freq (Some 1)). done.
  unfold startReadADC. rewrite guard_can_periodic, Hi, He, Hp, guard_not_periodic, Hnp by done.
  rewrite (proj2 (Z.ltb_lt 0 freq)), (proj2 (Z.leb_le freq 2)) by lia. cbn [andb Z.eqb negb].
  rewrite Htim. reflexivity.
Qed.

(** C27: [startReadADC(1, Freq)] succeeds on a powered, initialised
    object with a timer, not already reading, for [0 < Freq <= 2]: it
    returns 1, sets PeriodicRead, runs the timer at [Freq], resets the
    filter (fill index, fit, outputs, recheck flag) and keeps the
    invariant. *)
Theorem start_success d freq :
  inv d -> fl_inited (decode (Status d)) = true -> fl_en_timer (decode (Status d)) = true ->
  fl_power_on (decode (Status d)) = true -> fl_periodic (decode (Status d)) = false ->
  0 < freq <= 2 ->
  exists d', startReadADC 1 freq d = Ok (Some 1, d') /\
    fl_periodic (decode (Status d')) = true /\ Tim d' = Some (TimPeriodic freq) /\
    filt d' = HX711Filter.reset (filt d) /\ inv d'.
Proof. exact (start_ok d freq). Qed.

(** C28: [startReadADC(1, Freq)] is refused, and changes nothing, when
    the object is not powered, not initialised, has no timer, is
    already reading periodically, or [Freq] is outside (0, 2]: it
    returns [None] or 0, both false in Python. *)
Theorem start_refused d freq :
  inv d ->
  (fl_power_on (decode (Status d)) = false \/ fl_inited (decode (Status d)) = false \/
   fl_en_timer (decode (Status d)) = false \/ fl_periodic (decode (Status d)) = true \/
   freq <= 0 \/ 2 < freq) ->
  exists r, startReadADC 1 freq d = Ok (r, d) /\ r <> Some 1.
Proof.
  intros (Hb & _) Hc. unfold startReadADC. rewrite guard_can_periodic by done.
  destruct (fl_inited _ && fl_en_timer _ && fl_power_on _) eqn:Hg; [|by eexists].
  rewrite guard_not_periodic by done.
  apply andb_true_iff in Hg as [Hg Hpo]. apply andb_true_iff in Hg as [Hi Hen].
  destruct Hc as [Hc|[Hc|[Hc|[Hc|[Hc|Hc]]]]]; try congruence.
  - rewrite Hc. by eexists.
  - rewrite (proj2 (Z.ltb_ge 0 freq)) by lia. rewrite andb_false_r. by eexists.
  - rewrite (proj2 (Z.leb_gt freq 2)) by lia. rewrite andb_false_r. by eexists.
Qed.

(** C29: Stopping is total and idempotent: on any object satisfying the
    invariant, [startReadADC(0)] succeeds (no exception) and leaves
    PeriodicRead clear, and a second [startReadADC(0)] changes nothing
    and returns [None] or 0. *)
Theorem stop_idempotent d freq :
  inv d ->
  exists r1 d1 r2, startReadADC 0 freq d = Ok (r1, d1) /\ startReadADC 0 freq d1 = Ok (r2, d1) /\
    r2 <> Some 1 /\ fl_periodic (decode (Status d1)) = false.
Proof.
  intros (Hb & Hp & Ht & He & _). unfold startReadADC.
  rewrite guard_can_periodic by done. cbn [Z.eqb andb].
  rewrite truthy_PeriodicRead.
  destruct (fl_periodic (decode (Status d))) eqn:Hper.
  - destruct (Hp eq_refl) as (Hi & Hen & Hpo). rewrite Hi, Hen, Hpo. cbn [andb].
    destruct (Tim d) as [t|] eqn:Htim; [|by destruct (He Hen)]. cbn [tim_init rbind].
    do 3 eexists. split; [reflexivity|].
    cbn [Status Tim set_Status set_Tim].
    rewrite guard_can_periodic by (by apply is_byte_land_l).
    rewrite truthy_PeriodicRead, decode_clear_periodic.
    cbn [fl_inited fl_en_timer fl_power_on fl_periodic]. rewrite Hi, Hen, Hpo.
    split; [reflexivity|]. split; [discriminate|reflexivity].
  - destruct (fl_inited _ && _ && _) eqn:Hg; cbn [andb];
      do 3 eexists; (split; [reflexivity|]);
      rewrite guard_can_periodic, ?truthy_PeriodicRead, ?Hper, Hg by done;
      (split; [reflexivity|]); split; [discriminate|done|discriminate|done].
Qed.

(** [PowerOn] on an initialised, unpowered object returns one sleep
    after the first falling edge of DOUT, with the ready flag added to
    the status it set. *)
Lemma PowerOn_ready d fuel falls k :
  inv d -> fl_inited (decode (Status d)) = true -> fl_power_on (decode (Status d)) = false ->
  falls k = true -> (k + 2 <= fuel)%nat ->
  exists d', PowerOn fuel falls d = Some d' /\
    fl_ready (decode (Status d')) = true /\ fl_power_on (decode (Status d')) = true /\
    Tim d' = Tim d /\ filt d' = filt d /\
    Status d' = (Status d |. Status_PowerOn) |. Status_OutReady /\ ChMode d' = ChMode d.
Proof.
  intros (Hb & _ & _ & _ & Hr & _) Hi Hpo Hk Hf. unfold PowerOn.
  rewrite guard_power_on, Hi, Hpo by done. cbn [andb negb].
  set (d0 := set_sck 0 (set_irq true (set_Status (Status d |. Status_PowerOn) d))).
  assert (Hr0 : fl_ready (decode (Status d)) = false).
  { destruct (fl_ready (decode (Status d))) eqn:Hrd; [|done]. specialize (Hr eq_refl). congruence. }
  destruct (wait_ready_falls fuel 0 falls d0 k) as (d' & Hw & H1 & H2 & H3 & H4 & H5 & H6);
    [subst d0; cbn [Status set_sck set_irq set_Status]; by rewrite ?decode_set_power_on..
    |lia|done|lia|].
  exists d'. subst d0. repeat split; done.
Qed.

(** C30: [PowerOn] returns: on an initialised, unpowered object, once
    DOUT falls during the [k]-th sleep of the busy-wait, [PowerOn]
    returns at the next check (fuel [k + 2] suffices) with PowerOn and
    OutReady set, the timer and the filter untouched. *)
Theorem PowerOn_returns d fuel falls k :
  inv d -> fl_inited (decode (Status d)) = true -> fl_power_on (decode (Status d)) = false ->
  falls k = true -> (k + 2 <= fuel)%nat ->
  exists d', PowerOn fuel falls d = Some d' /\
    fl_ready (decode (Status d')) = true /\ fl_power_on (decode (Status d')) = true /\
    Tim d' = Tim d /\ filt d' = filt d.
Proof.
  intros Hinv Hi Hpo Hk Hf.
  destruct (PowerOn_ready d fuel falls k) as (d' & H1 & H2 & H3 & H4 & H5 & _ & _); [done..|].
  by exists d'.
Qed.

(** C31: [PowerOn] hangs: on an initialised, unpowered object whose DOUT
    never falls, the busy-wait never ends: whatever the fuel, [PowerOn]
    has not returned. *)
Theorem PowerOn_blocks d falls :
  inv d -> fl_inited (decode (Status d)) = true -> fl_power_on (decode (Status d)) = false ->
  (forall k, falls k = false) -> forall fuel, PowerOn fuel falls d = None.
Proof.
  intros (Hb & _ & _ & _ & Hr & _) Hi Hpo Hf fuel. unfold PowerOn.
  rewrite guard_power_on, Hi, Hpo by done. cbn [andb negb].
  apply wait_ready_blocked; [|done]. cbn [Status set_sck set_irq set_Status].
  rewrite decode_set_power_on. cbn [fl_ready].
  destruct (fl_ready (decode (Status d))) eqn:Hrd; [|done]. specialize (Hr eq_refl). congruence.
Qed.

(** C32: [PowerOff] during periodic reading leaves the timer armed: it
    clears PeriodicRead and PowerOn but does not stop the timer, which
    keeps calling [updateADC] (now a no-op), and [startReadADC(0)] can
    no longer stop it (it returns [None] and changes nothing). *)
Theorem power_off_keeps_timer d :
  inv d -> fl_periodic (decode (Status d)) = true ->
  exists f, Tim (PowerOff d) = Some (TimPeriodic f) /\
    fl_periodic (decode (Status (PowerOff d))) = false /\
    (forall s freq, startReadADC s freq (PowerOff d) = Ok (None, PowerOff d)) /\
    (forall dout, updateADC dout (PowerOff d) = Ok (PowerOff d)).
Proof.
  intros (Hb & Hp & Ht & _) Hper. destruct (Hp Hper) as (Hi & Hen & Hpo).
  destruct (Ht Hper) as (f & Htim & _). exists f.
  assert (Hoff : PowerOff d = set_Status (Status d &. 0xE0) (set_sck 1 d))
    by (unfold PowerOff; by rewrite truthy_PowerOn, Hpo).
  rewrite Hoff. cbn [Tim Status set_Status set_sck].
  split; [done|]. rewrite decode_power_off_mask. cbn [fl_periodic]. split; [done|].
  split.
  - intros st freq. unfold startReadADC. cbn [Status set_Status set_sck].
    rewrite guard_can_periodic by (by apply is_byte_land_l).
    rewrite decode_power_off_mask. cbn [fl_power_on]. by rewrite andb_false_r.
  - intros dout. rewrite updateADC_unfold. cbn [Status set_Status set_sck].
    by rewrite truthy_OutReady, decode_power_off_mask.
Qed.

(** C33: A saturated conversion is read and dropped: when the decoded
    sample is the saturation code 8388607, the timer callback consumes
    the ready flag and re-arms the interrupt but leaves the filter
    exactly as it was. *)
Theorem updateADC_sentinel d dout :
  fl_ready (decode (Status d)) = true ->
  HX711Wire.getRawData_value (Z.to_nat (ChMode d)) dout = sentinel ->
  exists d', updateADC dout d = Ok d' /\ filt d' = filt d /\
    fl_ready (decode (Status d')) = false /\ irq d' = true.
Proof.
  intros Hr Hs. rewrite updateADC_unfold. unfold getRawData. rewrite truthy_OutReady, Hr, Hs.
  rewrite HX711FilterFacts.accept_unfold, Z.eqb_refl. cbn [rbind].
  eexists. split; [reflexivity|]. cbn [filt Status irq set_filt set_irq set_sck set_Status].
  split; [done|]. split; [|done].
  unfold Status_OutReady. rewrite decode_land, decode_lnot.
  cbn [flags_map2 flags_not fl_ready]. by rewrite andb_false_r.
Qed.

End HX711DeviceFacts.

(** ** Witnesses *)

Module HX711DeviceWitnesses.
Import HX711Device HX711DeviceFacts.

(** The object of the driver's demo after [PowerOn] returned. *)
Lemma inv_ready_object : inv (mkDev 0xB4 25 (Some TimIdle) 0 false HX711Filter.init).
Proof.
  apply inv_intro; [unfold is_byte; vm_compute; split; congruence|vm_compute; intros; discriminate..
                   |vm_compute; congruence|vm_compute; reflexivity|exact HX711FilterScenarios.wf_init].
Qed.

Lemma inv_configured_object : inv (mkDev 0xA0 25 (Some TimIdle) 1 false HX711Filter.init).
Proof.
  apply inv_intro; [unfold is_byte; vm_compute; split; congruence|vm_compute; intros; discriminate..
                   |vm_compute; congruence|vm_compute; discriminate|exact HX711FilterScenarios.wf_init].
Qed.

Lemma inv_reading_object :
  inv (mkDev 0xBC 25 (Some (TimPeriodic 2)) 0 true HX711Filter.init).
Proof.
  apply inv_intro; [unfold is_byte; vm_compute; split; congruence| |intros _; exists 2; split; [done|lia]
                   |vm_compute; congruence|vm_compute; reflexivity|exact HX711FilterScenarios.wf_init].
  vm_compute. intros _. repeat split.
Qed.

Lemma reachable_inv_witness :
  inv (snd (getRawData (fun _ => 1) (PinDOUT_IRQHandler
         (set_sck 0 (set_irq true (set_Status (Status (init 5 4 ChAx128 true) |. Status_PowerOn)
            (init 5 4 ChAx128 true))))))).
Proof.
  apply reachable_inv.
  refine (reach_step _ _ (reach_step _ _ (reach_step _ _
            (reach_init _ (initial_init 5 4 ChAx128 true))
            (step_power_on (init 5 4 ChAx128 true) eq_refl))
            (step_irq (set_sck 0 (set_irq true (set_Status (Status (init 5 4 ChAx128 true)
                         |. Status_PowerOn) (init 5 4 ChAx128 true)))) eq_refl))
            (step_read _ (fun _ => 1))).
Defined.

Lemma start_success_witness :
  exists d', startReadADC 1 2 (mkDev 0xB4 25 (Some TimIdle) 0 false HX711Filter.init) = Ok (Some 1, d') /\
    fl_periodic (decode (Status d')) = true /\ Tim d' = Some (TimPeriodic 2) /\
    filt d' = HX711Filter.reset HX711Filter.init /\ inv d'.
Proof.
  apply (start_success (mkDev 0xB4 25 (Some TimIdle) 0 false HX711Filter.init) 2);
    [exact inv_ready_object|reflexivity..|lia].
Defined.

Lemma start_refused_witness :
  exists r, startReadADC 1 5 (mkDev 0xB4 25 (Some TimIdle) 0 false HX711Filter.init) =
            Ok (r, mkDev 0xB4 25 (Some TimIdle) 0 false HX711Filter.init) /\ r <> Some 1.
Proof.
  apply start_refused; [exact inv_ready_object|]. right. right. right. right. right. lia.
Defined.

Lemma stop_idempotent_witness :
  exists r1 d1 r2,
    startReadADC 0 2 (mkDev 0xBC 25 (Some (TimPeriodic 2)) 0 true HX711Filter.init) = Ok (r1, d1) /\
    startReadADC 0 2 d1 = Ok (r2, d1) /\ r2 <> Some 1 /\ fl_periodic (decode (Status d1)) = false.
Proof. apply stop_idempotent, inv_reading_object. Defined.

Lemma PowerOn_returns_witness :
  exists d', PowerOn 5 (fun k => (k =? 3)%nat) (mkDev 0xA0 25 (Some TimIdle) 1 false HX711Filter.init)
             = Some d' /\
    fl_ready (decode (Status d')) = true /\ fl_power_on (decode (Status d')) = true /\
    Tim d' = Some TimIdle /\ filt d' = HX711Filter.init.
Proof.
  destruct (PowerOn_returns (mkDev 0xA0 25 (Some TimIdle) 1 false HX711Filter.init) 5
              (fun k => (k =? 3)%nat) 3) as (d' & H1 & H2 & H3 & H4 & H5);
    [exact inv_configured_object|reflexivity..|lia|].
  exists d'. auto.
Defined.

Lemma PowerOn_blocks_witness :
  PowerOn 1000 (fun _ => false) (mkDev 0xA0 25 (Some TimIdle) 1 false HX711Filter.init) = None.
Proof. apply PowerOn_blocks; [exact inv_configured_object|reflexivity|reflexivity|done]. Defined.

Lemma power_off_keeps_timer_witness :
  exists f, Tim (PowerOff (mkDev 0xBC 25 (Some (TimPeriodic 2)) 0 true HX711Filter.init))
            = Some (TimPeriodic f) /\
    fl_periodic (decode (Status (PowerOff (mkDev 0xBC 25 (Some (TimPeriodic 2)) 0 true HX711Filter.init))))
      = false /\
    (forall s freq, startReadADC s freq (PowerOff (mkDev 0xBC 25 (Some (TimPeriodic 2)) 0 true HX711Filter.init))
                    = Ok (None, PowerOff (mkDev 0xBC 25 (Some (TimPeriodic 2)) 0 true HX711Filter.init))) /\
    (forall dout, updateADC dout (PowerOff (mkDev 0xBC 25 (Some (TimPeriodic 2)) 0 true HX711Filter.init))
                  = Ok (PowerOff (mkDev 0xBC 25 (Some (TimPeriodic 2)) 0 true HX711Filter.init))).
Proof. apply power_off_keeps_timer; [exact inv_reading_object|reflexivity]. Defined.

Lemma updateADC_sentinel_witness :
  exists d', updateADC (fun i => if (i =? 0)%nat then 0 else 1)
               (mkDev 0xBC 25 (Some (TimPeriodic 2)) 0 false HX711Filter.init) = Ok d' /\
    filt d' = HX711Filter.init /\ fl_ready (decode (Status d')) = false /\ irq d' = true.
Proof. apply updateADC_sentinel; reflexivity. Defined.

End HX711DeviceWitnesses.
