(* ===== verification/NAU7802Filter.v ===== *)
(** * NAU7802: the filter of [updateADC]

    NAU7802.py lines 127-139: on every timer tick with a conversion
    ready, [updateADC] reads a raw sample and feeds it to the 21-sample
    window [__dataY] with the abscissae [__dataX = -10..10]:
    - filling ([__dataI<21]): [__dataY[__dataI]=sample], nothing else;
    - steady state: slide the window, fit the line, publish
      [MeanValue=Average(__dataY)], [LinRegVal=__LinRegB] and
      [ValStable = (__LinRegE < 200)].
    Unlike the HX711 filter there is no saturation test and no recheck.

    [accept] is the body of lines 129-139 on one sample; the device file
    supplies the sample read over I2C.  The main theorem is a
    refinement: after any sample history [h] fed from a reset state,
    the window holds the last 21 samples of [h] ([lastn 21 h]), and once
    more than 21 samples were seen the published values are the fit and
    the mean of exactly those samples. *)

From stdpp Require Import base tactics list.
From Stdlib Require Import ZArith QArith Qabs Lia Lqa.
From S2P Require Import Prelude RawData Regression Window SampleFilter.

Module NAU7802Filter.

(** [__dataX], line 47. *)
Definition dataX : list Z :=
  [-10; -9; -8; -7; -6; -5; -4; -3; -2; -1; 0; 1; 2; 3; 4; 5; 6; 7; 8; 9; 10]%Z.

(** [__dataY], line 48: the class attribute's initial value. *)
Definition dataY0 : list Z := repeat 0%Z 21.

Record state := mkState {
  dataI : nat;            (** [__dataI] *)
  dataY : list Z;         (** [__dataY] *)
  LinRegA : Q;            (** [__LinRegA], the slope *)
  LinRegB : Q;            (** [__LinRegB], the intercept *)
  LinRegE : Q;            (** [__LinRegE], the mean residual *)
  Check : Z;              (** [__Check], only ever reset *)
  MeanValue : pyval;      (** [MeanValue] *)
  LinRegVal : Q;          (** [LinRegVal] *)
  ValStable : Z           (** [ValStable] *)
}.

(** The class attributes' values, lines 46-56. *)
Definition init : state := mkState 0 dataY0 0 0 0 0 (PyNum 0) 0 0.

(** The reset of [startReadADC(1)], lines 144-151: [__dataY] is kept. *)
Definition reset (f : state) : state :=
  mkState 0 (dataY f) 0 0 0 0 (PyNum 0) 0 0.

(** Lines 130-131. *)
Definition fill (tmp : Z) (f : state) : result state :=
  Y <- py_setitem (dataY f) (dataI f) tmp ;;
  Ok (mkState (S (dataI f)) Y (LinRegA f) (LinRegB f) (LinRegE f) (Check f)
              (MeanValue f) (LinRegVal f) (ValStable f)).

(** [NAU7802.Average] and [NAU7802.LinearReg], lines 162-190: the same
    text as HX711's methods, so the functions of [Regression]. *)
Definition Average : list Z -> pyval := Regression.Average.
Definition LinearReg : list Z -> list Z -> result (Q * Q * Q) := Regression.LinearReg.

(** Lines 133-139. *)
Definition track (tmp : Z) (f : state) : result state :=
  Y <- slide (dataY f) tmp ;;
  let! (a, b, e) := LinearReg dataX Y in
  Ok (mkState (dataI f) Y a b e (Check f) (Average Y) b
              (if Qltb e 200 then 1%Z else 0%Z)).

(** Lines 129-139 on the sample [tmp]. *)
Definition accept (tmp : Z) (f : state) : result state :=
  if (dataI f <? 21)%nat then fill tmp f else track tmp f.

(** A sequence of samples, oldest first. *)
Fixpoint run (ss : list Z) (f : state) : result state :=
  match ss with
  | [] => Ok f
  | s :: ss' => f' <- accept s f ;; run ss' f'
  end.

(** The invariant: a 21-element window and a fill index at most 21. *)
Definition wf (f : state) : Prop :=
  length (dataY f) = 21%nat /\ (dataI f <= 21)%nat.

(** The abstract view of the window after the history [h]: the fill
    index counts the samples up to 21 and the filled slots hold the
    last 21 samples. *)
Definition window_of (h : list Z) (f : state) : Prop :=
  dataI f = min 21 (length h) /\ length (dataY f) = 21%nat /\
  take (dataI f) (dataY f) = lastn 21 h.

(** What the filter publishes about a window [W]: its fit, its mean as
    both [MeanValue] and [LinRegVal], and the stability test. *)
Definition publishes (W : list Z) (f : state) : Prop :=
  LinearReg dataX W = Ok (LinRegA f, LinRegB f, LinRegE f) /\
  MeanValue f = PyNum (mean W) /\ (LinRegVal f == mean W)%Q /\
  (ValStable f = 1%Z <-> (LinRegE f < 200)%Q) /\ (ValStable f = 0%Z \/ ValStable f = 1%Z).

(** The published attributes of two states agree. *)
Definition same_outputs (f g : state) : Prop :=
  LinRegA f = LinRegA g /\ LinRegB f = LinRegB g /\ LinRegE f = LinRegE g /\
  MeanValue f = MeanValue g /\ LinRegVal f = LinRegVal g /\ ValStable f = ValStable g.

End NAU7802Filter.

(** ** The filter refines the last-21-samples window *)

Module NAU7802FilterFacts.
Import NAU7802Filter.

Lemma length_dataX21 : length dataX = 21%nat.
Proof. reflexivity. Qed.

(** The regression never fails on a 21-sample window and its intercept
    is the window's mean: [__dataX] is symmetric. *)
Lemma LinearReg_dataX21 Y :
  length Y = 21%nat -> exists a b e, LinearReg dataX Y = Ok (a, b, e) /\ (b == mean Y)%Q.
Proof.
  intros Hl. apply (LinearReg_centered dataX Y (-10) 10); [cbn; lia|done|reflexivity|idtac..];
    cbn; [tauto|tauto|lia].
Qed.

Lemma run_app h1 h2 f : run (h1 ++ h2) f = (r <- run h1 f ;; run h2 r).
Proof.
  revert f. induction h1 as [|x h1 IH]; intros f; [done|].
  cbn. destruct (accept x f); cbn; [apply IH|done].
Qed.

(** Agreeing on the published attributes is an equivalence on states,
    coarser than equality (the window may differ). *)
#[export] Instance same_outputs_equiv : Equivalence same_outputs.
Proof.
  split.
  - intros f. by repeat split.
  - intros f g (? & ? & ? & ? & ? & ?). by repeat split.
  - intros f g k (? & ? & ? & ? & ? & ?) (? & ? & ? & ? & ? & ?). repeat split; congruence.
Qed.

(** While fewer than 21 samples were seen, a sample fills the next slot
    and publishes nothing. *)
Lemma fill_step h f x :
  window_of h f -> (length h < 21)%nat ->
  exists f', accept x f = Ok f' /\ window_of (h ++ [x]) f' /\ same_outputs f' f.
Proof.
  intros (Hi & Hl & Ht) Hh. rewrite lastn_all in Ht by lia.
  rewrite Nat.min_r in Hi by lia. rewrite Hi in Ht.
  destruct (fill_prefix (dataY f) h x) as (W' & Hset & Ht' & Hl'); [lia|done|].
  unfold accept. rewrite Hi, (proj2 (Nat.ltb_lt _ _) Hh). unfold fill.
  rewrite Hi, Hset. cbn [rbind]. eexists. split; [reflexivity|].
  split; [|by repeat split].
  unfold window_of. cbn [dataI dataY].
  rewrite lastn_all by (rewrite length_app; cbn; lia). rewrite length_app. cbn [length].
  split; [lia|]. split; [lia|done].
Qed.

(** Once 21 samples were seen, a sample slides the window and publishes
    the fit and the mean of the last 21 samples. *)
Lemma track_step h f x :
  window_of h f -> (21 <= length h)%nat ->
  exists f', accept x f = Ok f' /\ window_of (h ++ [x]) f' /\
             publishes (lastn 21 (h ++ [x])) f'.
Proof.
  intros (Hi & Hl & Ht) Hh. rewrite Nat.min_l in Hi by lia. rewrite Hi in Ht.
  rewrite take_ge in Ht by lia.
  unfold accept. rewrite Hi. cbn [Nat.ltb Nat.leb]. unfold track.
  rewrite Ht, slide_lastn by lia. cbn [rbind].
  assert (HW : length (lastn 21 (h ++ [x])) = 21%nat)
    by (rewrite length_lastn, length_app; cbn [length]; lia).
  destruct (LinearReg_dataX21 _ HW) as (a & b & e & Hr & Hb). rewrite Hr. cbn [rbind].
  eexists. split; [reflexivity|]. cbn [dataI dataY LinRegA LinRegB LinRegE MeanValue
                                       LinRegVal ValStable].
  split; [unfold window_of; cbn [dataI dataY]; rewrite length_app; cbn [length];
         split; [lia|split; [done|by rewrite take_ge by lia]]|].
  split; [done|]. split; [apply Average_window; lia|]. split; [done|].
  cbn [ValStable LinRegE]. destruct (Qltb e 200) eqn:He;
    [apply Qltb_lt in He|apply Qltb_ge in He];
    (split; [split; intros; first [done|lra|discriminate]|auto]).
Qed.

(** C9: Refinement of the window.  From a reset state (fill index 0,
    any 21-element window), after any history [h] of samples the filter
    has not raised, its filled slots hold the last 21 samples of [h];
    while at most 21 samples were seen nothing is published, and after
    more, the stored fit is [LinearReg] of the last 21 samples, both
    [MeanValue] and [LinRegVal] are their mean and [ValStable] is 1
    exactly when the mean residual is below 200. *)
Theorem run_refines_lastn h f0 :
  length (dataY f0) = 21%nat -> dataI f0 = 0%nat ->
  exists f, run h f0 = Ok f /\ window_of h f /\
    ((length h <= 21)%nat -> same_outputs f f0) /\
    ((21 < length h)%nat -> publishes (lastn 21 h) f).
Proof.
  intros Hl0 Hi0. induction h as [|x h IH] using rev_ind.
  - exists f0. split; [done|]. split; [unfold window_of; rewrite Hi0; by split|].
    split; [intros; reflexivity|cbn; lia].
  - destruct IH as (f & Hrun & Hw & Hsame & _).
    rewrite run_app, Hrun. cbn [rbind run]. rewrite length_app. cbn [length].
    destruct (Nat.lt_ge_cases (length h) 21) as [Hh|Hh].
    + destruct (fill_step h f x Hw Hh) as (f' & Hacc & Hw' & Hs').
      rewrite Hacc. cbn [rbind]. exists f'. split; [done|]. split; [done|].
      split; [intros; transitivity f; [done|apply Hsame; lia]|lia].
    + destruct (track_step h f x Hw Hh) as (f' & Hacc & Hw' & Hp).
      rewrite Hacc. cbn [rbind]. exists f'. split; [done|]. split; [done|].
      split; [lia|done].
Qed.

(** The filter invariant is preserved by every sample, without error. *)
Lemma accept_wf_21 tmp f : wf f -> exists f', accept tmp f = Ok f' /\ wf f'.
Proof.
  intros [Hl Hi]. unfold accept.
  destruct (Nat.ltb_spec (dataI f) 21) as [Hlt|Hge].
  - unfold fill. rewrite py_setitem_ok by lia. cbn [rbind].
    eexists. split; [reflexivity|]. split; cbn; [by rewrite length_insert|lia].
  - destruct (dataY f) as [|w r] eqn:Hd; [done|]. unfold track. rewrite Hd, slide_cons.
    cbn [rbind]. destruct (LinearReg_dataX21 (r ++ [tmp])) as (a & b & e & Hr & _);
      [rewrite length_app; cbn in *; lia|].
    rewrite Hr. cbn [rbind]. eexists. split; [reflexivity|]. split; cbn; [|lia].
    rewrite length_app. cbn in *. lia.
Qed.

(** C38: The NAU7802 filter has no saturation test: the code 8388607
    that the HX711 filter drops is accepted into the window, in the
    filling phase and in the steady state alike. *)
Theorem nau_accepts_sentinel f :
  wf f -> exists f', accept sentinel f = Ok f' /\ In sentinel (dataY f') /\ wf f'.
Proof.
  intros [Hl Hi]. unfold accept.
  destruct (Nat.ltb_spec (dataI f) 21) as [Hlt|Hge].
  - unfold fill. rewrite py_setitem_ok by lia. cbn [rbind].
    eexists. split; [reflexivity|]. cbn [dataY dataI].
    split; [apply list_elem_of_In, list_elem_of_insert; lia|].
    split; cbn; [by rewrite length_insert|lia].
  - destruct (dataY f) as [|w r] eqn:Hd; [done|]. unfold track. rewrite Hd, slide_cons.
    cbn [rbind]. destruct (LinearReg_dataX21 (r ++ [sentinel])) as (a & b & e & Hr & _);
      [rewrite length_app; cbn in *; lia|].
    rewrite Hr. cbn [rbind]. eexists. split; [reflexivity|]. cbn [dataY dataI].
    split; [apply in_or_app; right; by left|].
    split; cbn; [rewrite length_app; cbn in *; lia|lia].
Qed.

End NAU7802FilterFacts.

(** ** Scenarios and witnesses *)

Module NAU7802FilterScenarios.
Import NAU7802Filter NAU7802FilterFacts.
Local Open Scope Q_scope.

Lemma nau_wf_init : wf init.
Proof. split; cbn; lia. Qed.

(** Twenty-two samples of 500 after a start: the window is full of
    500s, the fit is flat (slope 0, residual 0), MeanValue and LinRegVal
    are 500 and ValStable is 1. *)
Example nau_scenario_constant :
  match run (repeat 500%Z 22) init with
  | Ok f => dataY f = repeat 500%Z 21 /\ LinRegA f == 0 /\ LinRegE f == 0 /\
            MeanValue f = PyNum (mean (repeat 500%Z 21)) /\ mean (repeat 500%Z 21) == 500 /\
            LinRegVal f == 500 /\ ValStable f = 1%Z
  | Raise _ => False
  end.
Proof. vm_compute. repeat split; reflexivity. Qed.

(** Without a recheck a single spike moves the published value: after
    21 samples of 1000, one sample of 1000000 is averaged in, LinRegVal
    jumps above 48000 and ValStable drops to 0. *)
Example nau_scenario_spike_published :
  match run (repeat 1000%Z 21 ++ [1000000%Z; 1000%Z]) init with
  | Ok f => In 1000000%Z (dataY f) /\ 48000 < LinRegVal f /\ ValStable f = 0%Z
  | Raise _ => False
  end.
Proof. vm_compute. split; [tauto|]. split; reflexivity. Qed.

Lemma run_refines_lastn_witness :
  exists f, run (map Z.of_nat (seq 0 23)) init = Ok f /\
    window_of (map Z.of_nat (seq 0 23)) f /\
    ((length (map Z.of_nat (seq 0 23)) <= 21)%nat -> same_outputs f init) /\
    ((21 < length (map Z.of_nat (seq 0 23)))%nat -> publishes (lastn 21 (map Z.of_nat (seq 0 23))) f).
Proof. apply run_refines_lastn; reflexivity. Defined.

Lemma nau_accepts_sentinel_witness :
  exists f', accept sentinel init = Ok f' /\ In sentinel (dataY f') /\ wf f'.
Proof. apply nau_accepts_sentinel, nau_wf_init. Defined.

End NAU7802FilterScenarios.

(** ** The filter as the device sees it *)

#[export] Instance nau7802_filter : SampleFilter NAU7802Filter.state := {
  sf_accept := NAU7802Filter.accept;
  sf_reset := NAU7802Filter.reset;
  sf_wf := NAU7802Filter.wf
}.

#[export] Instance nau7802_filter_laws : SampleFilterLaws NAU7802Filter.state.
Proof.
  split.
  - exact NAU7802FilterFacts.accept_wf_21.
  - intros f [Hl _]. split; cbn; [done|lia].
Qed.
