(* ===== verification/SharedWindow.v ===== *)
(** * The window is a class attribute: objects of one driver share it

    Both drivers declare [__dataY] as a class attribute (HX711.py line
    34, NAU7802.py line 48) and never assign it as a whole: [updateADC]
    writes [self.__dataY[self.__dataI]=...], [pop]s and [append]s, which
    mutate the one list object the class holds.  The other attributes
    the filter writes ([__dataI], [__LinRegA], [MeanValue], ...) are
    assigned, which creates instance attributes.  So every object of a
    class has its own fill index and outputs but reads and writes the
    same window.

    [Windowed] says how a filter state splits into its window and the
    rest; [tick_on] runs the filter of one object on the class's list;
    [shared] is the store of two objects and the class list, and
    [tickA], [tickB] are the timer callbacks of each object.  With two
    objects, each object's samples enter the other's window
    ([nau_shared_interference], [hx711_shared_interference]). *)

From stdpp Require Import base tactics list.
From Stdlib Require Import ZArith QArith Lia.
From S2P Require Import Prelude RawData Regression Window SampleFilter HX711Filter NAU7802Filter.

(** How a filter state holds its window. *)
Class Windowed (St : Type) := {
  window : St -> list Z;
  set_window : list Z -> St -> St
}.

Class WindowedLaws (St : Type) `{Windowed St} := {
  set_window_window f : set_window (window f) f = f
}.

Section Shared.
Context {St : Type} `{SampleFilter St} `{Windowed St}.

(** The class list [__dataY] and the instance attributes of two
    objects [A] and [B] (their own copy of the window is not read). *)
Record shared := mkShared {
  cls_dataY : list Z;
  objA : St;
  objB : St
}.

(** [updateADC]'s filter on the object [o]: [self.__dataY] resolves to
    the class list [Y], which the filter mutates in place. *)
Definition tick_on (tmp : Z) (Y : list Z) (o : St) : result (list Z * St) :=
  f' <- sf_accept tmp (set_window Y o) ;; Ok (window f', f').

(** Object [A] as it sees itself: its attributes with the class list. *)
Definition viewA (s : shared) : St := set_window (cls_dataY s) (objA s).

Definition tickA (tmp : Z) (s : shared) : result shared :=
  let! (Y', a') := tick_on tmp (cls_dataY s) (objA s) in Ok (mkShared Y' a' (objB s)).

Definition tickB (tmp : Z) (s : shared) : result shared :=
  let! (Y', b') := tick_on tmp (cls_dataY s) (objB s) in Ok (mkShared Y' (objA s) b').

(** A timer tick of one of the two objects, with its sample. *)
Inductive event :=
| EvA (tmp : Z)
| EvB (tmp : Z).

Definition tick (e : event) (s : shared) : result shared :=
  match e with EvA x => tickA x s | EvB x => tickB x s end.

(** An interleaving of the two objects' ticks, oldest first. *)
Fixpoint run_events (es : list event) (s : shared) : result shared :=
  match es with
  | [] => Ok s
  | e :: es' => s' <- tick e s ;; run_events es' s'
  end.

End Shared.

Arguments shared St : clear implicits.

(** ** The two filters hold their window in [dataY] *)

#[export] Instance hx711_windowed : Windowed HX711Filter.state := {
  window := HX711Filter.dataY;
  set_window Y f :=
    HX711Filter.mkState (HX711Filter.dataI f) Y (HX711Filter.LinRegA f) (HX711Filter.LinRegB f)
      (HX711Filter.LinRegE f) (HX711Filter.Check f) (HX711Filter.MeanValue f)
      (HX711Filter.LinRegVal f) (HX711Filter.ValStable f)
}.

#[export] Instance hx711_windowed_laws : WindowedLaws HX711Filter.state.
Proof. split. by intros []. Qed.

#[export] Instance nau7802_windowed : Windowed NAU7802Filter.state := {
  window := NAU7802Filter.dataY;
  set_window Y f :=
    NAU7802Filter.mkState (NAU7802Filter.dataI f) Y (NAU7802Filter.LinRegA f)
      (NAU7802Filter.LinRegB f) (NAU7802Filter.LinRegE f) (NAU7802Filter.Check f)
      (NAU7802Filter.MeanValue f) (NAU7802Filter.LinRegVal f) (NAU7802Filter.ValStable f)
}.

#[export] Instance nau7802_windowed_laws : WindowedLaws NAU7802Filter.state.
Proof. split. by intros []. Qed.

(** ** Two objects together *)

Module SharedWindowFacts.
Import NAU7802Filter NAU7802FilterFacts.

Lemma nau_tick_on_fill tmp Y o :
  (dataI o < length Y)%nat -> (dataI o < 21)%nat ->
  tick_on tmp Y o =
  Ok (<[dataI o := tmp]> Y,
      mkState (S (dataI o)) (<[dataI o := tmp]> Y) (LinRegA o) (LinRegB o) (LinRegE o)
              (Check o) (MeanValue o) (LinRegVal o) (ValStable o)).
Proof.
  intros Hl Hi. unfold tick_on. cbn [sf_accept nau7802_filter set_window nau7802_windowed].
  unfold accept, fill. cbn [dataI dataY]. rewrite (proj2 (Nat.ltb_lt _ _) Hi).
  by rewrite py_setitem_ok.
Qed.

Lemma nau_tick_on_track tmp w r o :
  dataI o = 21%nat -> length r = 20%nat ->
  exists a b e, tick_on tmp (w :: r) o =
    Ok (r ++ [tmp], mkState 21 (r ++ [tmp]) a b e (Check o) (Average (r ++ [tmp])) b
                            (if Qltb e 200 then 1%Z else 0%Z)).
Proof.
  intros Hi Hl. destruct (LinearReg_dataX21 (r ++ [tmp])) as (a & b & e & Hr & _);
    [rewrite length_app, Hl; done|].
  exists a, b, e. unfold tick_on. cbn [sf_accept nau7802_filter set_window nau7802_windowed].
  unfold accept, track. cbn [dataI dataY]. rewrite Hi. cbn [Nat.ltb Nat.leb].
  rewrite slide_cons. cbn [rbind]. rewrite Hr. cbn [rbind]. done.
Qed.

(** C12: The objects of [NAU7802] interfere through the class list.
    When [A] is in its steady state and [B] is filling (fill index
    [k < 21]), [B]'s tick with sample [x] writes [x] into slot [k] of the
    window [A] reads, leaving [A]'s attributes as they were; [A]'s next
    tick then slides that window and publishes its mean, so [B]'s
    sample is averaged into [A]'s [MeanValue] whenever [k > 0]. *)
Theorem nau_shared_interference (s : shared state) x y :
  length (cls_dataY s) = 21%nat -> dataI (objA s) = 21%nat -> (dataI (objB s) < 21)%nat ->
  let W := <[dataI (objB s) := x]> (cls_dataY s) in
  exists s' s'', tickB x s = Ok s' /\ objA s' = objA s /\ cls_dataY s' = W /\
    tickA y s' = Ok s'' /\ cls_dataY s'' = tail W ++ [y] /\
    MeanValue (objA s'') = PyNum (mean (tail W ++ [y])) /\
    ((0 < dataI (objB s))%nat -> In x (cls_dataY s'')).
Proof.
  intros Hl HA HB. cbv zeta. destruct s as [Y a b]. cbn [cls_dataY objA objB] in *.
  unfold tickB. rewrite nau_tick_on_fill by (cbn [cls_dataY objB]; lia). cbn [rbind].
  assert (Hin : <[dataI b := x]> Y !! dataI b = Some x) by (apply list_lookup_insert_eq; lia).
  assert (HW : length (<[dataI b := x]> Y) = 21%nat) by (by rewrite length_insert).
  destruct (<[dataI b := x]> Y) as [|w r] eqn:HWe; [done|]. cbn in HW.
  destruct (nau_tick_on_track y w r a) as (a1 & b1 & e1 & Ht); [done|lia|].
  eexists _, _. split; [reflexivity|]. split; [done|]. split; [done|].
  unfold tickA. cbn [cls_dataY objA objB]. rewrite HWe, Ht. cbn [rbind].
  split; [reflexivity|]. cbn [cls_dataY objA MeanValue tail]. split; [done|].
  split; [apply Average_window; rewrite length_app; cbn; lia|].
  intros Hk. apply in_or_app. left.
  destruct (dataI b) as [|k]; [lia|]. cbn in Hin.
  by apply list_elem_of_In, list_elem_of_lookup_2 with k.
Qed.

End SharedWindowFacts.

Module HX711SharedFacts.
Import HX711Filter HX711FilterFacts.

Lemma hx711_tick_on_fill tmp Y o :
  tmp <> sentinel -> (dataI o < length Y)%nat -> (dataI o < 11)%nat ->
  tick_on tmp Y o =
  Ok (<[dataI o := tmp]> Y,
      mkState (S (dataI o)) (<[dataI o := tmp]> Y) (LinRegA o) (LinRegB o) (LinRegE o)
              (Check o) (MeanValue o) (LinRegVal o) (ValStable o)).
Proof.
  intros Hs Hl Hi. unfold tick_on. cbn [sf_accept hx711_filter set_window hx711_windowed].
  rewrite accept_unfold. unfold fill. rewrite (proj2 (Z.eqb_neq _ _) Hs). cbn [dataI dataY].
  rewrite (proj2 (Nat.ltb_lt _ _) Hi). by rewrite py_setitem_ok.
Qed.

Lemma hx711_tick_on_track tmp w r o :
  tmp <> sentinel -> dataI o = 11%nat -> Check o = 0%Z -> length r = 10%nat ->
  exists a b e, tick_on tmp (w :: r) o =
    Ok (r ++ [tmp], stability (mkState 11 (r ++ [tmp]) a b e
                                 (if Qltb 10000 e then 1%Z else 0%Z)
                                 (PyNum (mean (r ++ [tmp]))) b (ValStable o))).
Proof.
  intros Hs Hi Hc Hl. unfold tick_on. cbn [sf_accept hx711_filter set_window hx711_windowed].
  rewrite accept_steady by done. cbn [Check].
  rewrite (proj2 (Z.eqb_neq (Check o) 1)) by lia.
  destruct (track_eq tmp (mkState (dataI o) (w :: r) (LinRegA o) (LinRegB o) (LinRegE o)
              (Check o) (MeanValue o) (LinRegVal o) (ValStable o)) w r eq_refl Hl)
    as (a & b & e & _ & _ & Ht).
  exists a, b, e. rewrite Ht. cbn [rbind dataI Check]. by rewrite Hi, Hc.
Qed.

(** C13: The objects of [HX711] interfere in the same way: while [A] tracks
    (no recheck pending) and [B] fills, [B]'s valid sample [x] enters
    slot [k] of [A]'s window and [A]'s next valid sample publishes the
    mean of a window that contains [x] whenever [k > 0]. *)
Lemma hx711_shared_interference (s : shared state) x y :
  x <> sentinel -> y <> sentinel ->
  length (cls_dataY s) = 11%nat -> dataI (objA s) = 11%nat -> Check (objA s) = 0%Z ->
  (dataI (objB s) < 11)%nat ->
  let W := <[dataI (objB s) := x]> (cls_dataY s) in
  exists s' s'', tickB x s = Ok s' /\ objA s' = objA s /\ cls_dataY s' = W /\
    tickA y s' = Ok s'' /\ cls_dataY s'' = tail W ++ [y] /\
    MeanValue (objA s'') = PyNum (mean (tail W ++ [y])) /\
    ((0 < dataI (objB s))%nat -> In x (cls_dataY s'')).
Proof.
  intros Hx Hy Hl HA HC HB. cbv zeta. destruct s as [Y a b]. cbn [cls_dataY objA objB] in *.
  unfold tickB. rewrite hx711_tick_on_fill by (cbn [cls_dataY objB]; done || lia). cbn [rbind].
  assert (Hin : <[dataI b := x]> Y !! dataI b = Some x) by (apply list_lookup_insert_eq; lia).
  assert (HW : length (<[dataI b := x]> Y) = 11%nat) by (by rewrite length_insert).
  destruct (<[dataI b := x]> Y) as [|w r] eqn:HWe; [done|]. cbn in HW.
  destruct (hx711_tick_on_track y w r a) as (a1 & b1 & e1 & Ht); [done|done|done|lia|].
  eexists _, _. split; [reflexivity|]. split; [done|]. split; [done|].
  unfold tickA. cbn [cls_dataY objA objB]. rewrite HWe, Ht. cbn [rbind].
  split; [reflexivity|]. cbn [cls_dataY objA MeanValue tail stability]. split; [done|].
  split; [done|].
  intros Hk. apply in_or_app. left.
  destruct (dataI b) as [|k]; [lia|]. cbn in Hin.
  by apply list_elem_of_In, list_elem_of_lookup_2 with k.
Qed.

End HX711SharedFacts.

(** ** Witnesses *)

Module SharedWindowWitnesses.
Import NAU7802Filter.

(** Two fresh objects: the class list and the class attributes. *)
Definition fresh_pair : shared state := mkShared dataY0 init init.

(** Object [A] fed twenty-two samples of 1000, then object [B] started
    and fed two samples of 5000, then [A] fed 1000 again: [A] now
    publishes a mean above 1190 although it only ever saw 1000s. *)
Example nau_shared_counterexample :
  match run_events (map EvA (repeat 1000%Z 22) ++ [EvB 5000%Z; EvB 5000%Z; EvA 1000%Z])
          fresh_pair with
  | Ok s => match MeanValue (objA s) with PyNum q => (1190 < q)%Q | PyList _ => False end
  | Raise _ => False
  end.
Proof. vm_compute. reflexivity. Qed.

(** [A] steady on a window of 1000s, [B] three samples into its fill. *)
Definition busy_pair : shared state :=
  mkShared (repeat 1000%Z 21) (mkState 21 (repeat 1000%Z 21) 0 1000 0 0 (PyNum 1000) 1000 1)
           (mkState 3 (repeat 1000%Z 21) 0 0 0 0 (PyNum 0) 0 0).

Lemma nau_shared_interference_witness :
  exists s' s'', tickB 1000000 busy_pair = Ok s' /\ objA s' = objA busy_pair /\
    cls_dataY s' = <[3%nat := 1000000%Z]> (cls_dataY busy_pair) /\
    tickA 1000 s' = Ok s'' /\
    cls_dataY s'' = tail (<[3%nat := 1000000%Z]> (cls_dataY busy_pair)) ++ [1000%Z] /\
    MeanValue (objA s'') =
      PyNum (mean (tail (<[3%nat := 1000000%Z]> (cls_dataY busy_pair)) ++ [1000%Z])) /\
    ((0 < 3)%nat -> In 1000000%Z (cls_dataY s'')).
Proof.
  apply (SharedWindowFacts.nau_shared_interference busy_pair); reflexivity || (cbn; lia).
Defined.

(** An [HX711] pair: [A] tracking a window of 1000s, [B] three samples
    into its fill. *)
Definition hx711_busy_pair : shared HX711Filter.state :=
  mkShared (repeat 1000%Z 11)
           (HX711Filter.mkState 11 (repeat 1000%Z 11) 0 1000 0 0 (PyNum 1000) 1000 1)
           (HX711Filter.mkState 3 (repeat 1000%Z 11) 0 0 0 0 (PyNum 0) 0 0).

Lemma hx711_shared_interference_witness :
  exists s' s'', tickB 1000000 hx711_busy_pair = Ok s' /\ objA s' = objA hx711_busy_pair /\
    cls_dataY s' = <[3%nat := 1000000%Z]> (cls_dataY hx711_busy_pair) /\
    tickA 1000 s' = Ok s'' /\
    cls_dataY s'' = tail (<[3%nat := 1000000%Z]> (cls_dataY hx711_busy_pair)) ++ [1000%Z] /\
    HX711Filter.MeanValue (objA s'') =
      PyNum (mean (tail (<[3%nat := 1000000%Z]> (cls_dataY hx711_busy_pair)) ++ [1000%Z])) /\
    ((0 < 3)%nat -> In 1000000%Z (cls_dataY s'')).
Proof.
  apply (HX711SharedFacts.hx711_shared_interference hx711_busy_pair);
    reflexivity || discriminate || (cbn; lia).
Defined.

End SharedWindowWitnesses.
