(* ===== verification/NAU7802Device.v ===== *)
(** * NAU7802: the device object, its I2C transactions and its lifecycle

    NAU7802.py lines 12-160: the [NAU7802] object's status byte, its
    control-register images [__CTRL1]/[__CTRL2], the configured rate
    [__SPS], its I2C bus, optional DRDY pin and optional timer.
    [device] holds the attributes (the filter's in
    [NAU7802Filter.state]) and the bus transactions issued so far.

    The converter is outside the program: [chip] says what it answers,
    as functions of the bus history, so every behaviour of a real chip
    (a register that changes with time, a conversion that completes
    after some polls) is one [chip].  Writes are recorded, reads are
    answered by the [chip] and recorded too.

    One definition per method: [init] ([__init__]), [power_up]
    (the register writes of [PowerOn]) and [wait_ready] (its poll loop,
    with fuel), [PowerOn], [PowerOff], [getRawData], [updateADC] (the
    timer callback), [startReadADC] and [del] ([__del__]).  [step]
    relates an object to the objects one method call or one timer tick
    can make of it. *)

From stdpp Require Import base tactics list relations.
From Stdlib Require Import ZArith QArith Lia.
From S2P Require Import Prelude Machine Status RawData Regression Window SampleFilter NAU7802Filter.

Local Open Scope Z_scope.

Module NAU7802Device.

(** Status bits, lines 13-18. *)
Definition Status_Inited : Z := 0x80.
Definition Status_EnDRDY : Z := 0x40.
Definition Status_EnTimer : Z := 0x20.
Definition Status_PowerOn : Z := 0x10.
Definition Status_PeriodicRead : Z := 0x08.
Definition Status_ADCReady : Z := 0x04.

(** Gain and rate codes, lines 20-35. *)
Definition maskGain : Z := 7.
Definition Gain128 : Z := 7.
Definition Gain64 : Z := 6.
Definition Gain32 : Z := 5.
Definition Gain16 : Z := 4.
Definition Gain8 : Z := 3.
Definition Gain4 : Z := 2.
Definition Gain2 : Z := 1.
Definition Gain1 : Z := 0.
Definition maskSPS : Z := 0x70.
Definition SPS320 : Z := 0x70.
Definition SPS80 : Z := 0x30.
Definition SPS40 : Z := 0x20.
Definition SPS20 : Z := 0x10.
Definition SPS10 : Z := 0x00.

(** The converter's bus address. *)
Definition ADDR : Z := 0x2A.

(** A transaction on the I2C bus. *)
Inductive i2c_op :=
| I2CWrite (addr : Z) (data : list Z)          (** [writeto(addr, bytearray(data))] *)
| I2CRead (addr reg : Z) (n : nat).            (** [readfrom_mem(addr, reg, n)] *)

(** The converter and its DRDY line, as functions of the bus history:
    the value of register [r], and the level of the DRDY pin. *)
Record chip := mkChip {
  reg_value : list i2c_op -> Z -> Z;
  drdy_value : list i2c_op -> bool
}.

Record device := mkDev {
  Status : Z;                   (** [__Status] *)
  CTRL1 : Z;                    (** [__CTRL1] *)
  CTRL2 : Z;                    (** [__CTRL2] *)
  I2CBus : option Z;            (** [__I2CBus]: the controller, or [None] *)
  PinDRDY : option Z;           (** [__PinDRDY]: the pin, or [None] *)
  Tim : option timer;           (** [__Tim] *)
  SPS : Z;                      (** [__SPS] *)
  filt : NAU7802Filter.state;   (** the filter's attributes *)
  trace : list i2c_op           (** the bus transactions so far, oldest first *)
}.

Definition set_Status (s : Z) (d : device) : device :=
  mkDev s (CTRL1 d) (CTRL2 d) (I2CBus d) (PinDRDY d) (Tim d) (SPS d) (filt d) (trace d).
Definition set_Tim (t : option timer) (d : device) : device :=
  mkDev (Status d) (CTRL1 d) (CTRL2 d) (I2CBus d) (PinDRDY d) t (SPS d) (filt d) (trace d).
Definition set_filt (f : NAU7802Filter.state) (d : device) : device :=
  mkDev (Status d) (CTRL1 d) (CTRL2 d) (I2CBus d) (PinDRDY d) (Tim d) (SPS d) f (trace d).
Definition log (op : i2c_op) (d : device) : device :=
  mkDev (Status d) (CTRL1 d) (CTRL2 d) (I2CBus d) (PinDRDY d) (Tim d) (SPS d) (filt d)
        (trace d ++ [op]).

(** The class attributes, lines 37-56, before [__init__] runs. *)
Definition class_default : device :=
  mkDev 0 0 0 None None None 0 NAU7802Filter.init [].

(** [self.__I2CBus.writeto(addr, bytearray(data))]. *)
Definition writeto (addr : Z) (data : list Z) (d : device) : result device :=
  match I2CBus d with
  | None => Raise NoneAttribute
  | Some _ => Ok (log (I2CWrite addr data) d)
  end.

(** [self.__I2CBus.readfrom_mem(addr, reg, n)]: [n] bytes from the
    registers [reg], [reg+1], ... (the converter auto-increments). *)
Definition readfrom_mem (c : chip) (addr reg : Z) (n : nat) (d : device)
    : result (list Z * device) :=
  match I2CBus d with
  | None => Raise NoneAttribute
  | Some _ =>
      Ok (map (fun k => reg_value c (trace d) (reg + Z.of_nat k) mod 2 ^ 8) (seq 0 n),
          log (I2CRead addr reg n) d)
  end.

(** [self.__PinDRDY.value()]. *)
Definition pin_value (c : chip) (d : device) : result bool :=
  match PinDRDY d with
  | None => Raise NoneAttribute
  | Some _ => Ok (drdy_value c (trace d))
  end.

(** The [if]-chain of lines 75-79: [__SPS] for a rate code, unchanged
    (the class value) for any other code. *)
Definition sps_of (ADCSPS old : Z) : Z :=
  if ADCSPS =? SPS10 then 10
  else if ADCSPS =? SPS20 then 20
  else if ADCSPS =? SPS40 then 40
  else if ADCSPS =? SPS80 then 80
  else if ADCSPS =? SPS320 then 320
  else old.

(** The argument test of line 72. *)
Definition config_ok (Gain ADCSPS : Z) : bool :=
  (Gain <=? 7) && (Gain >=? 0) &&
  ((Z.shiftr ADCSPS 4 =? 7) || ((Z.shiftr ADCSPS 4 <=? 3) && (Z.shiftr ADCSPS 4 >=? 0))).

(** [__init__], lines 57-86.  [present] is the result of the bus scan
    ([0x2A in scan()]); [timer_port] says whether a timer was passed.
    Each [return None] leaves the attributes set so far; the class
    values ([0] for the status, the registers' images and [__SPS]) are
    written out where the code reads them. *)
Definition init (SCL SDA PinDRDY Gain ADCSPS : Z) (present timer_port : bool) : device :=
  let bus :=
    if (SCL mod 4 =? 1) && (SDA mod 4 =? 0) then Some 0
    else if (SCL mod 4 =? 3) && (SDA mod 4 =? 2) then Some 1
    else None in
  match bus with
  | None => class_default
  | Some _ =>
      if present then
        let drdy := (PinDRDY >=? 0) && (PinDRDY <=? 22) in
        let pin := if drdy then Some PinDRDY else None in
        let st := if drdy then 0 |. Status_EnDRDY else 0 in
        if config_ok Gain ADCSPS then
          mkDev (if timer_port then st |. (Status_Inited |. Status_EnTimer)
                 else st |. Status_Inited)
                (0 |. (0x28 |. Gain)) ((0 &. ~. maskSPS) |. ADCSPS)
                bus pin (if timer_port then Some TimIdle else None)
                (sps_of ADCSPS 0) NAU7802Filter.init []
        else mkDev st 0 0 bus pin None 0 NAU7802Filter.init []
      else mkDev 0 0 0 bus None None 0 NAU7802Filter.init []
  end.

(** Lines 96-105 of [PowerOn]: the register writes, then the PowerOn
    flag. *)
Definition power_up (c : chip) (d : device) : result device :=
  d1 <- writeto ADDR [0x00; 0x86; CTRL1 d; CTRL2 d] d ;;
  let! (tmp, d2) := readfrom_mem c ADDR 0x15 1 d1 in
  t <- py_ord tmp ;;
  d3 <- writeto ADDR [0x15; t |. 0x30] d2 ;;
  d4 <- writeto ADDR [0x1C; 0x80] d3 ;;
  let! (tmp', d5) := readfrom_mem c ADDR 0x1B 1 d4 in
  t' <- py_ord tmp' ;;
  d6 <- writeto ADDR [0x1B; t' &. 0xBF] d5 ;;
  Ok (set_Status (Status d6 |. Status_PowerOn) d6).

(** One pass of the loop body, lines 108-111: the two register reads
    and the readiness test, with Python's short-circuit order. *)
Definition poll (c : chip) (d : device) : result device :=
  let! (tmp1, d1) := readfrom_mem c ADDR 0x1F 1 d in
  let! (tmp2, d2) := readfrom_mem c ADDR 0x00 1 d1 in
  pin <- (if truthy (Status d2 &. Status_EnDRDY) then pin_value c d2 else Ok false) ;;
  rdy <- (if pin then Ok true
          else t1 <- py_ord tmp1 ;;
               if (t1 &. 0x0F) =? 0x0F then t2 <- py_ord tmp2 ;; Ok ((t2 &. 0x20) =? 0x20)
               else Ok false) ;;
  Ok (if rdy then set_Status (Status d2 |. Status_ADCReady) d2 else d2).

(** The loop of lines 107-112, with [fuel] passes; [None]: still
    polling when the fuel runs out. *)
Fixpoint wait_ready (fuel : nat) (c : chip) (d : device) : option (result device) :=
  match fuel with
  | O => None
  | S fuel' =>
      if (Status d &. Status_ADCReady) =? 0 then
        match poll c d with
        | Ok d' => wait_ready fuel' c d'
        | Raise e => Some (Raise e)
        end
      else Some (Ok d)
  end.

(** [PowerOn], lines 93-112. *)
Definition PowerOn (fuel : nat) (c : chip) (d : device) : option (result device) :=
  if (Status d &. (Status_Inited |. Status_PowerOn)) =? Status_Inited then
    match power_up c d with
    | Ok d' => wait_ready fuel c d'
    | Raise e => Some (Raise e)
    end
  else Some (Ok d).

(** [PowerOff], lines 114-117. *)
Definition PowerOff (d : device) : result device :=
  if truthy (Status d &. Status_PowerOn) then
    d1 <- writeto ADDR [0x00; 0x01] d ;; Ok (set_Status (Status d1 &. 0xC0) d1)
  else Ok d.

(** [getRawData], lines 119-125: the value and the object (its bus
    history grows by the read). *)
Definition getRawData (c : chip) (d : device) : result (Z * device) :=
  if truthy (Status d &. Status_ADCReady) then
    let! (tmp, d1) := readfrom_mem c ADDR 0x12 3 d in
    b0 <- py_getitem tmp 0 ;; b1 <- py_getitem tmp 1 ;; b2 <- py_getitem tmp 2 ;;
    Ok (NAU7802Wire.getRawData_value b0 b1 b2, d1)
  else Ok (0, d).

(** [updateADC], lines 127-139: the timer callback. *)
Definition updateADC (c : chip) (d : device) : result device :=
  if truthy (Status d &. Status_ADCReady) then
    let! (tmp, d1) := getRawData c d in
    f <- NAU7802Filter.accept tmp (filt d1) ;; Ok (set_filt f d1)
  else Ok d.

(** [startReadADC(state, Freq)], lines 141-160.  The first component is
    the value returned: [None] (the guard of line 142 fails), [Some 0]
    or [Some 1]. *)
Definition startReadADC (state freq : Z) (d : device) : result (option Z * device) :=
  if truthy (Status d &. Status_ADCReady) then
    if (state =? 1) && ((Status d &. (Status_EnTimer |. Status_PeriodicRead)) =? Status_EnTimer)
       && (freq >? 0) && (freq <=? SPS d)
    then
      t <- tim_init (Tim d) (TimPeriodic freq) ;;
      Ok (Some 1, set_Status (Status d |. Status_PeriodicRead)
                    (set_Tim t (set_filt (NAU7802Filter.reset (filt d)) d)))
    else if (state =? 0) && truthy (Status d &. Status_PeriodicRead) then
      t <- tim_init (Tim d) TimIdle ;;
      Ok (Some 1, set_Status (Status d &. ~. Status_PeriodicRead) (set_Tim t d))
    else Ok (Some 0, d)
  else Ok (None, d).

(** [__del__], lines 88-91. *)
Definition del (d : device) : result device :=
  d1 <- (if truthy (Status d &. Status_PeriodicRead)
         then r <- startReadADC 0 10 d ;; Ok (snd r) else Ok d) ;;
  d2 <- (if truthy (Status d1 &. Status_PowerOn) then PowerOff d1 else Ok d1) ;;
  Ok (set_Status 0 d2).

(** What one method call, or one tick of the armed timer, can make of
    an object, with the converter [c]. *)
Inductive step (c : chip) : device -> device -> Prop :=
| step_power_on fuel d d' : PowerOn fuel c d = Some (Ok d') -> step c d d'
| step_power_off d d' : PowerOff d = Ok d' -> step c d d'
| step_tick d f d' : Tim d = Some (TimPeriodic f) -> updateADC c d = Ok d' -> step c d d'
| step_start d s freq r d' : startReadADC s freq d = Ok (r, d') -> step c d d'
| step_read d v d' : getRawData c d = Ok (v, d') -> step c d d'
| step_del d d' : del d = Ok d' -> step c d d'.

(** The objects a program can create. *)
Inductive initial : device -> Prop :=
| initial_init SCL SDA P G R b t : initial (init SCL SDA P G R b t).

End NAU7802Device.

(** ** The invariant of the object *)

Module NAU7802DeviceFacts.
Import NAU7802Device.

(** The attributes the bus operations and the status updates leave alone. *)
Definition frame (d d' : device) : Prop :=
  CTRL1 d' = CTRL1 d /\ CTRL2 d' = CTRL2 d /\ I2CBus d' = I2CBus d /\
  PinDRDY d' = PinDRDY d /\ Tim d' = Tim d /\ SPS d' = SPS d /\ filt d' = filt d.

Lemma frame_refl d : frame d d.
Proof. by repeat split. Qed.

Lemma frame_trans d1 d2 d3 : frame d1 d2 -> frame d2 d3 -> frame d1 d3.
Proof.
  unfold frame. intros (? & ? & ? & ? & ? & ? & ?) (? & ? & ? & ? & ? & ? & ?).
  repeat split; congruence.
Qed.

Lemma frame_log op d : frame d (log op d).
Proof. by repeat split. Qed.

Lemma frame_set_Status s d : frame d (set_Status s d).
Proof. by repeat split. Qed.

#[local] Hint Resolve frame_refl frame_log frame_set_Status : weight.

Lemma writeto_ok a x d :
  I2CBus d <> None -> writeto a x d = Ok (log (I2CWrite a x) d).
Proof. unfold writeto. by destruct (I2CBus d). Qed.

Lemma readfrom_mem_ok c a r n d :
  I2CBus d <> None ->
  readfrom_mem c a r n d =
  Ok (map (fun k => reg_value c (trace d) (r + Z.of_nat k) mod 2 ^ 8) (seq 0 n),
      log (I2CRead a r n) d).
Proof. unfold readfrom_mem. by destruct (I2CBus d). Qed.

(** The guards of the methods, as flag formulas. *)
Lemma truthy_bit s k : 0 <= k -> truthy (s &. 2 ^ k) = Z.testbit s k.
Proof. apply truthy_land_pow2. Qed.

Lemma nau_truthy_PowerOn s : truthy (s &. Status_PowerOn) = fl_power_on (decode s).
Proof. exact (truthy_bit s 4 ltac:(lia)). Qed.
Lemma nau_truthy_PeriodicRead s : truthy (s &. Status_PeriodicRead) = fl_periodic (decode s).
Proof. exact (truthy_bit s 3 ltac:(lia)). Qed.
Lemma truthy_ADCReady s : truthy (s &. Status_ADCReady) = fl_ready (decode s).
Proof. exact (truthy_bit s 2 ltac:(lia)). Qed.
Lemma truthy_EnDRDY s : truthy (s &. Status_EnDRDY) = fl_en_drdy (decode s).
Proof. exact (truthy_bit s 6 ltac:(lia)). Qed.

Lemma guard_ready_clear s :
  ((s &. Status_ADCReady) =? 0) = negb (fl_ready (decode s)).
Proof. rewrite <- truthy_ADCReady. unfold truthy. by rewrite negb_involutive. Qed.

Lemma nau_guard_power_on s :
  is_byte s ->
  ((s &. (Status_Inited |. Status_PowerOn)) =? Status_Inited) =
  fl_inited (decode s) && negb (fl_power_on (decode s)).
Proof.
  intros Hs. unfold Status_Inited, Status_PowerOn.
  rewrite eqb_byte by (try apply is_byte_land_l; unfold is_byte in *; lia).
  rewrite decode_land, decode_lor. by_flags s.
Qed.

Lemma guard_can_start s :
  is_byte s ->
  ((s &. (Status_EnTimer |. Status_PeriodicRead)) =? Status_EnTimer) =
  fl_en_timer (decode s) && negb (fl_periodic (decode s)).
Proof.
  intros Hs. unfold Status_EnTimer, Status_PeriodicRead.
  rewrite eqb_byte by (try apply is_byte_land_l; unfold is_byte in *; lia).
  rewrite decode_land, decode_lor. by_flags s.
Qed.

#[export] Hint Rewrite nau_truthy_PowerOn nau_truthy_PeriodicRead truthy_ADCReady truthy_EnDRDY
  guard_ready_clear : weight.

(** Flags of a status expression. *)
Ltac dev_flags :=
  unfold Status_Inited, Status_EnDRDY, Status_EnTimer, Status_PowerOn, Status_PeriodicRead,
    Status_ADCReady in *;
  flags_eval.

(** The invariant of every object the program can reach. *)
Definition inv (d : device) : Prop :=
  let F := decode (Status d) in
  is_byte (Status d) /\
  (fl_power_on F = true -> fl_inited F = true) /\
  (fl_ready F = true -> fl_power_on F = true) /\
  (fl_periodic F = true ->
   fl_ready F = true /\ fl_en_timer F = true /\
   exists f, Tim d = Some (TimPeriodic f) /\ 0 < f <= SPS d) /\
  (fl_en_timer F = true -> Tim d <> None) /\
  (fl_en_drdy F = true -> PinDRDY d <> None) /\
  (fl_inited F = true -> I2CBus d <> None) /\
  NAU7802Filter.wf (filt d).

(** The invariant carries over to an object with the same attributes
    and a status whose flags are fewer, or the same. *)
Lemma inv_frame d d' :
  inv d -> frame d d' -> Status d' = Status d -> inv d'.
Proof.
  intros Hinv (H1 & H2 & Hb & Hp & Ht & Hs & Hf) HS. unfold inv in *.
  rewrite HS, Hb, Hp, Ht, Hs, Hf. done.
Qed.

Lemma nau_inv_intro d :
  let F := decode (Status d) in
  is_byte (Status d) ->
  (fl_power_on F = true -> fl_inited F = true) ->
  (fl_ready F = true -> fl_power_on F = true) ->
  (fl_periodic F = true ->
   fl_ready F = true /\ fl_en_timer F = true /\
   exists f, Tim d = Some (TimPeriodic f) /\ 0 < f <= SPS d) ->
  (fl_en_timer F = true -> Tim d <> None) ->
  (fl_en_drdy F = true -> PinDRDY d <> None) ->
  (fl_inited F = true -> I2CBus d <> None) ->
  NAU7802Filter.wf (filt d) -> inv d.
Proof. unfold inv. tauto. Qed.

(** Closing the flag obligations of [nau_inv_intro]. *)
Ltac inv_close :=
  cbn [Status Tim filt SPS PinDRDY I2CBus set_Status set_Tim set_filt log snd] in *;
  dev_flags; intros;
  repeat match goal with
         | H : ?P -> _, H' : ?P |- _ => specialize (H H')
         end;
  try discriminate; first [solve [auto] | solve [intuition congruence] | idtac].

(** Running the bus operations of a method on an object with a bus. *)
Ltac bus_step :=
  first [ rewrite writeto_ok by (cbn [I2CBus log set_Status]; done)
        | rewrite readfrom_mem_ok by (cbn [I2CBus log set_Status]; done)
        | progress cbn [rbind py_ord map seq Z.of_nat] ].

(** The register writes of [PowerOn] on the bus, the values read from
    registers 0x15 and 0x1B included. *)
Definition power_up_ops (c : chip) (d : device) : list i2c_op :=
  let w0 := I2CWrite ADDR [0x00; 0x86; CTRL1 d; CTRL2 d] in
  let r15 := reg_value c (trace d ++ [w0]) 0x15 mod 2 ^ 8 in
  let ops := [w0; I2CRead ADDR 0x15 1; I2CWrite ADDR [0x15; r15 |. 0x30];
              I2CWrite ADDR [0x1C; 0x80]] in
  let r1B := reg_value c (trace d ++ ops) 0x1B mod 2 ^ 8 in
  ops ++ [I2CRead ADDR 0x1B 1; I2CWrite ADDR [0x1B; r1B &. 0xBF]].

Lemma power_up_spec c d :
  I2CBus d <> None ->
  exists d', power_up c d = Ok d' /\ frame d d' /\ Status d' = Status d |. Status_PowerOn /\
             trace d' = trace d ++ power_up_ops c d.
Proof.
  intros Hb. unfold power_up. repeat bus_step.
  eexists. split; [reflexivity|]. split; [by repeat split|]. split; [done|].
  cbn [trace log set_Status]. unfold power_up_ops. by rewrite <- !app_assoc.
Qed.

(** The bus transactions of one pass of [PowerOn]'s loop. *)
Definition poll_ops : list i2c_op := [I2CRead ADDR 0x1F 1; I2CRead ADDR 0x00 1].

(** The test of line 110 after the bus history [tr], with the DRDY
    pin in use ([en]) or not. *)
Definition chip_ready (c : chip) (en : bool) (tr : list i2c_op) : bool :=
  (en && drdy_value c (tr ++ poll_ops)) ||
  (((reg_value c tr 0x1F mod 2 ^ 8) &. 0x0F =? 0x0F) &&
   ((reg_value c (tr ++ [I2CRead ADDR 0x1F 1]) 0 mod 2 ^ 8) &. 0x20 =? 0x20)).

Definition after_poll (d : device) : device :=
  log (I2CRead ADDR 0x00 1) (log (I2CRead ADDR 0x1F 1) d).

Lemma poll_spec c d :
  I2CBus d <> None -> (fl_en_drdy (decode (Status d)) = true -> PinDRDY d <> None) ->
  poll c d = Ok (if chip_ready c (fl_en_drdy (decode (Status d))) (trace d)
                 then set_Status (Status d |. Status_ADCReady) (after_poll d)
                 else after_poll d).
Proof.
  intros Hb Hp. unfold poll. repeat bus_step.
  cbn [Status log]. rewrite truthy_EnDRDY. unfold chip_ready.
  destruct (fl_en_drdy (decode (Status d))); cbn [andb orb].
  - unfold pin_value. cbn [PinDRDY log trace]. destruct (PinDRDY d); [|by destruct Hp].
    cbn [rbind]. rewrite <- app_assoc. cbn [app].
    destruct (drdy_value _ _); cbn [rbind orb]; [done|].
    destruct (_ =? 15); cbn [rbind andb]; done.
  - destruct (_ =? 15); cbn [rbind andb]; done.
Qed.

Lemma frame_after_poll d : frame d (after_poll d).
Proof. by repeat split. Qed.

Lemma trace_after_poll d : trace (after_poll d) = trace d ++ poll_ops.
Proof. cbn. by rewrite <- app_assoc. Qed.

(** The bus transactions of [j] passes of the loop. *)
Definition polls (j : nat) : list i2c_op := concat (repeat poll_ops j).

Lemma trace_polls_S d j : trace d ++ polls (S j) = trace (after_poll d) ++ polls j.
Proof. rewrite trace_after_poll. unfold polls. cbn [repeat concat]. by rewrite app_assoc. Qed.

Lemma decode_set_ADCReady s :
  fl_ready (decode (s |. Status_ADCReady)) = true /\
  fl_en_drdy (decode (s |. Status_ADCReady)) = fl_en_drdy (decode s).
Proof.
  unfold Status_ADCReady. rewrite decode_lor.
  destruct (decode s) as [[] [] [] [] [] [] [] []]; split; reflexivity.
Qed.

(** [PowerOn]'s loop returns one pass after the first pass [k] in which
    the converter reports ready, with the ready flag set. *)
Lemma wait_ready_returns fuel c d k :
  let en := fl_en_drdy (decode (Status d)) in
  I2CBus d <> None -> (en = true -> PinDRDY d <> None) ->
  fl_ready (decode (Status d)) = false ->
  (forall j, (j < k)%nat -> chip_ready c en (trace d ++ polls j) = false) ->
  chip_ready c en (trace d ++ polls k) = true -> (k + 2 <= fuel)%nat ->
  exists d', wait_ready fuel c d = Some (Ok d') /\ frame d d' /\
    Status d' = Status d |. Status_ADCReady /\ trace d' = trace d ++ polls (S k).
Proof.
  revert d fuel. induction k as [|k IH]; intros d fuel en Hb Hp Hr Hbefore Hk Hf;
    (destruct fuel as [|[|fuel]]; [lia|lia|]); cbn [wait_ready];
    rewrite guard_ready_clear, Hr; cbn [negb]; rewrite poll_spec by done.
  - rewrite app_nil_r in Hk. fold en. rewrite Hk. cbn [wait_ready].
    cbn [Status set_Status]. rewrite guard_ready_clear, (proj1 (decode_set_ADCReady _)).
    eexists. split; [reflexivity|]. split; [by repeat split|]. split; [done|].
    cbn [trace set_Status]. rewrite trace_after_poll. unfold polls. cbn [repeat concat].
    by rewrite app_nil_r.
  - fold en. pose proof (Hbefore 0%nat ltac:(lia)) as H0. rewrite app_nil_r in H0.
    rewrite H0.
    assert (Hst : Status (after_poll d) = Status d) by done.
    destruct (IH (after_poll d) (S fuel)) as (d' & Hw & Hfr & Hs & Ht);
      [done|rewrite Hst; done|rewrite Hst; done| |rewrite Hst, <- trace_polls_S; done|lia|].
    + intros j Hj. rewrite Hst, <- trace_polls_S. apply Hbefore. lia.
    + exists d'. split; [done|]. split; [eapply frame_trans; [apply frame_after_poll|done]|].
      rewrite Hs, Hst. split; [done|]. by rewrite Ht, <- trace_polls_S.
Qed.

(** If the converter never reports ready, the loop never ends. *)
Lemma wait_ready_hangs fuel c d :
  let en := fl_en_drdy (decode (Status d)) in
  I2CBus d <> None -> (en = true -> PinDRDY d <> None) ->
  fl_ready (decode (Status d)) = false ->
  (forall j, chip_ready c en (trace d ++ polls j) = false) ->
  wait_ready fuel c d = None.
Proof.
  revert d. induction fuel as [|fuel IH]; intros d en Hb Hp Hr Hnever; [done|].
  cbn [wait_ready]. rewrite guard_ready_clear, Hr. cbn [negb].
  rewrite poll_spec by done. fold en.
  pose proof (Hnever 0%nat) as H0. rewrite app_nil_r in H0. rewrite H0.
  apply IH; [done..|]. intros j. rewrite <- trace_polls_S. apply Hnever.
Qed.

(** ** Every method keeps the invariant *)

Lemma inv_power_up c d d' :
  inv d -> fl_inited (decode (Status d)) = true ->
  power_up c d = Ok d' -> inv d' /\ fl_power_on (decode (Status d')) = true.
Proof.
  intros Hinv Hi Hp. pose proof Hinv as (Hb & Hpo & Hr & Hper & Het & Hed & Hbus & Hw).
  destruct (power_up_spec c d) as (d1 & Hp1 & (? & ? & HB & HP & HT & HS & HF) & Hs & _);
    [by apply Hbus|].
  rewrite Hp in Hp1. injection Hp1 as <-.
  split; [|rewrite Hs; dev_flags; by rewrite ?orb_true_r].
  apply nau_inv_intro; rewrite ?HB, ?HP, ?HT, ?HS, ?HF, ?Hs;
    [apply is_byte_lor; [done|unfold is_byte, Status_PowerOn; lia]|idtac..|done];
    inv_close.
Qed.

Lemma inv_poll c d d' :
  inv d -> fl_power_on (decode (Status d)) = true -> poll c d = Ok d' ->
  inv d' /\ fl_power_on (decode (Status d')) = true.
Proof.
  intros Hinv Hpo Hp. pose proof Hinv as (Hb & Hpi & Hr & Hper & Het & Hed & Hbus & Hw).
  rewrite poll_spec in Hp by auto. injection Hp as <-.
  destruct (chip_ready _ _ _).
  - split; [|cbn [Status set_Status]; dev_flags; by rewrite Hpo].
    apply nau_inv_intro; cbn [Status set_Status after_poll log Tim filt SPS PinDRDY I2CBus];
      [apply is_byte_lor; [done|unfold is_byte, Status_ADCReady; lia]|idtac..|done];
      inv_close.
  - split; [|done]. apply (inv_frame d); [done|apply frame_after_poll|done].
Qed.

Lemma inv_wait_ready fuel c d d' :
  inv d -> fl_power_on (decode (Status d)) = true -> wait_ready fuel c d = Some (Ok d') ->
  inv d'.
Proof.
  revert d. induction fuel as [|fuel IH]; intros d Hinv Hpo Hw; [done|].
  cbn [wait_ready] in Hw. destruct (_ =? 0); [|by injection Hw as <-].
  destruct (poll c d) as [d1|e] eqn:Hp; [|done].
  destruct (inv_poll c d d1) as [Hinv1 Hpo1]; [done..|]. by apply (IH d1).
Qed.

Lemma inv_PowerOn fuel c d d' : inv d -> PowerOn fuel c d = Some (Ok d') -> inv d'.
Proof.
  intros Hinv Hp. pose proof Hinv as (Hb & _).
  unfold PowerOn in Hp. rewrite nau_guard_power_on in Hp by done.
  destruct (fl_inited _) eqn:Hi; cbn [andb] in Hp; [|by injection Hp as <-].
  destruct (fl_power_on _); cbn [negb] in Hp; [by injection Hp as <-|].
  destruct (power_up c d) as [d1|e] eqn:Hu; [|done].
  destruct (inv_power_up c d d1) as [Hinv1 Hpo1]; [done..|].
  by apply (inv_wait_ready fuel c d1).
Qed.

Lemma inv_PowerOff d d' : inv d -> PowerOff d = Ok d' -> inv d'.
Proof.
  intros Hinv Hp. unfold PowerOff in Hp. rewrite nau_truthy_PowerOn in Hp.
  destruct (fl_power_on _) eqn:Hpo; [|by injection Hp as <-].
  destruct Hinv as (Hb & Hpi & Hr & Hper & Het & Hed & Hbus & Hw).
  rewrite writeto_ok in Hp by auto. injection Hp as <-.
  apply nau_inv_intro; cbn [Status set_Status log Tim filt SPS PinDRDY I2CBus];
    [by apply is_byte_land_l|idtac..|done]; inv_close.
Qed.

Lemma getRawData_spec c d :
  I2CBus d <> None -> fl_ready (decode (Status d)) = true ->
  getRawData c d =
  Ok (NAU7802Wire.getRawData_value (reg_value c (trace d) 0x12 mod 2 ^ 8)
        (reg_value c (trace d) 0x13 mod 2 ^ 8) (reg_value c (trace d) 0x14 mod 2 ^ 8),
      log (I2CRead ADDR 0x12 3) d).
Proof.
  intros Hb Hr. unfold getRawData. rewrite truthy_ADCReady, Hr, readfrom_mem_ok by done.
  reflexivity.
Qed.

Lemma getRawData_frame c d v d' :
  getRawData c d = Ok (v, d') -> frame d d' /\ Status d' = Status d.
Proof.
  unfold getRawData, readfrom_mem. destruct (truthy _); [|intros [= _ <-]; auto with weight].
  destruct (I2CBus d); [|done]. cbn [rbind]. intros [= _ <-]. auto with weight.
Qed.

Lemma nau_inv_getRawData c d v d' : inv d -> getRawData c d = Ok (v, d') -> inv d'.
Proof.
  intros Hinv Hg. destruct (getRawData_frame c d v d' Hg) as [Hf Hs].
  by apply (inv_frame d).
Qed.

Lemma nau_inv_updateADC c d d' : inv d -> updateADC c d = Ok d' -> inv d'.
Proof.
  intros Hinv Hu. unfold updateADC in Hu.
  destruct (truthy _); [|by injection Hu as <-].
  destruct (getRawData c d) as [[tmp d1]|e] eqn:Hg; [|done]. cbn [rbind] in Hu.
  pose proof (nau_inv_getRawData c d tmp d1 Hinv Hg) as Hinv1.
  destruct Hinv1 as (Hb & Hpi & Hr & Hper & Het & Hed & Hbus & Hw).
  destruct (@sf_accept_wf _ nau7802_filter nau7802_filter_laws tmp (filt d1) Hw) as (f & Hf & Hwf).
  cbn [sf_accept nau7802_filter] in Hf.
  rewrite Hf in Hu. injection Hu as <-.
  apply nau_inv_intro; cbn [Status set_filt Tim filt SPS PinDRDY I2CBus]; auto.
Qed.

Lemma nau_inv_start d s freq r d' : inv d -> startReadADC s freq d = Ok (r, d') -> inv d'.
Proof.
  intros Hinv Hs. pose proof Hinv as (Hb & Hpi & Hr & Hper & Het & Hed & Hbus & Hw).
  unfold startReadADC in Hs. rewrite truthy_ADCReady in Hs.
  destruct (fl_ready _) eqn:Hrd; [|by injection Hs as _ <-].
  rewrite guard_can_start in Hs by done.
  destruct ((s =? 1) && _ && _ && _) eqn:Hc.
  - apply andb_true_iff in Hc as [Hc Hf2]. apply andb_true_iff in Hc as [Hc Hf1].
    apply andb_true_iff in Hc as [_ Hg]. apply andb_true_iff in Hg as [Hen Hnp].
    apply negb_true_iff in Hnp. apply Z.gtb_lt in Hf1. apply Z.leb_le in Hf2.
    destruct (Tim d) as [t|] eqn:Htim; [|by destruct (Het Hen)].
    cbn [tim_init rbind] in Hs. injection Hs as _ <-.
    apply nau_inv_intro; cbn [Status Tim filt SPS PinDRDY I2CBus set_Status set_Tim set_filt];
      [apply is_byte_lor; [done|unfold is_byte, Status_PeriodicRead; lia]|idtac..
      |by apply (@sf_reset_wf _ nau7802_filter nau7802_filter_laws)]; inv_close.
    split; [done|]. split; [done|]. exists freq. split; [done|lia].
  - destruct ((s =? 0) && _) eqn:Hst; [|by injection Hs as _ <-].
    apply andb_true_iff in Hst as [_ Hp]. rewrite nau_truthy_PeriodicRead in Hp.
    destruct (Tim d) as [t|] eqn:Htim; [|by destruct (Het (proj1 (proj2 (Hper Hp))))].
    cbn [tim_init rbind] in Hs. injection Hs as _ <-.
    apply nau_inv_intro; cbn [Status Tim filt SPS PinDRDY I2CBus set_Status set_Tim set_filt];
      [by apply is_byte_land_l|idtac..|done]; inv_close.
Qed.

Lemma inv_status_zero d : NAU7802Filter.wf (filt d) -> inv (set_Status 0 d).
Proof.
  intros Hw. apply nau_inv_intro; cbn [Status set_Status filt];
    [unfold is_byte; lia|intros; discriminate..|done].
Qed.

Lemma inv_del_tail d1 d' :
  inv d1 ->
  (d2 <- (if truthy (Status d1 &. Status_PowerOn) then PowerOff d1 else Ok d1) ;;
   Ok (set_Status 0 d2)) = Ok d' -> inv d'.
Proof.
  intros Hinv1 Hd.
  destruct (if truthy _ then _ else _) as [d2|e] eqn:H2; [|done].
  assert (Hinv2 : inv d2).
  { destruct (truthy _); [by apply (inv_PowerOff d1)|by injection H2 as <-]. }
  injection Hd as <-. apply inv_status_zero. by destruct Hinv2 as (_ & _ & _ & _ & _ & _ & _ & ?).
Qed.

Lemma inv_del d d' : inv d -> del d = Ok d' -> inv d'.
Proof.
  intros Hinv Hd. unfold del in Hd.
  destruct (truthy (Status d &. Status_PeriodicRead)); [|by apply (inv_del_tail d)].
  destruct (startReadADC 0 10 d) as [[r d0]|e] eqn:Hs; [|done].
  cbn [rbind snd] in Hd. apply (inv_del_tail d0); [by apply (nau_inv_start d 0 10 r)|done].
Qed.

Lemma nau_inv_initial d : initial d -> inv d.
Proof.
  intros [SCL SDA P G R b t]. unfold init.
  repeat case_match; simplify_eq;
    (apply nau_inv_intro; [unfold is_byte; vm_compute; split; congruence|idtac..
                      |split; cbn; lia]);
    vm_compute; intros; try discriminate; congruence.
Qed.

Lemma inv_step c d d' : inv d -> step c d d' -> inv d'.
Proof.
  intros Hinv Hs. destruct Hs;
    eauto using inv_PowerOn, inv_PowerOff, nau_inv_updateADC, nau_inv_start, nau_inv_getRawData, inv_del.
Qed.

Inductive reachable (c : chip) : device -> Prop :=
| reach_init d : initial d -> reachable c d
| reach_step d d' : reachable c d -> step c d d' -> reachable c d'.

(** ** What the methods leave unchanged *)

(** [d'] has the attributes of [d] and the same EnTimer and PeriodicRead
    flags. *)
Definition keeps (d d' : device) : Prop :=
  frame d d' /\ fl_en_timer (decode (Status d')) = fl_en_timer (decode (Status d)) /\
  fl_periodic (decode (Status d')) = fl_periodic (decode (Status d)).

Lemma keeps_trans d1 d2 d3 : keeps d1 d2 -> keeps d2 d3 -> keeps d1 d3.
Proof.
  intros (Hf1 & He1 & Hp1) (Hf2 & He2 & Hp2).
  split; [by apply (frame_trans _ d2)|]. split; congruence.
Qed.

Lemma keeps_poll c d d' :
  inv d -> fl_power_on (decode (Status d)) = true -> poll c d = Ok d' -> keeps d d'.
Proof.
  intros (Hb & Hpi & _ & _ & _ & Hed & Hbus & _) Hpo Hp.
  rewrite poll_spec in Hp by auto. injection Hp as <-.
  destruct (chip_ready _ _ _); (split; [by repeat split|]);
    cbn [Status set_Status after_poll log]; dev_flags; auto.
Qed.

Lemma keeps_PowerOn fuel c d d' : inv d -> PowerOn fuel c d = Some (Ok d') -> keeps d d'.
Proof.
  intros Hinv Hp. pose proof Hinv as (Hb & _ & _ & _ & _ & _ & Hbus & _).
  unfold PowerOn in Hp. rewrite nau_guard_power_on in Hp by done.
  destruct (fl_inited _) eqn:Hi; cbn [andb] in Hp; [|injection Hp as <-; by repeat split].
  destruct (fl_power_on _); cbn [negb] in Hp; [injection Hp as <-; by repeat split|].
  destruct (power_up_spec c d) as (d1 & Hu & Hf1 & Hs1 & _); [auto|].
  rewrite Hu in Hp. destruct (inv_power_up c d d1) as [Hinv1 Hpo1]; [done..|].
  assert (Hk1 : keeps d d1) by (split; [done|]; rewrite Hs1; dev_flags; auto).
  clear Hu Hf1 Hs1. revert d1 Hinv1 Hpo1 Hk1 Hp.
  induction fuel as [|fuel IH]; intros d1 Hinv1 Hpo1 Hk1 Hp; [done|].
  cbn [wait_ready] in Hp. destruct (_ =? 0); [|by injection Hp as <-].
  destruct (poll c d1) as [d2|e] eqn:Hq; [|done].
  destruct (inv_poll c d1 d2) as [Hinv2 Hpo2]; [done..|].
  apply (IH d2); [done|done| |done]. by apply (keeps_trans _ d1), (keeps_poll c).
Qed.

(** Without EnTimer, no step sets it again, arms or disarms the timer,
    or changes the configured rate. *)
Lemma step_no_timer c d d' :
  inv d -> fl_en_timer (decode (Status d)) = false -> step c d d' ->
  fl_en_timer (decode (Status d')) = false /\ Tim d' = Tim d /\ SPS d' = SPS d.
Proof.
  intros Hinv Hen Hs. pose proof Hinv as (Hb & Hpi & Hr & Hper & Het & Hed & Hbus & Hw).
  assert (Hnp : fl_periodic (decode (Status d)) = false).
  { destruct (fl_periodic _) eqn:Hp; [|done]. destruct (Hper eq_refl) as (_ & ? & _). congruence. }
  destruct Hs as [fuel d d' Hp|d d' Hp|d f d' _ Hu|d st freq r d' Hst|d v d' Hg|d d' Hd].
  - destruct (keeps_PowerOn fuel c d d' Hinv Hp) as ((_ & _ & _ & _ & ? & ? & _) & He & _).
    rewrite He. done.
  - unfold PowerOff in Hp. destruct (truthy _) eqn:Hpo; [|by injection Hp as <-].
    rewrite nau_truthy_PowerOn in Hpo. rewrite writeto_ok in Hp by auto.
    injection Hp as <-. cbn [Status set_Status log Tim SPS]. dev_flags. done.
  - unfold updateADC in Hu. destruct (truthy _); [|by injection Hu as <-].
    destruct (getRawData c d) as [[tmp d1]|e] eqn:Hg; [|done]. cbn [rbind] in Hu.
    destruct (NAU7802Filter.accept _ _); [|done]. injection Hu as <-.
    destruct (getRawData_frame c d tmp d1 Hg) as [(_ & _ & _ & _ & ? & ? & _) Hs].
    cbn [Status Tim SPS set_filt]. by rewrite Hs.
  - unfold startReadADC in Hst. rewrite guard_can_start, Hen, nau_truthy_PeriodicRead, Hnp in Hst
      by done.
    rewrite !andb_false_r in Hst. destruct (truthy _); by injection Hst as _ <-.
  - destruct (getRawData_frame c d v d' Hg) as [(_ & _ & _ & _ & ? & ? & _) ->]. auto.
  - unfold del in Hd. rewrite nau_truthy_PeriodicRead, Hnp in Hd. cbn [rbind] in Hd.
    destruct (truthy _).
    + destruct (PowerOff d) as [d1|e] eqn:Hp; [|done]. injection Hd as <-.
      unfold PowerOff in Hp. destruct (truthy _) eqn:Hpo; [|by injection Hp as <-].
      rewrite nau_truthy_PowerOn in Hpo. rewrite writeto_ok in Hp by auto.
      by injection Hp as <-.
    + by injection Hd as <-.
Qed.

Lemma rtc_no_timer c d d' :
  inv d -> fl_en_timer (decode (Status d)) = false -> rtc (step c) d d' ->
  inv d' /\ fl_en_timer (decode (Status d')) = false /\ Tim d' = Tim d /\ SPS d' = SPS d.
Proof.
  intros Hinv Hen Hr. induction Hr as [d|d1 d2 d3 Hs Hr IH]; [done|].
  destruct (step_no_timer c d1 d2 Hinv Hen Hs) as (Hen2 & HT & HS).
  destruct (IH (inv_step c d1 d2 Hinv Hs) Hen2) as (? & ? & ? & ?).
  split; [done|]. split; [done|]. split; congruence.
Qed.

Lemma step_SPS c d d' : inv d -> step c d d' -> SPS d' = SPS d.
Proof.
  intros Hinv Hs. pose proof Hinv as (Hb & Hpi & Hr & Hper & Het & Hed & Hbus & Hw).
  destruct Hs as [fuel d d' Hp|d d' Hp|d f d' _ Hu|d st freq r d' Hst|d v d' Hg|d d' Hd].
  - by destruct (keeps_PowerOn fuel c d d' Hinv Hp) as ((_ & _ & _ & _ & _ & ? & _) & _).
  - unfold PowerOff, writeto in Hp. destruct (truthy _); [|by injection Hp as <-].
    destruct (I2CBus d); [|done]. by injection Hp as <-.
  - unfold updateADC in Hu. destruct (truthy _); [|by injection Hu as <-].
    destruct (getRawData c d) as [[tmp d1]|e] eqn:Hg; [|done]. cbn [rbind] in Hu.
    destruct (NAU7802Filter.accept _ _); [|done]. injection Hu as <-.
    by destruct (getRawData_frame c d tmp d1 Hg) as [(_ & _ & _ & _ & _ & ? & _) _].
  - unfold startReadADC, tim_init in Hst.
    repeat first [case_match | progress simplify_eq/=]; done.
  - by destruct (getRawData_frame c d v d' Hg) as [(_ & _ & _ & _ & _ & ? & _) _].
  - unfold del, PowerOff, startReadADC, writeto, tim_init in Hd.
    repeat first [case_match | progress simplify_eq/=]; done.
Qed.

Lemma inv_reachable c d : reachable c d -> inv d.
Proof. induction 1; [by apply nau_inv_initial|by apply (inv_step c d)]. Qed.

Lemma rtc_inv_SPS c d d' : inv d -> rtc (step c) d d' -> inv d' /\ SPS d' = SPS d.
Proof.
  intros Hinv Hr. induction Hr as [d|d1 d2 d3 Hs Hr IH]; [done|].
  destruct (IH (inv_step c d1 d2 Hinv Hs)) as [? ->]. split; [done|].
  by apply (step_SPS c).
Qed.

(** [startReadADC(1, Freq)] is refused, and changes nothing, when the
    conversion is not ready, there is no timer (EnTimer), periodic
    reading already runs, or [Freq] is outside [(0, __SPS]]. *)
Lemma start_one_refused d freq :
  inv d ->
  (fl_ready (decode (Status d)) = false \/ fl_en_timer (decode (Status d)) = false \/
   fl_periodic (decode (Status d)) = true \/ freq <= 0 \/ SPS d < freq) ->
  exists r, startReadADC 1 freq d = Ok (r, d) /\ r <> Some 1.
Proof.
  intros (Hb & _) Hc. unfold startReadADC. rewrite truthy_ADCReady.
  destruct (fl_ready _) eqn:Hr; [|by eexists].
  rewrite guard_can_start by done. cbn [Z.eqb andb].
  destruct Hc as [Hc|[Hc|[Hc|[Hc|Hc]]]]; [congruence|rewrite Hc|rewrite Hc, andb_false_r
    |rewrite Z.gtb_ltb, (proj2 (Z.ltb_ge _ _)) by lia; rewrite andb_false_r
    |rewrite (proj2 (Z.leb_gt _ _)) by lia; rewrite andb_false_r]; by eexists.
Qed.

(** ** Properties of the object *)

(** C10: Every object the program can reach, with any converter,
    satisfies the invariant: the status stays a byte; PowerOn implies
    Inited; ADCReady implies PowerOn; PeriodicRead implies ADCReady,
    EnTimer and a timer running at a frequency in [(0, __SPS]]; EnTimer
    implies a timer object, EnDRDY a DRDY pin and Inited an I2C bus; and
    the filter's invariant holds. *)
Theorem nau_reachable_inv c d : reachable c d -> inv d.
Proof. apply inv_reachable. Qed.

(** C11: A power cycle disables periodic reading for good: [PowerOff]
    masks the status with 0xC0, which also clears EnTimer, and nothing
    sets it again, so after it no sequence of calls, ticks and power-ons
    lets [startReadADC(1, Freq)] succeed, for any [Freq]. *)
Theorem nau_power_off_disables_start c d d1 d2 freq :
  reachable c d -> fl_power_on (decode (Status d)) = true ->
  PowerOff d = Ok d1 -> rtc (step c) d1 d2 ->
  exists r, startReadADC 1 freq d2 = Ok (r, d2) /\ r <> Some 1.
Proof.
  intros Hr Hpo Hp Hrtc. pose proof (inv_reachable c d Hr) as Hinv.
  pose proof (inv_PowerOff d d1 Hinv Hp) as Hinv1.
  assert (Hen1 : fl_en_timer (decode (Status d1)) = false).
  { destruct Hinv as (_ & Hpi & _ & _ & _ & _ & Hbus & _).
    unfold PowerOff in Hp. rewrite nau_truthy_PowerOn, Hpo, writeto_ok in Hp by auto.
    injection Hp as <-. cbn [Status set_Status log]. dev_flags. done. }
  destruct (rtc_no_timer c d1 d2 Hinv1 Hen1 Hrtc) as (Hinv2 & Hen2 & _).
  apply start_one_refused; [done|]. tauto.
Qed.

(** C34: [PowerOff] during periodic reading leaves the timer armed for
    the rest of the object's life: PeriodicRead is cleared but the timer
    keeps running at its frequency after any sequence of steps, since
    [startReadADC(0)] needs PeriodicRead to disarm it. *)
Theorem nau_power_off_orphans_timer c d :
  reachable c d -> fl_periodic (decode (Status d)) = true ->
  exists d1 f, PowerOff d = Ok d1 /\ Tim d = Some (TimPeriodic f) /\
    forall d2, rtc (step c) d1 d2 ->
      Tim d2 = Some (TimPeriodic f) /\ fl_periodic (decode (Status d2)) = false.
Proof.
  intros Hr Hp. pose proof (inv_reachable c d Hr) as Hinv.
  pose proof Hinv as (Hb & Hpi & Hrd & Hper & Het & Hed & Hbus & Hw).
  destruct (Hper Hp) as (Hready & Hen & f & Hf & _).
  assert (Hpo : fl_power_on (decode (Status d)) = true) by auto.
  assert (HP : PowerOff d = Ok (set_Status (Status (log (I2CWrite ADDR [0x00; 0x01]) d) &. 0xC0)
                                 (log (I2CWrite ADDR [0x00; 0x01]) d))).
  { unfold PowerOff. by rewrite nau_truthy_PowerOn, Hpo, writeto_ok by auto. }
  exists (set_Status (Status (log (I2CWrite ADDR [0x00; 0x01]) d) &. 0xC0)
                     (log (I2CWrite ADDR [0x00; 0x01]) d)), f.
  split; [done|]. split; [done|]. intros d2 Hrtc.
  pose proof (inv_PowerOff d _ Hinv HP) as Hinv1.
  destruct (rtc_no_timer c _ d2 Hinv1) as (Hinv2 & Hen2 & HT & _);
    [cbn [Status set_Status log]; dev_flags; done|done|].
  split; [by rewrite HT|].
  destruct (fl_periodic (decode (Status d2))) eqn:Hp2; [|done].
  destruct Hinv2 as (_ & _ & _ & Hper2 & _). destruct (Hper2 Hp2) as (_ & ? & _). congruence.
Qed.

(** [startReadADC(1, Freq)] on an object that can start reading. *)
Lemma nau_start_ok d freq :
  inv d -> fl_ready (decode (Status d)) = true -> fl_en_timer (decode (Status d)) = true ->
  fl_periodic (decode (Status d)) = false -> 0 < freq <= SPS d ->
  exists d', startReadADC 1 freq d = Ok (Some 1, d') /\
    fl_periodic (decode (Status d')) = true /\ Tim d' = Some (TimPeriodic freq) /\
    filt d' = NAU7802Filter.reset (filt d).
Proof.
  intros (Hb & _ & _ & _ & Het & _) Hr He Hnp Hf. unfold startReadADC.
  rewrite truthy_ADCReady, Hr, guard_can_start, He, Hnp by done.
  rewrite (proj2 (Z.gtb_lt _ _)), (proj2 (Z.leb_le _ _)) by lia. cbn [andb negb Z.eqb].
  destruct (Tim d) as [t|] eqn:Htim; [|by destruct (Het He)]. cbn [tim_init rbind].
  eexists. split; [reflexivity|]. cbn [Status Tim filt set_Status set_Tim set_filt].
  split; [dev_flags; by rewrite ?orb_true_r|done].
Qed.

(** [startReadADC(1, Freq)] on an object with a conversion ready, a
    timer, not already reading, and [0 < Freq <= __SPS] returns 1, sets
    PeriodicRead, runs the timer at [Freq] and resets the filter. *)
Theorem nau_start_success d freq :
  inv d -> fl_ready (decode (Status d)) = true -> fl_en_timer (decode (Status d)) = true ->
  fl_periodic (decode (Status d)) = false -> 0 < freq <= SPS d ->
  exists d', startReadADC 1 freq d = Ok (Some 1, d') /\
    fl_periodic (decode (Status d')) = true /\ Tim d' = Some (TimPeriodic freq) /\
    filt d' = NAU7802Filter.reset (filt d).
Proof. exact (nau_start_ok d freq). Qed.

(** Stopping is total and idempotent: on any object satisfying the
    invariant [startReadADC(0)] raises nothing and leaves PeriodicRead
    clear (disarming the timer when reading ran), and a second call
    changes nothing and returns [None] or 0. *)
Theorem nau_stop_idempotent d freq :
  inv d ->
  exists r1 d1 r2, startReadADC 0 freq d = Ok (r1, d1) /\ startReadADC 0 freq d1 = Ok (r2, d1) /\
    r2 <> Some 1 /\ fl_periodic (decode (Status d1)) = false /\
    (fl_periodic (decode (Status d)) = true -> r1 = Some 1 /\ Tim d1 = Some TimIdle).
Proof.
  intros Hinv. pose proof Hinv as (Hb & Hpi & Hr & Hper & Het & _).
  assert (Hstop : forall d, inv d -> fl_periodic (decode (Status d)) = false ->
                  exists r, startReadADC 0 freq d = Ok (r, d) /\ r <> Some 1).
  { intros d0 (Hb0 & _) Hp0. unfold startReadADC. rewrite nau_truthy_PeriodicRead, Hp0.
    destruct (truthy _); [|by eexists]. rewrite andb_false_l, andb_false_r. by eexists. }
  destruct (fl_periodic _) eqn:Hp.
  - destruct (Hper eq_refl) as (Hready & Hen & f & Hf & _).
    unfold startReadADC at 1. rewrite truthy_ADCReady, Hready, guard_can_start, Hen, Hp by done.
    rewrite nau_truthy_PeriodicRead, Hp, Hf. cbn [negb andb Z.eqb tim_init rbind].
    set (d1 := set_Status _ _).
    assert (Hp1 : fl_periodic (decode (Status d1)) = false) by (unfold d1; cbn [Status set_Status set_Tim]; dev_flags; by rewrite ?andb_false_r).
    destruct (Hstop d1) as (r2 & Hs2 & Hr2); [|done|].
    + apply (nau_inv_start d 0 freq (Some 1)). done. unfold startReadADC.
      rewrite truthy_ADCReady, Hready, guard_can_start, Hen, Hp by done.
      by rewrite nau_truthy_PeriodicRead, Hp, Hf.
    + do 3 eexists. split; [reflexivity|]. by split; [exact Hs2|].
  - destruct (Hstop d) as (r & Hs & Hr1); [done..|].
    do 3 eexists. split; [exact Hs|]. split; [exact Hs|]. split; [done|]. split; [done|].
    discriminate.
Qed.

(** [PowerOn] returns once the converter reports ready. *)
(** [PowerOn] returns once the converter reports ready, with the
    attributes kept and PowerOn and ADCReady added to the status. *)
Lemma nau_PowerOn_status fuel c d k :
  inv d -> fl_inited (decode (Status d)) = true -> fl_power_on (decode (Status d)) = false ->
  let tr := trace d ++ power_up_ops c d in
  let en := fl_en_drdy (decode (Status d)) in
  (forall j, (j < k)%nat -> chip_ready c en (tr ++ polls j) = false) ->
  chip_ready c en (tr ++ polls k) = true -> (k + 2 <= fuel)%nat ->
  exists d', PowerOn fuel c d = Some (Ok d') /\ frame d d' /\
    Status d' = (Status d |. Status_PowerOn) |. Status_ADCReady /\ trace d' = tr ++ polls (S k).
Proof.
  intros Hinv Hi Hpo tr en Hbefore Hk Hf.
  pose proof Hinv as (Hb & _ & Hrd & _ & _ & Hed & Hbus & _).
  destruct (power_up_spec c d) as (d1 & Hu & Hfr1 & Hs1 & Ht1); [auto|].
  pose proof Hfr1 as (_ & _ & HB & HP & _).
  assert (Hen1 : fl_en_drdy (decode (Status d1)) = en) by (rewrite Hs1; dev_flags; done).
  destruct (wait_ready_returns fuel c d1 k) as (d' & Hw & Hfr' & Hs' & Ht');
    [by rewrite HB; auto|rewrite Hen1, HP; auto
    |rewrite Hs1; dev_flags; destruct (fl_ready _) eqn:?; [by rewrite Hrd in Hpo|done]
    |rewrite Hen1, Ht1; done|rewrite Hen1, Ht1; done|done|].
  exists d'. split.
  { unfold PowerOn. rewrite nau_guard_power_on, Hi, Hpo, Hu by done. done. }
  split; [by apply (frame_trans _ d1)|]. rewrite Hs', Hs1, Ht', Ht1. done.
Qed.

Lemma nau_PowerOn_ready fuel c d k :
  inv d -> fl_inited (decode (Status d)) = true -> fl_power_on (decode (Status d)) = false ->
  let tr := trace d ++ power_up_ops c d in
  let en := fl_en_drdy (decode (Status d)) in
  (forall j, (j < k)%nat -> chip_ready c en (tr ++ polls j) = false) ->
  chip_ready c en (tr ++ polls k) = true -> (k + 2 <= fuel)%nat ->
  exists d', PowerOn fuel c d = Some (Ok d') /\
    fl_power_on (decode (Status d')) = true /\ fl_ready (decode (Status d')) = true /\
    trace d' = tr ++ polls (S k) /\ inv d'.
Proof.
  intros Hinv Hi Hpo tr en Hbefore Hk Hf.
  destruct (nau_PowerOn_status fuel c d k Hinv Hi Hpo Hbefore Hk Hf) as (d' & HP & _ & Hs' & Ht').
  exists d'. split; [done|]. rewrite Hs', Ht'.
  split; [dev_flags; by rewrite ?orb_true_r|]. split; [dev_flags; by rewrite ?orb_true_r|].
  split; [done|]. by apply (inv_PowerOn fuel c d).
Qed.


(** C35: Liveness of [PowerOn]: on an initialised, unpowered object it
    writes the configuration (PU_CTRL 0x86 with [__CTRL1] and [__CTRL2],
    bits 4-5 of register 0x15 set, 0x80 to 0x1C, bit 6 of 0x1B cleared,
    each read-modify-write on the value read) and polls; if the
    converter first reports ready at poll [k] (DRDY high when the pin is
    used, or the register bits of line 110), [PowerOn] returns after
    [k+1] polls with PowerOn and ADCReady set, given fuel for [k+2]
    passes of the loop. *)
Theorem nau_PowerOn_returns fuel c d k :
  inv d -> fl_inited (decode (Status d)) = true -> fl_power_on (decode (Status d)) = false ->
  let tr := trace d ++ power_up_ops c d in
  let en := fl_en_drdy (decode (Status d)) in
  (forall j, (j < k)%nat -> chip_ready c en (tr ++ polls j) = false) ->
  chip_ready c en (tr ++ polls k) = true -> (k + 2 <= fuel)%nat ->
  exists d', PowerOn fuel c d = Some (Ok d') /\
    fl_power_on (decode (Status d')) = true /\ fl_ready (decode (Status d')) = true /\
    trace d' = tr ++ polls (S k) /\ inv d'.
Proof. exact (nau_PowerOn_ready fuel c d k). Qed.

(** C36: [PowerOn] has no timeout: if the converter never reports ready,
    [PowerOn] on an initialised, unpowered object never returns, however
    much fuel it is given. *)
Theorem nau_PowerOn_hangs fuel c d :
  inv d -> fl_inited (decode (Status d)) = true -> fl_power_on (decode (Status d)) = false ->
  (forall j, chip_ready c (fl_en_drdy (decode (Status d))) (trace d ++ power_up_ops c d ++ polls j)
             = false) ->
  PowerOn fuel c d = None.
Proof.
  intros Hinv Hi Hpo Hnever.
  pose proof Hinv as (Hb & _ & Hrd & _ & _ & Hed & Hbus & _).
  destruct (power_up_spec c d) as (d1 & Hu & (_ & _ & HB & HP & _) & Hs1 & Ht1); [auto|].
  unfold PowerOn. rewrite nau_guard_power_on, Hi, Hpo, Hu by done. cbn [andb negb].
  assert (Hen1 : fl_en_drdy (decode (Status d1)) = fl_en_drdy (decode (Status d)))
    by (rewrite Hs1; dev_flags; done).
  apply wait_ready_hangs; [by rewrite HB; auto|rewrite Hen1, HP; auto
    |rewrite Hs1; dev_flags; destruct (fl_ready _) eqn:?; [by rewrite Hrd in Hpo|done]|].
  intros j. rewrite Hen1, Ht1, <- app_assoc. apply Hnever.
Qed.

(** When the conversion registers 0x12-0x14 hold the bytes of a
    signed 24-bit value [v] (most significant first), [getRawData] on a
    ready object returns [v] and issues exactly one 3-byte read of
    register 0x12. *)
Theorem nau_getRawData_reads c d v :
  I2CBus d <> None -> fl_ready (decode (Status d)) = true -> in_range24 v ->
  reg_value c (trace d) 0x12 = NAU7802Wire.byte_of v 2 ->
  reg_value c (trace d) 0x13 = NAU7802Wire.byte_of v 1 ->
  reg_value c (trace d) 0x14 = NAU7802Wire.byte_of v 0 ->
  getRawData c d = Ok (v, log (I2CRead ADDR 0x12 3) d).
Proof.
  intros Hb Hr Hv H2 H1 H0. rewrite getRawData_spec, H2, H1, H0 by done.
  unfold NAU7802Wire.byte_of. rewrite !Z.mod_mod by lia. fold (NAU7802Wire.byte_of v 2)
    (NAU7802Wire.byte_of v 1) (NAU7802Wire.byte_of v 0).
  unfold NAU7802Wire.getRawData_value. rewrite NAU7802WireFacts.combine_bytes.
  by rewrite sign24_mod.
Qed.

Lemma config_ok_low G R : 0 <= G <= 7 -> 0 <= R < 0x40 -> config_ok G R = true.
Proof.
  intros HG HR. unfold config_ok. rewrite Z.shiftr_div_pow2 by lia.
  change (2 ^ 4) with 16. assert (0 <= R / 16 < 4) by (split; [apply Z.div_pos|apply Z.div_lt_upper_bound]; lia).
  rewrite (proj2 (Z.leb_le G 7)), (proj2 (Z.geb_le G 0)), (proj2 (Z.leb_le _ 3)),
    (proj2 (Z.geb_le _ 0)) by lia.
  by rewrite orb_true_r.
Qed.

(** [__init__] on the bus I2C0 with the converter present. *)
Lemma init_I2C0 SCL SDA P G R t :
  SCL mod 4 = 1 -> SDA mod 4 = 0 -> config_ok G R = true ->
  let drdy := (P >=? 0) && (P <=? 22) in
  let st := if drdy then 0 |. Status_EnDRDY else 0 in
  init SCL SDA P G R true t =
  mkDev (if t then st |. (Status_Inited |. Status_EnTimer) else st |. Status_Inited)
        (0 |. (0x28 |. G)) ((0 &. ~. maskSPS) |. R) (Some 0) (if drdy then Some P else None)
        (if t then Some TimIdle else None) (sps_of R 0) NAU7802Filter.init [].
Proof. intros HS HD Hc. unfold init. by rewrite HS, HD, Hc. Qed.

(** C37: [__init__] accepts rate codes that are not rates: any code
    below 0x40 passes the test of line 72, but only 0x00, 0x10, 0x20
    and 0x30 set [__SPS].  With another code (0x35, say) the object is
    initialised with a timer and [__SPS = 0], and then no sequence of
    steps ever lets [startReadADC(1, Freq)] succeed, for any [Freq]. *)
Theorem nau_init_bad_rate_never_starts SCL SDA P G R c d2 freq :
  SCL mod 4 = 1 -> SDA mod 4 = 0 -> 0 <= G <= 7 -> 0 <= R < 0x40 ->
  ~ In R [0x00; 0x10; 0x20; 0x30] ->
  let d := init SCL SDA P G R true true in
  fl_inited (decode (Status d)) = true /\ fl_en_timer (decode (Status d)) = true /\
  SPS d = 0 /\
  (rtc (step c) d d2 -> exists r, startReadADC 1 freq d2 = Ok (r, d2) /\ r <> Some 1).
Proof.
  intros HS HD HG HR Hn d.
  assert (Hsps : sps_of R 0 = 0).
  { unfold sps_of, SPS10, SPS20, SPS40, SPS80, SPS320.
    repeat match goal with |- context [R =? ?k] => destruct (Z.eqb_spec R k) end;
      try lia; subst R; cbn in Hn; tauto. }
  assert (Hd : d = init SCL SDA P G R true true) by done.
  rewrite init_I2C0 in Hd by auto using config_ok_low. rewrite Hsps in Hd.
  assert (Hinv : inv d) by (unfold d; apply nau_inv_initial; constructor).
  split; [rewrite Hd; cbn [Status]; destruct (_ && _); dev_flags; by rewrite ?orb_true_r|].
  split; [rewrite Hd; cbn [Status]; destruct (_ && _); dev_flags; by rewrite ?orb_true_r|].
  split; [by rewrite Hd|]. intros Hrtc.
  destruct (rtc_inv_SPS c d d2 Hinv Hrtc) as [Hinv2 HS2].
  apply start_one_refused; [done|]. rewrite HS2, Hd. cbn [SPS]. lia.
Qed.

(** [__init__] with each of the five rate codes (and a gain
    0..7) stores the code in [__CTRL2]'s rate field and the matching
    rate, 10, 20, 40, 80 or 320 samples per second, in [__SPS]. *)
Theorem nau_init_rate_table SCL SDA P G t :
  SCL mod 4 = 1 -> SDA mod 4 = 0 -> 0 <= G <= 7 ->
  map (fun R => (CTRL2 (init SCL SDA P G R true t), SPS (init SCL SDA P G R true t)))
      [SPS10; SPS20; SPS40; SPS80; SPS320] =
  [(0x00, 10); (0x10, 20); (0x20, 40); (0x30, 80); (0x70, 320)].
Proof.
  intros HS HD HG. cbn [map].
  rewrite !init_I2C0 by (auto; unfold config_ok; cbn;
                         rewrite (proj2 (Z.leb_le G 7)), (proj2 (Z.geb_le G 0)) by lia; done).
  reflexivity.
Qed.

End NAU7802DeviceFacts.

(** ** Witnesses *)

Module NAU7802DeviceWitnesses.
Import NAU7802Device NAU7802DeviceFacts.

(** A converter whose status registers always report a completed
    conversion and whose conversion registers hold the bytes of -2. *)
Definition ready_chip : chip :=
  mkChip (fun _ r => if (0x12 <=? r) && (r <=? 0x14) then NAU7802Wire.byte_of (-2) (0x14 - r)
                     else 0xFF)
         (fun _ => true).

(** The demo's object: SCL 5, SDA 4, no DRDY pin, gain 128, 80 SPS, a timer. *)
Definition demo_init : device := init 5 4 (-1) Gain128 SPS80 true true.

(** The demo's object once [PowerOn] returned. *)
Definition demo_on : device :=
  match PowerOn 3 ready_chip demo_init with Some (Ok d) => d | _ => demo_init end.

(** The demo's object after [startReadADC(1, 80)]. *)
Definition demo_reading : device :=
  match startReadADC 1 80 demo_on with Ok (_, d) => d | _ => demo_on end.

(** The object after [PowerOff]. *)
Definition demo_off : device :=
  match PowerOff demo_on with Ok d => d | _ => demo_on end.

Lemma demo_init_reachable : reachable ready_chip demo_init.
Proof. apply reach_init. constructor. Qed.

Lemma demo_on_reachable : reachable ready_chip demo_on.
Proof.
  apply (reach_step _ demo_init); [exact demo_init_reachable|].
  apply (step_power_on _ 3). vm_compute. reflexivity.
Qed.

Lemma demo_reading_reachable : reachable ready_chip demo_reading.
Proof.
  apply (reach_step _ demo_on); [exact demo_on_reachable|].
  apply (step_start _ _ 1 80 (Some 1)). vm_compute. reflexivity.
Qed.

Lemma nau_reachable_inv_witness : inv demo_reading.
Proof. apply (nau_reachable_inv ready_chip), demo_reading_reachable. Defined.

Lemma nau_power_off_disables_start_witness :
  exists r, startReadADC 1 10 demo_off = Ok (r, demo_off) /\ r <> Some 1.
Proof.
  apply (nau_power_off_disables_start ready_chip demo_on demo_off demo_off 10);
    [exact demo_on_reachable|vm_compute; reflexivity|vm_compute; reflexivity|apply rtc_refl].
Defined.

Lemma nau_power_off_orphans_timer_witness :
  exists d1 f, PowerOff demo_reading = Ok d1 /\ Tim demo_reading = Some (TimPeriodic f) /\
    forall d2, rtc (step ready_chip) d1 d2 ->
      Tim d2 = Some (TimPeriodic f) /\ fl_periodic (decode (Status d2)) = false.
Proof.
  apply nau_power_off_orphans_timer; [exact demo_reading_reachable|vm_compute; reflexivity].
Defined.

Lemma nau_start_success_witness :
  exists d', startReadADC 1 80 demo_on = Ok (Some 1, d') /\
    fl_periodic (decode (Status d')) = true /\ Tim d' = Some (TimPeriodic 80) /\
    filt d' = NAU7802Filter.reset (filt demo_on).
Proof.
  apply nau_start_success;
    [exact (inv_reachable _ _ demo_on_reachable)|vm_compute; reflexivity..|assert (SPS demo_on = 80) as -> by (vm_compute; reflexivity); lia].
Defined.

Lemma nau_stop_idempotent_witness :
  exists r1 d1 r2, startReadADC 0 10 demo_reading = Ok (r1, d1) /\
    startReadADC 0 10 d1 = Ok (r2, d1) /\ r2 <> Some 1 /\
    fl_periodic (decode (Status d1)) = false /\
    (fl_periodic (decode (Status demo_reading)) = true -> r1 = Some 1 /\ Tim d1 = Some TimIdle).
Proof. apply nau_stop_idempotent, (inv_reachable ready_chip), demo_reading_reachable. Defined.

Lemma nau_PowerOn_returns_witness :
  exists d', PowerOn 3 ready_chip demo_init = Some (Ok d') /\
    fl_power_on (decode (Status d')) = true /\ fl_ready (decode (Status d')) = true /\
    trace d' = trace demo_init ++ power_up_ops ready_chip demo_init ++ polls 1 /\ inv d'.
Proof.
  destruct (nau_PowerOn_returns 3 ready_chip demo_init 0) as (d' & H1 & H2 & H3 & H4 & H5);
    [exact (inv_reachable _ _ demo_init_reachable)|vm_compute; reflexivity..|intros; lia
    |vm_compute; reflexivity|lia|].
  exists d'. rewrite <- app_assoc in H4. auto.
Defined.

(** A converter that never completes a conversion. *)
Definition stuck_chip : chip := mkChip (fun _ _ => 0) (fun _ => false).

Lemma nau_PowerOn_hangs_witness : PowerOn 1000 stuck_chip demo_init = None.
Proof.
  apply nau_PowerOn_hangs;
    [exact (inv_reachable ready_chip _ demo_init_reachable)|vm_compute; reflexivity..|].
  intros j. reflexivity.
Defined.

Lemma nau_getRawData_reads_witness :
  getRawData ready_chip demo_on = Ok (-2, log (I2CRead ADDR 0x12 3) demo_on).
Proof.
  apply nau_getRawData_reads; [vm_compute; discriminate|vm_compute; reflexivity
                              |unfold in_range24; lia|vm_compute; reflexivity..].
Defined.

Lemma nau_init_bad_rate_never_starts_witness :
  let d := init 5 4 (-1) Gain128 0x35 true true in
  fl_inited (decode (Status d)) = true /\ fl_en_timer (decode (Status d)) = true /\
  SPS d = 0 /\
  (rtc (step ready_chip) d d -> exists r, startReadADC 1 10 d = Ok (r, d) /\ r <> Some 1).
Proof.
  apply nau_init_bad_rate_never_starts; [reflexivity|reflexivity|vm_compute; split; discriminate
                                        |vm_compute; split; [discriminate|reflexivity]|].
  cbn. lia.
Defined.

End NAU7802DeviceWitnesses.
