(* ===== verification/PyTypes.v ===== *)
(** * The Python types of what the drivers publish

    The demo programs print [MeanValue], [LinRegVal] and [ValStable].
    [Average] returns a number except on a one-element list, where it
    returns the list itself (HX711.py line 157, NAU7802.py line 186);
    [ValStable] is only ever assigned 0, 1 or the class value 0.  Here
    both drivers are shown never to publish the list: every object the
    program can reach has a numeric [MeanValue] and a [ValStable] of 0
    or 1, whatever the samples and the order of the calls. *)

From stdpp Require Import base tactics list.
From Stdlib Require Import ZArith QArith Lia.
From S2P Require Import Prelude Machine Status RawData Regression Window SampleFilter HX711Filter HX711Device NAU7802Filter NAU7802Device.

Local Open Scope Z_scope.

(** [isinstance(v, float)] for the values [Average] returns. *)
Definition is_num (v : pyval) : bool :=
  match v with PyNum _ => true | PyList _ => false end.

(** The published pair [MeanValue], [ValStable] has the types the
    demo's [print] expects: a number, and 0 or 1. *)
Definition typed_outputs (mv : pyval) (vs : Z) : Prop :=
  is_num mv = true /\ (vs = 0 \/ vs = 1).

Lemma typed_reset_values : typed_outputs (PyNum 0) 0.
Proof. split; [done|by left]. Qed.

Lemma typed_stable_flag mv (b : bool) :
  is_num mv = true -> typed_outputs mv (if b then 1 else 0).
Proof. intros Hm. split; [done|]. destruct b; [by right|by left]. Qed.

Lemma is_num_window Y : (1 < length Y)%nat -> is_num (Average Y) = true.
Proof. intros Hl. by rewrite Average_window. Qed.

#[export] Hint Resolve typed_reset_values typed_stable_flag : weight.

(** ** HX711 *)

Module HX711Types.
Import HX711Filter HX711FilterFacts HX711Device HX711DeviceFacts.

Definition typed (f : HX711Filter.state) : Prop := typed_outputs (MeanValue f) (ValStable f).

Lemma accept_typed tmp f f' : wf f -> typed f -> accept tmp f = Ok f' -> typed f'.
Proof.
  intros Hwf Ht Ha. pose proof Hwf as (_ & Hi & _). rewrite accept_unfold in Ha.
  destruct (Z.eqb tmp sentinel); [by injection Ha as <-|].
  destruct (Nat.ltb_spec (dataI f) 11) as [Hlt|Hge].
  - unfold fill in Ha. destruct (py_setitem _ _ _); [|done]. by injection Ha as <-.
  - destruct (steady_step tmp f Hwf) as (f1 & Hf1 & _ & _ & _ & _ & (q & Hq & _) & _); [lia|].
    rewrite Hf1 in Ha. injection Ha as <-. unfold typed, stability. cbn [MeanValue ValStable].
    apply typed_stable_flag. by rewrite Hq.
Qed.

Lemma typed_init : typed HX711Filter.init.
Proof. apply typed_reset_values. Qed.

Lemma typed_reset f : typed (reset f).
Proof. apply typed_reset_values. Qed.

Lemma getRawData_filt dout d : filt (snd (getRawData dout d)) = filt d.
Proof. unfold getRawData. by case_match. Qed.

(** What a step does to the filter: nothing, the reset of
    [startReadADC(1)], or one sample through [accept]. *)
Lemma step_filt d d' :
  step d d' ->
  filt d' = filt d \/ filt d' = reset (filt d) \/ exists x, accept x (filt d) = Ok (filt d').
Proof.
  destruct 1 as [d _|d|d _|d f dout d' _ Hu|d s freq r d' Hs|d m dout|d dout].
  - by left.
  - left. unfold PowerOff. by destruct (truthy _).
  - left. unfold PinDOUT_IRQHandler. by destruct (truthy _).
  - rewrite updateADC_unfold in Hu. destruct (truthy _); [|injection Hu as <-; by left].
    pose proof (getRawData_filt dout d) as Hf.
    destruct (getRawData dout d) as [tmp d1]. cbn [snd] in Hf. cbv iota beta in Hu.
    destruct (accept tmp (filt d1)) as [f1|e] eqn:Ha; [|done]. cbn [rbind] in Hu.
    injection Hu as <-. right; right. exists tmp. by rewrite <- Hf.
  - unfold startReadADC, tim_init in Hs. repeat case_match; simplify_eq/=; first [by left|by right; left].
  - left. unfold setChGain. case_match; [|done]. by rewrite getRawData_filt.
  - left. apply getRawData_filt.
Qed.

Lemma step_typed d d' : inv d -> typed (filt d) -> step d d' -> typed (filt d').
Proof.
  intros (_ & _ & _ & _ & _ & Hw) Ht Hs.
  destruct (step_filt d d' Hs) as [->|[->|(x & Ha)]];
    [done|apply typed_reset|by apply (accept_typed x (filt d))].
Qed.

Lemma reachable_typed d : reachable d -> inv d /\ typed (filt d).
Proof.
  induction 1 as [d [SCK DOUT m t]|d d' _ [Hinv Ht] Hs].
  - split; [by apply inv_initial, initial_init|]. unfold init. case_match; apply typed_init.
  - split; [|by apply (step_typed d)].
    destruct Hs; eauto using inv_power_on, inv_power_off, inv_irq, inv_updateADC,
      inv_start, inv_setChGain, inv_getRawData.
Qed.

End HX711Types.

(** ** NAU7802 *)

Module NAU7802Types.
Import NAU7802Filter NAU7802FilterFacts NAU7802Device NAU7802DeviceFacts.

Definition typed (f : NAU7802Filter.state) : Prop := typed_outputs (MeanValue f) (ValStable f).

Lemma nau_accept_typed tmp f f' : wf f -> typed f -> accept tmp f = Ok f' -> typed f'.
Proof.
  intros (Hl & Hi) Ht Ha. unfold accept in Ha.
  destruct (Nat.ltb_spec (dataI f) 21) as [Hlt|Hge].
  - unfold fill in Ha. destruct (py_setitem _ _ _); [|done]. by injection Ha as <-.
  - unfold track in Ha. destruct (slide (dataY f) tmp) as [Y|e] eqn:HY; [|done].
    cbn [rbind] in Ha. destruct (LinearReg dataX Y) as [[[a b] e]|e] eqn:Hr; [|done].
    cbn [rbind] in Ha. injection Ha as <-. unfold typed. cbn [MeanValue ValStable].
    apply typed_stable_flag, is_num_window.
    destruct (dataY f) as [|w r]; [done|]. rewrite slide_cons in HY. injection HY as <-.
    rewrite length_app. cbn in Hl |- *. lia.
Qed.

Lemma nau_typed_reset f : typed (reset f).
Proof. apply typed_reset_values. Qed.

Lemma PowerOff_filt d d' : PowerOff d = Ok d' -> filt d' = filt d.
Proof.
  unfold PowerOff, writeto. destruct (truthy _); [|by intros [= <-]].
  destruct (I2CBus d); [|done]. by intros [= <-].
Qed.

Lemma startReadADC_filt s freq d r d' :
  startReadADC s freq d = Ok (r, d') -> filt d' = filt d \/ filt d' = reset (filt d).
Proof. unfold startReadADC, tim_init. intros Hs. repeat case_match; simplify_eq/=; first [by left|by right]. Qed.

Lemma updateADC_filt c d d' :
  updateADC c d = Ok d' -> filt d' = filt d \/ exists x d1, accept x (filt d1) = Ok (filt d') /\
    filt d1 = filt d.
Proof.
  unfold updateADC. destruct (truthy _); [|intros [= <-]; by left].
  destruct (getRawData c d) as [[v d1]|e] eqn:Hg; [|done]. cbn [rbind].
  destruct (getRawData_frame c d v d1 Hg) as [(_ & _ & _ & _ & _ & _ & Hf) _].
  destruct (accept v (filt d1)) as [f1|e] eqn:Ha; [|done]. intros [= <-].
  right. by exists v, d1.
Qed.

Lemma nau_step_typed c d d' : inv d -> typed (filt d) -> step c d d' -> typed (filt d').
Proof.
  intros Hinv Ht Hs. pose proof Hinv as (_ & _ & _ & _ & _ & _ & _ & Hw).
  destruct Hs as [fuel d d' Hp|d d' Hp|d f d' _ Hu|d s freq r d' Hs|d v d' Hg|d d' Hd].
  - by destruct (keeps_PowerOn fuel c d d' Hinv Hp) as ((_ & _ & _ & _ & _ & _ & ->) & _).
  - by rewrite (PowerOff_filt d d' Hp).
  - destruct (updateADC_filt c d d' Hu) as [->|(x & d1 & Ha & Hf)]; [done|].
    rewrite <- Hf in Hw. by apply (nau_accept_typed x (filt d1)); [|rewrite Hf|].
  - destruct (startReadADC_filt s freq d r d' Hs) as [->| ->]; [done|apply nau_typed_reset].
  - by destruct (getRawData_frame c d v d' Hg) as [(_ & _ & _ & _ & _ & _ & ->) _].
  - unfold del in Hd. destruct (truthy (Status d &. Status_PeriodicRead)).
    + destruct (startReadADC 0 10 d) as [[r d0]|e] eqn:Hs; [|done]. cbn [rbind snd] in Hd.
      destruct (truthy (Status d0 &. Status_PowerOn)).
      * destruct (PowerOff d0) as [d2|e] eqn:Hp; [|done]. injection Hd as <-.
        cbn [filt set_Status]. rewrite (PowerOff_filt d0 d2 Hp).
        destruct (startReadADC_filt 0 10 d r d0 Hs) as [->| ->]; [done|apply nau_typed_reset].
      * injection Hd as <-. cbn [filt set_Status].
        destruct (startReadADC_filt 0 10 d r d0 Hs) as [->| ->]; [done|apply nau_typed_reset].
    + cbn [rbind] in Hd. destruct (truthy (Status d &. Status_PowerOn)).
      * destruct (PowerOff d) as [d2|e] eqn:Hp; [|done]. injection Hd as <-.
        cbn [filt set_Status]. by rewrite (PowerOff_filt d d2 Hp).
      * by injection Hd as <-.
Qed.

Lemma nau_reachable_typed c d : reachable c d -> typed (filt d).
Proof.
  induction 1 as [d [SCL SDA P G R b t]|d d' Hr IH Hs].
  - unfold init. repeat case_match; apply typed_reset_values.
  - apply (nau_step_typed c d); [by apply (inv_reachable c)|done|done].
Qed.

End NAU7802Types.

(** C22: The attributes the drivers publish keep their Python types:
    every HX711 object the program can reach, and every NAU7802 object
    with any converter behaviour, whatever the samples and the order of
    the method calls, timer ticks and interrupts, has a numeric
    [MeanValue] (never the one-element list [Average] can return) and a
    [ValStable] of 0 or 1. *)
Theorem published_outputs_typed :
  (forall d, HX711DeviceFacts.reachable d ->
     typed_outputs (HX711Filter.MeanValue (HX711Device.filt d))
                   (HX711Filter.ValStable (HX711Device.filt d))) /\
  (forall c d, NAU7802DeviceFacts.reachable c d ->
     typed_outputs (NAU7802Filter.MeanValue (NAU7802Device.filt d))
                   (NAU7802Filter.ValStable (NAU7802Device.filt d))).
Proof.
  split.
  - intros d Hr. apply (HX711Types.reachable_typed d Hr).
  - apply NAU7802Types.nau_reachable_typed.
Qed.

Module PyTypesWitnesses.
Import NAU7802DeviceWitnesses.

Lemma published_outputs_typed_witness :
  typed_outputs (NAU7802Filter.MeanValue (NAU7802Device.filt demo_reading))
                (NAU7802Filter.ValStable (NAU7802Device.filt demo_reading)).
Proof. apply (proj2 published_outputs_typed ready_chip), demo_reading_reachable. Defined.

End PyTypesWitnesses.
