(* ===== verification/Demo.v ===== *)
(** * The demo programs: [if __name__ == "__main__":] of both drivers

    HX711.py lines 183-202 and NAU7802.py lines 192-211 run the same
    script: create a virtual timer ([Timer(-1)]) and the driver object
    with it, sleep, [PowerOn()], sleep, [if ADC.startReadADC(1, F):]
    then print [MeanValue], [LinRegVal], [ValStable] forever, while the
    timer's callback [updateADC] runs between the passes.  Ctrl-C
    raises [KeyboardInterrupt] in the loop; its handler stops the
    periodic reading, powers the converter off and calls
    [machine.reset()]; a bare [except: pass] swallows anything else.

    [main_end] is how the try block ends before the loop ([*_main]);
    [loop] runs the print loop on an explicit interleaving of
    [loop_event]s: a pass of the loop body, a falling edge of DOUT, a
    timer tick, or Ctrl-C; it records the console lines in order, the
    HX711 callback's [Corrected: remove] reports (line 112) among
    them.  The [KeyboardInterrupt] handler
    ([on_KeyboardInterrupt]) reads [ADC.__Status] at module level; the
    MicroPython compiler does not mangle private names, so this is the
    object's status attribute.  Neither module imports [machine] as a
    name ([from machine import Pin, ...]), so [machine.reset()] raises
    [NameError]: an exception raised in a handler is not caught by the
    other [except] clauses of the same [try], and the script stops with
    a traceback instead of resetting the board. *)

From stdpp Require Import base tactics list.
From Stdlib Require Import ZArith QArith Lia.
From S2P Require Import Prelude Machine Status RawData Regression SampleFilter HX711Filter HX711Device NAU7802Filter NAU7802Device.

Local Open Scope Z_scope.

(** What one [print(ADC.MeanValue, ADC.LinRegVal, ADC.ValStable)] shows. *)
Definition printed : Type := pyval * Q * Z.

(** How the try block of a demo ends before its print loop. *)
Inductive main_end (D : Type) :=
| MainHang                     (** still in [PowerOn]'s busy-wait *)
| MainDone (d : D)             (** [startReadADC] returned a false value: the script ends *)
| MainLoop (d : D)             (** the print loop runs with the object [d] *)
| MainSwallowed (e : py_exn).  (** caught by the bare [except: pass] *)
Arguments MainHang {D}.
Arguments MainDone {D} d.
Arguments MainLoop {D} d.
Arguments MainSwallowed {D} e.

(** What can happen while the print loop runs. *)
Inductive loop_event (I : Type) :=
| LPrint           (** one pass of the body: [print(...)] then [sleep] *)
| LFall            (** DOUT falls (the HX711's interrupt line) *)
| LTick (i : I)    (** the timer fires; its callback sees the input [i] *)
| LCtrlC.          (** Ctrl-C: [KeyboardInterrupt] in the main loop *)
Arguments LPrint {I}.
Arguments LFall {I}.
Arguments LTick {I} i.
Arguments LCtrlC {I}.

(** Where the loop stands after a sequence of events: still printing,
    stopped by an exception of the timer callback (the model does not
    follow the runtime past it), or ended by the interrupt handler's
    uncaught exception, with the lines written to the console, by the
    loop and by the callback, in order. *)
Inductive loop_end (O D : Type) :=
| Looping (out : list O) (d : D)
| CallbackRaised (out : list O) (d : D) (e : py_exn)
| Uncaught (out : list O) (d : D) (e : py_exn).
Arguments Looping {O D} out d.
Arguments CallbackRaised {O D} out d e.
Arguments Uncaught {O D} out d e.

(** [if ADC.startReadADC(1, F):]: [None] and [0] are false. *)
Definition ret_truthy (r : option Z) : bool :=
  match r with Some v => truthy v | None => false end.

Section Loop.
Context {D I O : Type}.
Variable tick : I -> D -> result (D * list O).  (** the timer callback and what it prints *)
Variable fall : D -> D.                         (** DOUT's falling edge *)
Variable show : D -> O.                         (** the loop's [print] *)
Variable interrupt : D -> D * py_exn.           (** the [KeyboardInterrupt] handler *)

(** The [while True:] loop, lines 191-193 (HX711) and 200-202 (NAU7802). *)
Fixpoint loop (es : list (loop_event I)) (d : D) (out : list O) : loop_end O D :=
  match es with
  | [] => Looping out d
  | LPrint :: es' => loop es' d (out ++ [show d])
  | LFall :: es' => loop es' (fall d) out
  | LTick i :: es' =>
      match tick i d with
      | Ok (d', o) => loop es' d' (out ++ o)
      | Raise e => CallbackRaised out d e
      end
  | LCtrlC :: _ => let (d', e) := interrupt d in Uncaught out d' e
  end.

Lemma loop_app es1 es2 d out :
  loop (es1 ++ es2) d out =
  match loop es1 d out with
  | Looping out' d' => loop es2 d' out'
  | r => r
  end.
Proof.
  revert d out. induction es1 as [|[| |i|] es1 IH]; intros d out; cbn; [done|done|done| |].
  - destruct (tick i d) as [[d' o]|e]; [apply IH|done].
  - by destruct (interrupt d).
Qed.

(** A property of the object that every tick keeps without raising and
    every edge keeps holds throughout any run of the loop without
    Ctrl-C, and the loop is still running at its end. *)
Lemma loop_invariant (P : D -> Prop) :
  (forall i d, P d -> exists d' o, tick i d = Ok (d', o) /\ P d') ->
  (forall d, P d -> P (fall d)) ->
  forall es d out, P d -> Forall (fun e => e <> LCtrlC) es ->
  exists out' d', loop es d out = Looping out' d' /\ P d'.
Proof.
  intros Htick Hfall es. induction es as [|e es IH]; intros d out Hd Hes; [by exists out, d|].
  apply Forall_cons in Hes as [He Hes].
  destruct e as [| |i|]; cbn [loop]; [by apply IH|apply IH; [by apply Hfall|done]| |done].
  destruct (Htick i d Hd) as (d' & o & Ht & Hd'). rewrite Ht. by apply IH.
Qed.
End Loop.

(** The samples of a filter and what the loop prints after each: the
    reference behaviour of a loop in which every tick reads one sample
    and every pass prints once. *)
Fixpoint filter_prints `{SampleFilter St} (show : St -> printed) (ss : list Z) (f : St)
    : result (list printed * St) :=
  match ss with
  | [] => Ok ([], f)
  | s :: ss' =>
      f' <- sf_accept s f ;;
      let! (out, f'') := filter_prints show ss' f' in Ok (show f' :: out, f'')
  end.

(** The same reference behaviour for a filter whose step also prints:
    after each sample, the lines the step printed, then the loop's. *)
Fixpoint filter_prints_out {St O : Type} (step : Z -> St -> result (St * list O))
    (show : St -> O) (ss : list Z) (f : St) : result (list O * St) :=
  match ss with
  | [] => Ok ([], f)
  | s :: ss' =>
      let! (f', o) := step s f in
      let! (out, f'') := filter_prints_out step show ss' f' in Ok (o ++ show f' :: out, f'')
  end.

(** ** HX711 *)

Module HX711Demo.
Import HX711Device.

(** Line 186: [HX711(SCK=5, DOUT=4, ChMode=ChAx128, TimerPort=Tim)]. *)
Definition ADC0 : device := init 5 4 ChAx128 true.

(** Lines 184-190: construction, [PowerOn()], [startReadADC(1, 2)]; the
    sleeps change nothing. *)
(** Lines 189-190 once [PowerOn()] returned [d1]: [if ADC.startReadADC(1,2):]. *)
Definition hx711_start (d1 : device) : main_end device :=
  match startReadADC 1 2 d1 with
  | Ok (r, d2) => if ret_truthy r then MainLoop d2 else MainDone d2
  | Raise e => MainSwallowed e
  end.

Definition hx711_main (fuel : nat) (falls : nat -> bool) : main_end device :=
  match PowerOn fuel falls ADC0 with
  | None => MainHang
  | Some d1 => hx711_start d1
  end.

(** A line the HX711 script writes to the console. *)
Inductive line :=
| Values (p : printed)      (** line 192: [print(ADC.MeanValue, ADC.LinRegVal, ADC.ValStable)] *)
| Corrected (backup : Z).  (** line 112: [print("Corrected: remove %d"%(backup))] *)

(** The timer's callback runs only while the timer is periodic; it
    prints the backups the recheck reports. *)
Definition tick (dout : nat -> Z) (d : device) : result (device * list line) :=
  match Tim d with
  | Some (TimPeriodic _) => let! (d', pr) := updateADC_out dout d in Ok (d', map Corrected pr)
  | _ => Ok (d, [])
  end.

(** The falling edge runs the handler while it is armed. *)
Definition fall (d : device) : device := if irq d then PinDOUT_IRQHandler d else d.

Definition show_filt (f : HX711Filter.state) : printed :=
  (HX711Filter.MeanValue f, HX711Filter.LinRegVal f, HX711Filter.ValStable f).

Definition show_line (f : HX711Filter.state) : line := Values (show_filt f).

Definition show (d : device) : line := show_line (filt d).

(** The filter's step on one sample with the lines it prints: the
    reference for what the callback does to the filter and the console. *)
Definition filt_step (s : Z) (f : HX711Filter.state) : result (HX711Filter.state * list line) :=
  let! (f', pr) := HX711Filter.accept_out s f in Ok (f', map Corrected pr).

(** Lines 194-197: [startReadADC(0)] (default [Freq=2]) if reading,
    [PowerOff()] if powered, then [machine.reset()], a [NameError]. *)
Definition on_KeyboardInterrupt (d : device) : device * py_exn :=
  match (if truthy (Status d &. Status_PeriodicRead)
         then r <- startReadADC 0 2 d ;; Ok (snd r) else Ok d) with
  | Raise e => (d, e)
  | Ok d1 => (if truthy (Status d1 &. Status_PowerOn) then PowerOff d1 else d1, NameError)
  end.

(** [PowerOn]'s busy-wait (line 66) with Ctrl-C arriving during its
    [j]-th sleep: [inl d] it returned first with [d], [inr d] the
    [KeyboardInterrupt] is raised while the object is [d]. *)
Fixpoint wait_or_interrupt (j k : nat) (falls : nat -> bool) (d : device) : device + device :=
  if truthy (Status d &. Status_OutReady) then inl d
  else
    match j with
    | O => inr d
    | S j' => wait_or_interrupt j' (S k) falls (if falls k && irq d then PinDOUT_IRQHandler d else d)
    end.

(** The try block with Ctrl-C during [PowerOn]'s [j]-th sleep: either
    the wait returned first and the script goes on, or the handler of
    lines 194-197 runs on the object and raises. *)
Definition hx711_main_ctrl_c (j : nat) (falls : nat -> bool) : main_end device + (device * py_exn) :=
  if Z.eqb (Status ADC0 &. (Status_Inited |. Status_PowerOn)) Status_Inited then
    match wait_or_interrupt j 0 falls
            (set_sck 0 (set_irq true (set_Status (Status ADC0 |. Status_PowerOn) ADC0))) with
    | inl d1 => inl (hx711_start d1)
    | inr d1 => inr (on_KeyboardInterrupt d1)
    end
  else inl (hx711_start ADC0).

Definition hx711_loop (es : list (loop_event (nat -> Z))) (d : device) : loop_end line device :=
  loop tick fall show on_KeyboardInterrupt es d [].

(** The object while the loop runs: the timer at 2 Hz, channel A at
    gain 128, and either a conversion ready (0xBC) or none and the
    interrupt armed (0xB8). *)
Definition loop_inv (d : device) : Prop :=
  Tim d = Some (TimPeriodic 2) /\ ChMode d = ChAx128 /\ HX711Filter.wf (filt d) /\
  (Status d = 0xBC \/ (Status d = 0xB8 /\ irq d = true)).

(** Every tick reads one sample, DOUT falls, the loop prints. *)
Definition cycles (ds : list (nat -> Z)) : list (loop_event (nat -> Z)) :=
  flat_map (fun dout => [LTick dout; LFall; LPrint]) ds.

(** The value [getRawData] decodes with [__ChMode = ChAx128]. *)
Definition sample (dout : nat -> Z) : Z := HX711Wire.getRawData_value (Z.to_nat ChAx128) dout.

(** The whole script: the try block, then the loop on the events [es]. *)
Definition hx711_script (fuel : nat) (falls : nat -> bool) (es : list (loop_event (nat -> Z)))
    : main_end device + loop_end line device :=
  match hx711_main fuel falls with
  | MainLoop d => inr (hx711_loop es d)
  | m => inl m
  end.

End HX711Demo.

Module HX711DemoFacts.
Import HX711Device HX711DeviceFacts HX711Demo.

Lemma ADC0_eq : ADC0 = mkDev 0xA0 25 (Some TimIdle) 1 false HX711Filter.init.
Proof. reflexivity. Qed.

Lemma inv_ADC0 : inv ADC0.
Proof. apply inv_initial, initial_init. Qed.

(** [startReadADC(1, 2)] on the object [PowerOn] returns. *)
Lemma start_after_PowerOn d :
  Status d = 0xB4 -> Tim d = Some TimIdle ->
  startReadADC 1 2 d =
  Ok (Some 1, set_Status 0xBC (set_Tim (Some (TimPeriodic 2))
                (set_filt (HX711Filter.reset (filt d)) d))).
Proof. intros HS HT. unfold startReadADC. by rewrite HS, HT. Qed.

(** The try block of the HX711 demo reaches the loop. *)
Lemma main_reaches_loop fuel falls k :
  falls k = true -> (k + 2 <= fuel)%nat ->
  exists d, hx711_main fuel falls = MainLoop d /\ Status d = 0xBC /\ loop_inv d /\
    filt d = HX711Filter.reset HX711Filter.init.
Proof.
  intros Hk Hf.
  destruct (PowerOn_ready ADC0 fuel falls k) as (d1 & HP & _ & _ & HT & HF & HS & HM);
    [exact inv_ADC0|reflexivity|reflexivity|done|done|].
  rewrite ADC0_eq in HT, HF, HS, HM. cbn [Status Tim filt ChMode] in HT, HF, HS, HM.
  change (0xA0 |. Status_PowerOn |. Status_OutReady) with 0xB4 in HS.
  unfold hx711_main. rewrite HP. unfold hx711_start. rewrite start_after_PowerOn by done.
  cbn [ret_truthy truthy].
  eexists. split; [reflexivity|]. cbn [Status Tim filt ChMode set_Status set_Tim set_filt].
  rewrite HF. split; [done|]. split; [|done].
  split; [done|]. split; [exact HM|]. split; [|by left].
  by apply HX711FilterScenarios.wf_reset.
Qed.

(** [getRawData] on the loop's object with a conversion ready. *)
Lemma getRawData_BC d dout :
  Status d = 0xBC -> ChMode d = ChAx128 ->
  getRawData dout d = (sample dout, set_irq true (set_sck 0 (set_Status 0xB8 d))).
Proof. intros HS HM. unfold getRawData, sample. rewrite HS, HM. reflexivity. Qed.

(** The filter through its interface; stated for any sample, so that
    no conversion unfolds the bit-serial decoding of a symbolic one. *)
Lemma sf_accept_hx711 v f : sf_accept v f = HX711Filter.accept v f.
Proof. reflexivity. Qed.

Lemma accept_ok v f :
  HX711Filter.wf f ->
  exists f' pr, HX711Filter.accept_out v f = Ok (f', pr) /\ HX711Filter.wf f'.
Proof.
  intros Hw. destruct (@sf_accept_wf _ hx711_filter hx711_filter_laws v f Hw) as (f' & Hf & Hwf).
  rewrite sf_accept_hx711 in Hf. destruct (HX711FilterFacts.accept_out_of v f f' Hf) as (pr & Hpr). eauto.
Qed.

(** The timer callback on the loop's object with a conversion ready. *)
Lemma tick_BC d dout :
  Tim d = Some (TimPeriodic 2) -> ChMode d = ChAx128 -> Status d = 0xBC ->
  tick dout d = (let! (f, pr) := HX711Filter.accept_out (sample dout) (filt d) in
                 Ok (set_filt f (set_irq true (set_sck 0 (set_Status 0xB8 d))), map Corrected pr)).
Proof.
  intros HT HM HS.
  assert (Hr : truthy (Status d &. Status_OutReady) = true) by (rewrite HS; reflexivity).
  unfold tick, updateADC_out. rewrite HT, Hr, getRawData_BC by done. cbv iota beta.
  change (filt (set_irq true (set_sck 0 (set_Status 0xB8 d)))) with (filt d).
  by destruct (HX711Filter.accept_out (sample dout) (filt d)) as [[f pr]|e].
Qed.

(** A tick with a conversion ready reads one sample into the filter and
    prints what the filter prints. *)
Lemma tick_ready d dout :
  loop_inv d -> Status d = 0xBC ->
  exists f' pr, HX711Filter.accept_out (sample dout) (filt d) = Ok (f', pr) /\
    HX711Filter.wf f' /\
    tick dout d = Ok (set_filt f' (set_irq true (set_sck 0 (set_Status 0xB8 d))), map Corrected pr).
Proof.
  intros (HT & HM & HW & _) HS.
  destruct (accept_ok (sample dout) (filt d) HW) as (f' & pr & Hf & Hwf).
  exists f', pr. split; [exact Hf|]. split; [exact Hwf|].
  rewrite tick_BC by done. rewrite Hf. reflexivity.
Qed.

(** Without a conversion ready, a tick does nothing and prints nothing. *)
Lemma tick_waiting d dout : Status d = 0xB8 -> tick dout d = Ok (d, []).
Proof.
  intros HS. unfold tick, updateADC_out. rewrite HS.
  by destruct (Tim d) as [[|]|].
Qed.

(** DOUT's falling edge with the handler armed: a conversion is ready. *)
Lemma fall_armed d :
  loop_inv d -> irq d = true -> fall d = set_Status 0xBC (set_irq false d).
Proof.
  intros (_ & _ & _ & HS) Hi. unfold fall, PinDOUT_IRQHandler. rewrite Hi.
  cbn [Status set_irq]. by destruct HS as [HS|[HS _]]; rewrite HS.
Qed.

Lemma loop_inv_ready d : loop_inv d -> loop_inv (set_Status 0xBC (set_irq false d)).
Proof. intros (HT & HM & HW & _). split; [done|]. split; [done|]. split; [done|by left]. Qed.

Lemma fall_inv d : loop_inv d -> loop_inv (fall d).
Proof.
  intros Hinv. destruct (irq d) eqn:Hi.
  - rewrite fall_armed by done. by apply loop_inv_ready.
  - unfold fall. by rewrite Hi.
Qed.

(** One cycle of the loop: a tick reads the sample and the callback
    prints what the filter reports, DOUT falls, the loop prints what
    the filter now holds. *)
Lemma cycle_run d dout es out :
  loop_inv d -> Status d = 0xBC ->
  exists f' pr d', HX711Filter.accept_out (sample dout) (filt d) = Ok (f', pr) /\
    loop tick fall show on_KeyboardInterrupt (LTick dout :: LFall :: LPrint :: es) d out =
    loop tick fall show on_KeyboardInterrupt es d' (out ++ map Corrected pr ++ [show_line f']) /\
    loop_inv d' /\ Status d' = 0xBC /\ filt d' = f'.
Proof.
  intros Hinv HS. destruct (tick_ready d dout Hinv HS) as (f' & pr & Hf & Hwf & Ht).
  pose proof Hinv as (HT & HM & _).
  set (d1 := set_filt f' (set_irq true (set_sck 0 (set_Status 0xB8 d)))) in Ht.
  assert (Hi1 : loop_inv d1).
  { split; [done|]. split; [done|]. split; [done|by right]. }
  exists f', pr, (set_Status 0xBC (set_irq false d1)). split; [exact Hf|].
  cbn [loop]. rewrite Ht. cbn [loop]. rewrite fall_armed by done.
  split; [by rewrite <- app_assoc|]. split; [by apply loop_inv_ready|]. done.
Qed.

Lemma cycles_run ds d out :
  loop_inv d -> Status d = 0xBC ->
  exists outs d', filter_prints_out filt_step show_line (map sample ds) (filt d) = Ok (outs, filt d') /\
    loop tick fall show on_KeyboardInterrupt (cycles ds) d out = Looping (out ++ outs) d' /\
    loop_inv d' /\ Status d' = 0xBC.
Proof.
  revert d out. induction ds as [|dout ds IH]; intros d out Hinv HS.
  - exists [], d. by rewrite app_nil_r.
  - destruct (cycle_run d dout (cycles ds) out Hinv HS)
      as (f' & pr & d1 & Hf & Hl & Hinv1 & HS1 & Hf1).
    destruct (IH _ (out ++ map Corrected pr ++ [show_line f']) Hinv1 HS1)
      as (outs & d' & Hp & Hl' & Hi' & HS').
    exists (map Corrected pr ++ show_line f' :: outs), d'.
    cbn [cycles flat_map app map filter_prints_out]. unfold filt_step at 1.
    rewrite Hf. cbn [rbind]. rewrite Hf1 in Hp. rewrite Hp. cbn [rbind].
    split; [done|]. fold (cycles ds). rewrite Hl, Hl', <- !app_assoc. done.
Qed.

(** In the loop, a tick leaves the loop's invariant and raises nothing. *)
Lemma tick_inv dout d : loop_inv d -> exists d' o, tick dout d = Ok (d', o) /\ loop_inv d'.
Proof.
  intros Hinv. pose proof Hinv as (HT & HM & HW & [HS|[HS Hi]]).
  - destruct (tick_ready d dout Hinv HS) as (f' & pr & _ & Hwf & Ht). eexists _, _.
    split; [exact Ht|]. split; [done|]. split; [done|]. split; [done|by right].
  - exists d, []. split; [by apply tick_waiting|done].
Qed.

(** Any interleaving of passes, ticks and edges without Ctrl-C keeps
    the loop running: no tick raises. *)
Lemma loop_runs es d out :
  loop_inv d -> Forall (fun e => e <> LCtrlC) es ->
  exists out' d', loop tick fall show on_KeyboardInterrupt es d out = Looping out' d' /\
    loop_inv d'.
Proof.
  intros Hinv Hes.
  by apply (loop_invariant tick fall show on_KeyboardInterrupt loop_inv tick_inv fall_inv).
Qed.

(** The [KeyboardInterrupt] handler on the loop's object. *)
Lemma interrupt_loop d :
  loop_inv d ->
  exists d', on_KeyboardInterrupt d = (d', NameError) /\ Status d' = 0xA0 /\
    Tim d' = Some TimIdle /\ filt d' = filt d.
Proof.
  intros (HT & _ & _ & HS). unfold on_KeyboardInterrupt, startReadADC, PowerOff.
  destruct HS as [HS|[HS _]]; rewrite HS, HT; eexists; (split; [reflexivity|]); done.
Qed.

(** C20: The HX711 demo reaches its print loop: if DOUT falls during the
    [k]-th sleep of [PowerOn]'s busy-wait (and the busy-wait is given
    [k + 2] passes), [startReadADC(1, 2)] returns 1 and the loop starts
    with a conversion ready (status 0xBC), the timer at 2 Hz, channel
    A at gain 128 and the filter reset. *)
Theorem hx711_demo_reads fuel falls k :
  falls k = true -> (k + 2 <= fuel)%nat ->
  exists d, hx711_main fuel falls = MainLoop d /\ Status d = 0xBC /\ loop_inv d /\
    filt d = HX711Filter.reset HX711Filter.init.
Proof. exact (main_reaches_loop fuel falls k). Qed.

(** C18: What the HX711 demo writes to the console is the filter's
    output on the samples it reads: once the loop runs, if each timer
    tick finds a conversion ready, reads it and DOUT then falls before
    the next pass prints, the lines written, both the callback's
    [Corrected: remove] reports (line 112) and the loop's values (line
    192), in order, are exactly those of the reference
    [filter_prints_out] run with the filter's step [accept_out] from
    its initial state on the decoded samples, and the filter ends in
    the state that reference reaches. *)
Theorem hx711_demo_prints fuel falls k ds :
  falls k = true -> (k + 2 <= fuel)%nat ->
  exists outs d', hx711_script fuel falls (cycles ds) = inr (Looping outs d') /\
    filter_prints_out filt_step show_line (map sample ds) HX711Filter.init = Ok (outs, filt d').
Proof.
  intros Hk Hf. destruct (main_reaches_loop fuel falls k Hk Hf) as (d & Hm & HS & Hinv & Hfd).
  destruct (cycles_run ds d [] Hinv HS) as (outs & d' & Hp & Hl & _).
  exists outs, d'. unfold hx711_script, hx711_loop. rewrite Hm, Hl.
  split; [done|]. by rewrite <- Hp, Hfd.
Qed.

(** C14: Ctrl-C ends the HX711 demo with a [NameError]: after any
    interleaving of loop passes, timer ticks and DOUT edges (none of
    which raises), the handler stops the periodic reading (timer back
    to idle) and powers the converter off (status 0xA0: Inited and
    EnTimer only), then [machine.reset()] raises [NameError] because
    the module never imported [machine]. *)
Theorem hx711_demo_ctrl_c fuel falls k es es' :
  falls k = true -> (k + 2 <= fuel)%nat -> Forall (fun e => e <> LCtrlC) es ->
  exists out d', hx711_script fuel falls (es ++ LCtrlC :: es') = inr (Uncaught out d' NameError) /\
    Status d' = 0xA0 /\ Tim d' = Some TimIdle.
Proof.
  intros Hk Hf Hes. destruct (main_reaches_loop fuel falls k Hk Hf) as (d & Hm & _ & Hinv & _).
  destruct (loop_runs es d [] Hinv Hes) as (out & d1 & Hl & Hinv1).
  destruct (interrupt_loop d1 Hinv1) as (d' & Hi & HS & HT & _).
  exists out, d'. unfold hx711_script, hx711_loop. rewrite Hm, loop_app, Hl. cbn [loop].
  by rewrite Hi.
Qed.

(** While DOUT does not fall, the busy-wait on the object [PowerOn]
    prepared runs until Ctrl-C, without changing it. *)
Lemma wait_interrupted j k falls d :
  Status d = 0xB0 -> (forall i, (i < j)%nat -> falls (k + i)%nat = false) ->
  wait_or_interrupt j k falls d = inr d.
Proof.
  intros HS. revert k. induction j as [|j IH]; intros k Hf; cbn [wait_or_interrupt];
    rewrite HS; [done|].
  specialize (Hf 0%nat ltac:(lia)) as Hk. rewrite Nat.add_0_r in Hk. rewrite Hk. cbn [andb].
  apply IH. intros i Hi. replace (S k + i)%nat with (k + S i)%nat by lia. apply Hf. lia.
Qed.

(** C16: Ctrl-C while the HX711 demo waits in [PowerOn] (DOUT has not
    fallen during the first [j] sleeps): the handler finds no periodic
    reading, powers the converter off (status 0xA0, the timer never
    armed, the filter untouched), then [machine.reset()] raises
    [NameError]; nothing was printed. *)
Theorem hx711_demo_ctrl_c_wait j falls :
  (forall i, (i < j)%nat -> falls i = false) ->
  exists d', hx711_main_ctrl_c j falls = inr (d', NameError) /\ Status d' = 0xA0 /\
    Tim d' = Some TimIdle /\ filt d' = HX711Filter.init.
Proof.
  intros Hf. unfold hx711_main_ctrl_c. rewrite ADC0_eq.
  rewrite wait_interrupted by (done || (intros i Hi; by apply Hf)).
  eexists. split; [reflexivity|]. done.
Qed.

End HX711DemoFacts.

(** ** NAU7802 *)

Module NAU7802Demo.
Import NAU7802Device.

(** Line 195: [NAU7802(SCL=5, SDA=4, PinDRDY=-1, Gain=Gain128,
    ADCSPS=SPS80, TimerPort=Tim)]; [present] is the bus scan's answer. *)
Definition ADC0 (present : bool) : device := init 5 4 (-1) Gain128 SPS80 present true.

(** Line 199: [if ADC.startReadADC(1,80):] enters the loop. *)
Definition nau_start (d1 : device) : main_end device :=
  match startReadADC 1 80 d1 with
  | Ok (r, d2) => if ret_truthy r then MainLoop d2 else MainDone d2
  | Raise e => MainSwallowed e
  end.

(** Lines 193-199: construction, [PowerOn()], [startReadADC(1, 80)]. *)
Definition nau_main (fuel : nat) (c : chip) (present : bool) : main_end device :=
  match PowerOn fuel c (ADC0 present) with
  | None => MainHang
  | Some (Raise e) => MainSwallowed e
  | Some (Ok d1) => nau_start d1
  end.

(** The timer's callback, with the converter [c]; it sees no input and
    prints nothing. *)
Definition tick (c : chip) (_ : unit) (d : device) : result (device * list printed) :=
  match Tim d with
  | Some (TimPeriodic _) => d' <- updateADC c d ;; Ok (d', [])
  | _ => Ok (d, [])
  end.

(** No handler is attached to a DRDY edge. *)
Definition fall (d : device) : device := d.

Definition show_filt (f : NAU7802Filter.state) : printed :=
  (NAU7802Filter.MeanValue f, NAU7802Filter.LinRegVal f, NAU7802Filter.ValStable f).

Definition show (d : device) : printed := show_filt (filt d).

(** Lines 203-206: [startReadADC(0)] (default [Freq=10]) if reading,
    [PowerOff()] if powered, then [machine.reset()], a [NameError]. *)
Definition on_KeyboardInterrupt (d : device) : device * py_exn :=
  match (if truthy (Status d &. Status_PeriodicRead)
         then r <- startReadADC 0 10 d ;; Ok (snd r) else Ok d) with
  | Raise e => (d, e)
  | Ok d1 =>
      match (if truthy (Status d1 &. Status_PowerOn) then PowerOff d1 else Ok d1) with
      | Ok d2 => (d2, NameError)
      | Raise e => (d1, e)
      end
  end.

(** [PowerOn]'s loop, lines 107-112, with Ctrl-C raised in its [j]-th
    [sleep(0.1)] (from 0), which follows every pass: [inl d] the loop
    ended first with [d], [inr d] the [KeyboardInterrupt] is raised
    while the object is [d]. *)
Fixpoint nau_wait_or_interrupt (j : nat) (c : chip) (d : device) : result (device + device) :=
  if (Status d &. Status_ADCReady) =? 0 then
    d' <- poll c d ;;
    match j with
    | O => Ok (inr d')
    | S j' => nau_wait_or_interrupt j' c d'
    end
  else Ok (inl d).

(** The try block with Ctrl-C during [PowerOn]'s [j]-th sleep: the
    loop ended first and the script goes on, or the handler of lines
    203-206 runs on the object and raises; an exception of the bus is
    swallowed by the bare [except]. *)
Definition nau_main_ctrl_c (j : nat) (c : chip) (present : bool)
    : main_end device + (device * py_exn) :=
  if (Status (ADC0 present) &. (Status_Inited |. Status_PowerOn)) =? Status_Inited then
    match power_up c (ADC0 present) with
    | Raise e => inl (MainSwallowed e)
    | Ok d1 =>
        match nau_wait_or_interrupt j c d1 with
        | Ok (inl d2) => inl (nau_start d2)
        | Ok (inr d2) => inr (on_KeyboardInterrupt d2)
        | Raise e => inl (MainSwallowed e)
        end
    end
  else inl (nau_start (ADC0 present)).

Definition nau_loop (c : chip) (es : list (loop_event unit)) (d : device) : loop_end printed device :=
  loop (tick c) fall show on_KeyboardInterrupt es d [].

Definition nau_script (fuel : nat) (c : chip) (present : bool) (es : list (loop_event unit))
    : main_end device + loop_end printed device :=
  match nau_main fuel c present with
  | MainLoop d => inr (nau_loop c es d)
  | m => inl m
  end.

(** The value [getRawData] decodes from the conversion registers when
    the bus history is [tr]. *)
Definition sample_at (c : chip) (tr : list i2c_op) : Z :=
  NAU7802Wire.getRawData_value (reg_value c tr 0x12 mod 2 ^ 8) (reg_value c tr 0x13 mod 2 ^ 8)
    (reg_value c tr 0x14 mod 2 ^ 8).

(** The samples [n] successive reads see from the history [tr] on: each
    read is one more transaction on the bus. *)
Fixpoint samples (c : chip) (tr : list i2c_op) (n : nat) : list Z :=
  match n with
  | O => []
  | S n' => sample_at c tr :: samples c (tr ++ [I2CRead ADDR 0x12 3]) n'
  end.

(** [n] passes of the loop, each after one timer tick. *)
Definition cycles (n : nat) : list (loop_event unit) := concat (repeat [LTick tt; LPrint] n).

End NAU7802Demo.

Module NAU7802DemoFacts.
Import NAU7802Device NAU7802DeviceFacts NAU7802Demo.

(** The object while the loop runs: the invariant, status 0xBC (Inited,
    EnTimer, PowerOn, PeriodicRead, ADCReady) and the timer at 80 Hz. *)
Definition loop_inv (d : device) : Prop :=
  inv d /\ Status d = 0xBC /\ Tim d = Some (TimPeriodic 80).

Lemma nau_ADC0_eq :
  ADC0 true = mkDev 0xA0 0x2F 0x30 (Some 0) None (Some TimIdle) 80 NAU7802Filter.init [].
Proof. reflexivity. Qed.

Lemma nau_inv_ADC0 : inv (ADC0 true).
Proof. apply nau_inv_initial, initial_init. Qed.

Lemma sf_accept_nau v f : sf_accept v f = NAU7802Filter.accept v f.
Proof. reflexivity. Qed.

Lemma nau_accept_ok v f :
  NAU7802Filter.wf f -> exists f', NAU7802Filter.accept v f = Ok f' /\ NAU7802Filter.wf f'.
Proof.
  intros Hw. destruct (@sf_accept_wf _ nau7802_filter nau7802_filter_laws v f Hw)
    as (f' & Hf & Hwf).
  exists f'. by rewrite <- sf_accept_nau.
Qed.

(** The timer callback on an object with a conversion ready reads the
    registers and feeds the filter, without raising. *)
Lemma updateADC_ok c d :
  inv d -> fl_ready (decode (Status d)) = true ->
  exists d', updateADC c d = Ok d' /\ inv d' /\ Status d' = Status d /\ Tim d' = Tim d.
Proof.
  intros Hinv Hr. pose proof Hinv as (_ & Hpi & Hrp & _ & _ & _ & Hbus & _).
  assert (Hb : I2CBus d <> None) by auto.
  destruct (getRawData c d) as [[v d1]|e] eqn:Hg;
    [|by rewrite getRawData_spec in Hg].
  destruct (getRawData_frame c d v d1 Hg) as [(_ & _ & _ & _ & HT & _) HS].
  pose proof (nau_inv_getRawData c d v d1 Hinv Hg) as Hinv1.
  destruct (nau_accept_ok v (filt d1)) as (f' & Hf & _); [apply Hinv1|].
  assert (Hu : updateADC c d = Ok (set_filt f' d1)).
  { unfold updateADC. rewrite truthy_ADCReady, Hr, Hg. cbn [rbind]. by rewrite Hf. }
  exists (set_filt f' d1). split; [done|]. split; [by apply (nau_inv_updateADC c d)|].
  by cbn [Status Tim set_filt].
Qed.

Lemma nau_tick_inv c u d : loop_inv d -> exists d' o, tick c u d = Ok (d', o) /\ loop_inv d'.
Proof.
  intros (Hinv & HS & HT).
  destruct (updateADC_ok c d Hinv) as (d' & Hu & Hinv' & HS' & HT'); [by rewrite HS|].
  exists d', []. unfold tick. rewrite HT, Hu. split; [done|]. split; [done|].
  by rewrite HS', HT'.
Qed.

Lemma nau_loop_runs c es d out :
  loop_inv d -> Forall (fun e => e <> LCtrlC) es ->
  exists out' d', loop (tick c) fall show on_KeyboardInterrupt es d out = Looping out' d' /\
    loop_inv d'.
Proof.
  intros Hinv Hes.
  by apply (loop_invariant (tick c) fall show on_KeyboardInterrupt loop_inv (nau_tick_inv c)).
Qed.

(** The [KeyboardInterrupt] handler on the loop's object: the timer is
    disarmed, PU_CTRL gets 0x01 and the status keeps only Inited; then
    the [NameError]. *)
Lemma nau_interrupt_loop d :
  loop_inv d ->
  exists d', on_KeyboardInterrupt d = (d', NameError) /\ Status d' = 0x80 /\
    Tim d' = Some TimIdle /\ trace d' = trace d ++ [I2CWrite ADDR [0x00; 0x01]].
Proof.
  intros ((_ & _ & _ & _ & _ & _ & Hbus & _) & HS & HT).
  assert (Hb : I2CBus d <> None) by (apply Hbus; by rewrite HS).
  unfold on_KeyboardInterrupt, startReadADC. rewrite HS, HT. simpl.
  unfold PowerOff. simpl. rewrite writeto_ok by done.
  eexists. split; [reflexivity|]. done.
Qed.

(** The try block of the NAU7802 demo reaches the loop. *)
Lemma nau_main_reaches_loop fuel c k :
  (forall j, (j < k)%nat -> chip_ready c false (power_up_ops c (ADC0 true) ++ polls j) = false) ->
  chip_ready c false (power_up_ops c (ADC0 true) ++ polls k) = true -> (k + 2 <= fuel)%nat ->
  exists d, nau_main fuel c true = MainLoop d /\ loop_inv d /\
    filt d = NAU7802Filter.reset NAU7802Filter.init /\
    trace d = power_up_ops c (ADC0 true) ++ polls (S k).
Proof.
  intros Hbefore Hk Hf.
  destruct (nau_PowerOn_status fuel c (ADC0 true) k) as (d1 & HP & Hfr & HS1 & Htr);
    [exact nau_inv_ADC0|reflexivity|reflexivity|exact Hbefore|exact Hk|exact Hf|].
  pose proof (inv_PowerOn fuel c _ d1 nau_inv_ADC0 HP) as Hinv1.
  destruct Hfr as (_ & _ & _ & _ & HT & HSPS & HF).
  rewrite nau_ADC0_eq in HT, HSPS, HF, HS1. cbn [Status Tim SPS filt] in HT, HSPS, HF, HS1.
  change (0xA0 |. Status_PowerOn |. Status_ADCReady) with 0xB4 in HS1.
  assert (Hs : startReadADC 1 80 d1 =
    Ok (Some 1, set_Status 0xBC (set_Tim (Some (TimPeriodic 80))
                  (set_filt (NAU7802Filter.reset (filt d1)) d1)))).
  { unfold startReadADC. by rewrite HS1, HSPS, HT. }
  exists (set_Status 0xBC (set_Tim (Some (TimPeriodic 80))
            (set_filt (NAU7802Filter.reset (filt d1)) d1))).
  unfold nau_main. rewrite HP. unfold nau_start. rewrite Hs. split; [reflexivity|].
  split; [split; [|done]|]; [|by rewrite HF].
  apply (nau_inv_start d1 1 80 (Some 1)); done.
Qed.

(** C21: The NAU7802 demo reaches its print loop: with the converter on
    the bus, if it first reports ready at poll [k] of [PowerOn]'s
    busy-wait (given [k + 2] passes), [startReadADC(1, 80)] returns 1
    and the loop starts with the invariant, status 0xBC, the timer at
    80 Hz and the filter reset, after exactly the configuration writes
    and [k + 1] polls on the bus. *)
Theorem nau_demo_reads fuel c k :
  (forall j, (j < k)%nat -> chip_ready c false (power_up_ops c (ADC0 true) ++ polls j) = false) ->
  chip_ready c false (power_up_ops c (ADC0 true) ++ polls k) = true -> (k + 2 <= fuel)%nat ->
  exists d, nau_main fuel c true = MainLoop d /\ loop_inv d /\
    filt d = NAU7802Filter.reset NAU7802Filter.init /\
    trace d = power_up_ops c (ADC0 true) ++ polls (S k).
Proof. exact (nau_main_reaches_loop fuel c k). Qed.

(** C15: Ctrl-C ends the NAU7802 demo with a [NameError]: after any
    interleaving of loop passes and timer ticks (none of which raises),
    the handler disarms the timer and writes 0x01 to PU_CTRL as its
    last bus transaction, leaving only Inited in the status, then
    [machine.reset()] raises [NameError]. *)
Theorem nau_demo_ctrl_c fuel c k es es' :
  (forall j, (j < k)%nat -> chip_ready c false (power_up_ops c (ADC0 true) ++ polls j) = false) ->
  chip_ready c false (power_up_ops c (ADC0 true) ++ polls k) = true -> (k + 2 <= fuel)%nat ->
  Forall (fun e => e <> LCtrlC) es ->
  exists out d' tr, nau_script fuel c true (es ++ LCtrlC :: es') = inr (Uncaught out d' NameError) /\
    Status d' = 0x80 /\ Tim d' = Some TimIdle /\ trace d' = tr ++ [I2CWrite ADDR [0x00; 0x01]].
Proof.
  intros Hbefore Hk Hf Hes.
  destruct (nau_main_reaches_loop fuel c k Hbefore Hk Hf) as (d & Hm & Hinv & _).
  destruct (nau_loop_runs c es d [] Hinv Hes) as (out & d1 & Hl & Hinv1).
  destruct (nau_interrupt_loop d1 Hinv1) as (d' & Hi & HS & HT & Htr).
  exists out, d', (trace d1). unfold nau_script, nau_loop. rewrite Hm, loop_app, Hl. cbn [loop].
  by rewrite Hi.
Qed.

(** Without a converter answering the bus scan, the demo's object has
    status 0: [PowerOn] and [startReadADC] do nothing, [startReadADC]
    returns [None], and the script ends without a bus transaction. *)
Lemma nau_demo_absent fuel c : nau_main fuel c false = MainDone (ADC0 false).
Proof. reflexivity. Qed.

(** One pass of the NAU7802 loop after a tick: the conversion registers
    are read once and the filter takes their value. *)
Lemma nau_cycle_run c d es out :
  loop_inv d ->
  exists f' d', NAU7802Filter.accept (sample_at c (trace d)) (filt d) = Ok f' /\
    loop (tick c) fall show on_KeyboardInterrupt (LTick tt :: LPrint :: es) d out =
    loop (tick c) fall show on_KeyboardInterrupt es d' (out ++ [show_filt f']) /\
    loop_inv d' /\ trace d' = trace d ++ [I2CRead ADDR 0x12 3] /\ filt d' = f'.
Proof.
  intros Hinv. pose proof Hinv as ((_ & Hpi & Hrp & _ & _ & _ & Hbus & Hw) & HS & HT).
  assert (Hr : fl_ready (decode (Status d)) = true) by (rewrite HS; reflexivity).
  assert (Hb : I2CBus d <> None) by auto.
  destruct (nau_accept_ok (sample_at c (trace d)) (filt d) Hw) as (f' & Hf & _).
  destruct (updateADC_ok c d) as (d' & Hu & Hinv' & HS' & HT'); [apply Hinv|exact Hr|].
  assert (Hu' : updateADC c d = Ok (set_filt f' (log (I2CRead ADDR 0x12 3) d))).
  { unfold updateADC. rewrite truthy_ADCReady, Hr, getRawData_spec by done.
    cbn [rbind filt log]. fold (sample_at c (trace d)). by rewrite Hf. }
  rewrite Hu' in Hu. injection Hu as <-.
  exists f', (set_filt f' (log (I2CRead ADDR 0x12 3) d)). split; [exact Hf|].
  cbn [loop]. unfold tick at 1. rewrite HT, Hu'. cbn [rbind loop].
  split; [by rewrite app_nil_r|]. split; [split; [done|]; by rewrite HS', HT'|]. done.
Qed.

Lemma nau_cycles_run c n d out :
  loop_inv d ->
  exists outs d', filter_prints show_filt (samples c (trace d) n) (filt d) = Ok (outs, filt d') /\
    loop (tick c) fall show on_KeyboardInterrupt (cycles n) d out = Looping (out ++ outs) d' /\
    loop_inv d'.
Proof.
  revert d out. induction n as [|n IH]; intros d out Hinv.
  - exists [], d. by rewrite app_nil_r.
  - destruct (nau_cycle_run c d (cycles n) out Hinv) as (f' & d1 & Hf & Hl & Hinv1 & Htr & Hf1).
    destruct (IH d1 (out ++ [show_filt f']) Hinv1) as (outs & d' & Hp & Hl' & Hi').
    exists (show_filt f' :: outs), d'. cbn [samples filter_prints].
    rewrite sf_accept_nau, Hf. cbn [rbind]. rewrite Htr, Hf1 in Hp. rewrite Hp. cbn [rbind].
    split; [done|]. cbn [cycles repeat concat app]. fold (cycles n).
    rewrite Hl, Hl', <- app_assoc. done.
Qed.

(** C19: What the NAU7802 demo prints is the filter's output on what the
    converter presents: once the loop runs, after [n] passes each
    preceded by a timer tick, the lines printed are exactly those of
    the filter specification [filter_prints] run from its initial state
    on the values the conversion registers hold at each of the [n]
    reads, and the filter ends in the state that specification reaches. *)
Theorem nau_demo_prints fuel c k n :
  (forall j, (j < k)%nat -> chip_ready c false (power_up_ops c (ADC0 true) ++ polls j) = false) ->
  chip_ready c false (power_up_ops c (ADC0 true) ++ polls k) = true -> (k + 2 <= fuel)%nat ->
  exists outs d', nau_script fuel c true (cycles n) = inr (Looping outs d') /\
    filter_prints show_filt (samples c (power_up_ops c (ADC0 true) ++ polls (S k)) n)
      NAU7802Filter.init = Ok (outs, filt d').
Proof.
  intros Hbefore Hk Hf.
  destruct (nau_main_reaches_loop fuel c k Hbefore Hk Hf) as (d & Hm & Hinv & Hfd & Htr).
  destruct (nau_cycles_run c n d [] Hinv) as (outs & d' & Hp & Hl & _).
  exists outs, d'. unfold nau_script, nau_loop. rewrite Hm, Hl.
  split; [done|]. by rewrite <- Hp, Hfd, Htr.
Qed.

(** While the converter does not report ready, [j + 1] passes of the
    loop only read registers 0x1F and 0x00 and the Ctrl-C of the [j]-th
    sleep finds the object with its attributes and status kept. *)
Lemma nau_wait_interrupted j c d :
  let en := fl_en_drdy (decode (Status d)) in
  I2CBus d <> None -> (en = true -> PinDRDY d <> None) -> fl_ready (decode (Status d)) = false ->
  (forall i, (i <= j)%nat -> chip_ready c en (trace d ++ polls i) = false) ->
  exists d', nau_wait_or_interrupt j c d = Ok (inr d') /\ frame d d' /\ Status d' = Status d /\
    trace d' = trace d ++ polls (S j).
Proof.
  revert d. induction j as [|j IH]; intros d en Hb Hp Hr Hnever; cbn [nau_wait_or_interrupt];
    rewrite guard_ready_clear, Hr; cbn [negb]; rewrite poll_spec by done; fold en;
    pose proof (Hnever 0%nat ltac:(lia)) as H0; rewrite app_nil_r in H0; rewrite H0; cbn [rbind].
  - exists (after_poll d). split; [done|]. split; [apply frame_after_poll|]. split; [done|].
    rewrite trace_after_poll. unfold polls. cbn [repeat concat]. by rewrite app_nil_r.
  - assert (Hst : Status (after_poll d) = Status d) by done.
    destruct (IH (after_poll d)) as (d' & Hw & Hfr & Hs & Ht);
      [done|rewrite Hst; done|rewrite Hst; done| |].
    + intros i Hi. rewrite Hst, <- trace_polls_S. apply Hnever. lia.
    + exists d'. split; [done|]. split; [eapply frame_trans; [apply frame_after_poll|done]|].
      rewrite Hs, Hst. split; [done|]. by rewrite Ht, <- trace_polls_S.
Qed.

(** C17: Ctrl-C while the NAU7802 demo polls in [PowerOn] (the
    converter has not reported ready in the [j + 1] passes before the
    sleep): the handler finds no periodic reading and calls [PowerOff],
    whose write of 0x01 to PU_CTRL follows the configuration writes and
    the polls on the bus; the status keeps only Inited (EnTimer cleared
    too), the timer was never armed, the filter is untouched, and
    [machine.reset()] raises [NameError] with nothing printed. *)
Theorem nau_demo_ctrl_c_wait j c :
  (forall i, (i <= j)%nat -> chip_ready c false (power_up_ops c (ADC0 true) ++ polls i) = false) ->
  exists d', nau_main_ctrl_c j c true = inr (d', NameError) /\ Status d' = 0x80 /\
    Tim d' = Some TimIdle /\ filt d' = NAU7802Filter.init /\
    trace d' = power_up_ops c (ADC0 true) ++ polls (S j) ++ [I2CWrite ADDR [0x00; 0x01]].
Proof.
  intros Hnever.
  assert (HS0 : Status (ADC0 true) = 0xA0) by reflexivity.
  destruct (power_up_spec c (ADC0 true)) as (d1 & Hu & Hfr1 & Hs1 & Ht1); [discriminate|].
  rewrite HS0 in Hs1. change (0xA0 |. Status_PowerOn) with 0xB0 in Hs1.
  pose proof Hfr1 as (_ & _ & HB & _ & HT & _ & HF).
  destruct (nau_wait_interrupted j c d1) as (d2 & Hw & Hfr2 & Hs2 & Ht2);
    [rewrite HB; discriminate|rewrite Hs1; discriminate|rewrite Hs1; reflexivity| |].
  { intros i Hi. rewrite Hs1, Ht1. apply Hnever, Hi. }
  pose proof Hfr2 as (_ & _ & HB2 & _ & HT2 & _ & HF2).
  unfold nau_main_ctrl_c. rewrite HS0, Hu, Hw.
  change (0xA0 &. (Status_Inited |. Status_PowerOn) =? Status_Inited) with true.
  unfold on_KeyboardInterrupt, PowerOff. rewrite Hs2, Hs1.
  change (truthy (0xB0 &. Status_PeriodicRead)) with false. cbv iota. rewrite Hs2, Hs1.
  change (truthy (0xB0 &. Status_PowerOn)) with true. cbv iota.
  rewrite writeto_ok by (rewrite HB2, HB; discriminate).
  eexists. split; [reflexivity|]. cbn [Status Tim filt trace set_Status log].
  split; [by rewrite Hs2, Hs1|]. split; [by rewrite HT2, HT|]. split; [by rewrite HF2, HF|].
  by rewrite Ht2, Ht1, <- !app_assoc.
Qed.

End NAU7802DemoFacts.

(** ** Witnesses *)

Module DemoWitnesses.
Import HX711Demo NAU7802Demo NAU7802DeviceFacts NAU7802DeviceWitnesses.

(** DOUT falls at every sleep: [PowerOn] returns at its second check. *)
Definition always_falls : nat -> bool := fun _ => true.

Lemma hx711_demo_reads_witness :
  exists d, hx711_main 2 always_falls = MainLoop d /\ HX711Device.Status d = 0xBC /\
    HX711Demo.loop_inv d /\ HX711Device.filt d = HX711Filter.reset HX711Filter.init.
Proof. apply (HX711DemoFacts.hx711_demo_reads 2 always_falls 0); [reflexivity|lia]. Defined.

(** Twelve readings of 1000, a spike of 1000000, then 1000 again: the
    spike arms the recheck and the next reading removes it, which the
    callback reports on the console. *)
Definition spike_douts : list (nat -> Z) :=
  map HX711Wire.dout_of (repeat 1000 12 ++ [1000000; 1000]).

Lemma hx711_demo_prints_witness :
  exists outs d', hx711_script 2 always_falls (HX711Demo.cycles spike_douts) = inr (Looping outs d') /\
    filter_prints_out filt_step show_line (map sample spike_douts) HX711Filter.init =
      Ok (outs, HX711Device.filt d') /\
    In (Corrected 1000000) outs.
Proof.
  destruct (HX711DemoFacts.hx711_demo_prints 2 always_falls 0 spike_douts) as (outs & d' & Hs & Hp);
    [reflexivity|lia|].
  exists outs, d'. split; [exact Hs|]. split; [exact Hp|].
  vm_compute in Hp. injection Hp as <- _. vm_compute. tauto.
Defined.

Lemma hx711_demo_ctrl_c_witness :
  exists out d', hx711_script 2 always_falls
                   ([LPrint; LTick (HX711Wire.dout_of 7); LFall; LPrint] ++ LCtrlC :: [LPrint])
                 = inr (Uncaught out d' NameError) /\
    HX711Device.Status d' = 0xA0 /\ HX711Device.Tim d' = Some TimIdle.
Proof.
  apply (HX711DemoFacts.hx711_demo_ctrl_c 2 always_falls 0); [reflexivity|lia|].
  repeat constructor; discriminate.
Defined.

Lemma hx711_demo_ctrl_c_wait_witness :
  exists d', hx711_main_ctrl_c 3 (fun _ => false) = inr (d', NameError) /\ HX711Device.Status d' = 0xA0 /\
    HX711Device.Tim d' = Some TimIdle /\ HX711Device.filt d' = HX711Filter.init.
Proof. apply (HX711DemoFacts.hx711_demo_ctrl_c_wait 3 (fun _ => false)). intros; reflexivity. Defined.

Lemma nau_demo_reads_witness :
  exists d, nau_main 2 ready_chip true = MainLoop d /\ NAU7802DemoFacts.loop_inv d /\
    NAU7802Device.filt d = NAU7802Filter.reset NAU7802Filter.init /\
    NAU7802Device.trace d = power_up_ops ready_chip (ADC0 true) ++ polls 1.
Proof.
  apply (NAU7802DemoFacts.nau_demo_reads 2 ready_chip 0); [intros; lia|vm_compute; reflexivity|lia].
Defined.

Lemma nau_demo_ctrl_c_witness :
  exists out d' tr, nau_script 2 ready_chip true ([LTick tt; LPrint; LTick tt] ++ LCtrlC :: [])
                    = inr (Uncaught out d' NameError) /\
    NAU7802Device.Status d' = 0x80 /\ NAU7802Device.Tim d' = Some TimIdle /\
    NAU7802Device.trace d' = tr ++ [NAU7802Device.I2CWrite NAU7802Device.ADDR [0x00; 0x01]].
Proof.
  apply (NAU7802DemoFacts.nau_demo_ctrl_c 2 ready_chip 0);
    [intros; lia|vm_compute; reflexivity|lia|repeat constructor; discriminate].
Defined.

Lemma nau_demo_ctrl_c_wait_witness :
  exists d', nau_main_ctrl_c 2 stuck_chip true = inr (d', NameError) /\ NAU7802Device.Status d' = 0x80 /\
    NAU7802Device.Tim d' = Some TimIdle /\ NAU7802Device.filt d' = NAU7802Filter.init /\
    NAU7802Device.trace d' = power_up_ops stuck_chip (ADC0 true) ++ polls 3 ++
                             [NAU7802Device.I2CWrite NAU7802Device.ADDR [0x00; 0x01]].
Proof. apply (NAU7802DemoFacts.nau_demo_ctrl_c_wait 2 stuck_chip). intros i _. reflexivity. Defined.

Lemma nau_demo_prints_witness :
  exists outs d', nau_script 2 ready_chip true (NAU7802Demo.cycles 2) = inr (Looping outs d') /\
    filter_prints NAU7802Demo.show_filt
      (samples ready_chip (power_up_ops ready_chip (ADC0 true) ++ polls 1) 2)
      NAU7802Filter.init = Ok (outs, NAU7802Device.filt d').
Proof.
  apply (NAU7802DemoFacts.nau_demo_prints 2 ready_chip 0); [intros; lia|vm_compute; reflexivity|lia].
Defined.

End DemoWitnesses.
